(** * Honeypot: scam classifier, engagement strategy and entity extraction

    A shallow embedding of the decision pipeline of the honeypot
    ([scam_detector.py], [strategy_engine.py], [entity_extractor.py],
    [utils.py], [config.py] and the classification half of
    [llm_interface.py]) together with the properties stated about it.

    Conventions of the embedding.
    - Python [str] is [string]; the model is exact on ASCII text, where
      [str.lower], [str.strip], [\d], [\s], [\w] and [\b] have the
      meaning written out in [Text].
    - Python [int] is [Z]; Python [float] is read as the exact rationals
      [Q], so that [0.3], [0.85] and the like are the decimal fractions
      the source writes, wherever no statement turns on a rounding.  The
      arithmetic that fuses the layer scores is also read in IEEE doubles,
      as Python computes it, in [Binary64] and [Doubles]; what is stated
      of the fused confidence itself is stated there.
    - The [re] module is modelled by the backtracking matcher of [Re]:
      greedy quantifiers, ordered alternation, leftmost match, and
      non-overlapping left-to-right iteration for [finditer]/[findall].
    - Module-level singletons ([config], [extractor], [strategy], [llm])
      become explicit arguments and explicit state. *)

From Stdlib Require Import Bool Arith List ZArith QArith Qabs Qminmax Lia Lqa.
From Stdlib Require Import Strings.Ascii Strings.String.
From Stdlib Require Import Numbers.DecimalString.
Import ListNotations.

Open Scope string_scope.

(* ===================================================================== *)
(** * Text: the [str] operations the program uses                         *)
(* ===================================================================== *)

Module Text.

Definition code (c : ascii) : N := N_of_ascii c.

Definition in_range (lo hi c : ascii) : bool :=
  (code lo <=? code c)%N && (code c <=? code hi)%N.

Definition is_digit (c : ascii) : bool := in_range "0" "9" c.
Definition is_upper (c : ascii) : bool := in_range "A" "Z" c.
Definition is_lower (c : ascii) : bool := in_range "a" "z" c.

(** [str.isspace] on ASCII: TAB, LF, VT, FF, CR, FS, GS, RS, US, SPACE. *)
Definition is_space (c : ascii) : bool :=
  in_range "009" "013" c || in_range "028" "032" c.

(** [\w] on ASCII. *)
Definition is_word (c : ascii) : bool :=
  is_digit c || is_upper c || is_lower c || Ascii.eqb c "_".

Definition lower_char (c : ascii) : ascii :=
  if is_upper c then ascii_of_N (code c + 32) else c.

Definition upper_char (c : ascii) : ascii :=
  if is_lower c then ascii_of_N (code c - 32) else c.

(** [s.lower()] *)
Fixpoint lower (s : string) : string :=
  match s with
  | EmptyString => EmptyString
  | String c s' => String (lower_char c) (lower s')
  end.

(** [s.startswith(p)] *)
Fixpoint startswith (p s : string) : bool :=
  match p, s with
  | EmptyString, _ => true
  | String a p', String b s' => Ascii.eqb a b && startswith p' s'
  | String _ _, EmptyString => false
  end.

(** [sub in s] *)
Fixpoint contains (sub s : string) : bool :=
  startswith sub s ||
  match s with
  | EmptyString => false
  | String _ s' => contains sub s'
  end.

Fixpoint rev_acc (s acc : string) : string :=
  match s with
  | EmptyString => acc
  | String c s' => rev_acc s' (String c acc)
  end.

Definition rev (s : string) : string := rev_acc s EmptyString.

(** [s.endswith(p)] *)
Definition endswith (p s : string) : bool := startswith (rev p) (rev s).

(** [s.endswith((p1, p2, ...))] and [any(s.endswith(p) for p in ps)] *)
Definition endswith_any (ps : list string) (s : string) : bool :=
  existsb (fun p => endswith p s) ps.

Fixpoint lstrip (s : string) : string :=
  match s with
  | String c s' => if is_space c then lstrip s' else s
  | EmptyString => EmptyString
  end.

(** [s.strip()] *)
Definition strip (s : string) : string := rev (lstrip (rev (lstrip s))).

(** Keep the characters satisfying [p]; this is [re.sub(cls, '', s)] for a
    one-character class [cls] whose complement is [p]. *)
Fixpoint keep (p : ascii -> bool) (s : string) : string :=
  match s with
  | EmptyString => EmptyString
  | String c s' => if p c then String c (keep p s') else keep p s'
  end.

(** [s.replace(old, new)] for a non-empty [old]: occurrences are replaced
    left to right without overlap.  [skip] counts the characters of an
    occurrence already replaced that are still to be passed over. *)
Fixpoint replace_from (old new s : string) (skip : nat) : string :=
  match s with
  | EmptyString => EmptyString
  | String c s' =>
      match skip with
      | S k => replace_from old new s' k
      | O =>
          if startswith old s
          then new ++ replace_from old new s' (pred (String.length old))
          else String c (replace_from old new s' O)
      end
  end.

Definition replace (old new s : string) : string := replace_from old new s O.

(** [len(s.split())]: the number of maximal runs of non-blank characters. *)
Fixpoint count_words_from (in_word : bool) (s : string) : nat :=
  match s with
  | EmptyString => O
  | String c s' =>
      if is_space c then count_words_from false s'
      else if in_word then count_words_from true s'
           else S (count_words_from true s')
  end.

Definition count_words (s : string) : nat := count_words_from false s.

(** [sep.join(parts)] *)
Fixpoint join (sep : string) (parts : list string) : string :=
  match parts with
  | [] => ""
  | [p] => p
  | p :: rest => p ++ sep ++ join sep rest
  end.

(** [str(n)] for a length. *)
Definition of_nat (n : nat) : string := NilEmpty.string_of_uint (Nat.to_uint n).

(** [s[a:b]] for [0 <= a <= b]. *)
Definition slice (a b : nat) (s : string) : string := substring a (b - a) s.

(** [sum(1 for kw in kws if kw in s)] *)
Definition count_in (kws : list string) (s : string) : Z :=
  Z.of_nat (List.length (filter (fun kw => contains kw s) kws)).

End Text.

(* ===================================================================== *)
(** * Re: the fragment of Python's [re] the program's patterns need      *)
(* ===================================================================== *)

Module Re.
Import Text.

(** One item of a character class. *)
Inductive citem : Type :=
| One (c : ascii)            (* a literal character *)
| Range (lo hi : ascii)      (* [lo-hi] *)
| Digit                      (* \d *)
| Space                      (* \s *)
| Wordc.                     (* \w *)

Inductive regex : Type :=
| Eps
| Cls (negated : bool) (items : list citem)   (* [...], [^...], a literal, \d, \s *)
| Seq (r1 r2 : regex)
| Alt (r1 r2 : regex)                         (* r1|r2, r1 tried first *)
| Rep (r : regex) (lo : nat) (hi : option nat) (* greedy r{lo,hi}; [None] is unbounded *)
| WordB                                        (* \b *)
| EndS.                                        (* $ without MULTILINE *)

Definition item_has (it : citem) (c : ascii) : bool :=
  match it with
  | One a => Ascii.eqb a c
  | Range lo hi => in_range lo hi c
  | Digit => is_digit c
  | Space => is_space c
  | Wordc => is_word c
  end.

(** Membership in a class; under [re.IGNORECASE] a character belongs to
    the class when one of its case variants does. *)
Definition class_has (icase : bool) (items : list citem) (c : ascii) : bool :=
  existsb (fun it =>
             item_has it c ||
             (icase && (item_has it (lower_char c) || item_has it (upper_char c))))
          items.

Definition word_before (prev : option ascii) : bool :=
  match prev with Some c => is_word c | None => false end.

Definition word_after (s : string) : bool :=
  match s with String c _ => is_word c | EmptyString => false end.

Definition at_end (s : string) : bool :=
  match s with
  | EmptyString => true
  | String c EmptyString => Ascii.eqb c "010"
  | _ => false
  end.

(** [run icase r prev s n k]: match [r] at the head of [s], where [prev] is
    the character just before it and [n] characters of the match have
    been consumed so far; [k] is what remains to be matched.  The result
    is the length of the first match found by backtracking. *)
Fixpoint run (icase : bool) (r : regex) (prev : option ascii) (s : string) (n : nat)
         (k : option ascii -> string -> nat -> option nat) {struct r} : option nat :=
  match r with
  | Eps => k prev s n
  | Cls negated items =>
      match s with
      | String c s' =>
          if xorb negated (class_has icase items c) then k (Some c) s' (S n) else None
      | EmptyString => None
      end
  | Seq r1 r2 => run icase r1 prev s n (fun p s' n' => run icase r2 p s' n' k)
  | Alt r1 r2 =>
      match run icase r1 prev s n k with
      | Some e => Some e
      | None => run icase r2 prev s n k
      end
  | Rep body lo hi =>
      (fix loop (fuel cnt : nat) (prev : option ascii) (s : string) (n : nat)
           {struct fuel} : option nat :=
         let stop := if (lo <=? cnt)%nat then k prev s n else None in
         match fuel with
         | O => stop
         | S fuel' =>
             match run icase body prev s n
                       (fun p s' n' =>
                          if (n <? n')%nat then loop fuel' (S cnt) p s' n' else None) with
             | Some e => Some e
             | None => stop
             end
         end)
        (match hi with Some h => h | None => String.length s end) O prev s n
  | WordB => if xorb (word_before prev) (word_after s) then k prev s n else None
  | EndS => if at_end s then k prev s n else None
  end.

(** Length of the match of [r] starting exactly here, if any. *)
Definition match_here (icase : bool) (r : regex) (prev : option ascii) (s : string)
  : option nat :=
  run icase r prev s O (fun _ _ n => Some n).

(** Spans [(start, end)] of the successive non-overlapping matches, as
    [re.finditer] yields them.  None of the program's patterns matches the
    empty string, so a match always advances the scan. *)
Fixpoint spans_from (icase : bool) (r : regex) (prev : option ascii) (s : string)
         (pos skip : nat) {struct s} : list (nat * nat) :=
  let here := match skip with O => match_here icase r prev s | S _ => None end in
  let skip' := match skip, here with
               | S k, _ => k
               | O, Some len => pred len
               | O, None => O
               end in
  let rest := match s with
              | String c s' => spans_from icase r (Some c) s' (S pos) skip'
              | EmptyString => []
              end in
  match here with
  | Some len => (pos, pos + len)%nat :: rest
  | None => rest
  end.

Definition spans (icase : bool) (r : regex) (s : string) : list (nat * nat) :=
  spans_from icase r None s O O.

(** [m.group(0)] for each match of [re.finditer(r, s)]; also the list
    [re.findall(r, s)] returns for a pattern without groups. *)
Definition findall (icase : bool) (r : regex) (s : string) : list string :=
  map (fun sp => slice (fst sp) (snd sp) s) (spans icase r s).

(** [re.search(r, s)] as a truth value. *)
Definition search (icase : bool) (r : regex) (s : string) : bool :=
  match spans icase r s with [] => false | _ :: _ => true end.

(** ** Pattern combinators *)

Definition chr (c : ascii) : regex := Cls false [One c].

(** A literal word, character by character. *)
Fixpoint lit (s : string) : regex :=
  match s with
  | EmptyString => Eps
  | String c EmptyString => chr c
  | String c s' => Seq (chr c) (lit s')
  end.

Fixpoint seq (rs : list regex) : regex :=
  match rs with
  | [] => Eps
  | [r] => r
  | r :: rs' => Seq r (seq rs')
  end.

Fixpoint alt (rs : list regex) : regex :=
  match rs with
  | [] => Cls false []
  | [r] => r
  | r :: rs' => Alt r (alt rs')
  end.

Definition opt (r : regex) : regex := Rep r 0 (Some 1%nat).      (* r?     *)
Definition star (r : regex) : regex := Rep r 0 None.             (* r*     *)
Definition plus (r : regex) : regex := Rep r 1 None.             (* r+     *)
Definition times (n : nat) (r : regex) : regex := Rep r n (Some n).  (* r{n}   *)
Definition upto (lo hi : nat) (r : regex) : regex := Rep r lo (Some hi). (* r{lo,hi} *)
Definition atleast (lo : nat) (r : regex) : regex := Rep r lo None.  (* r{lo,} *)

Definition digit : regex := Cls false [Digit].        (* \d *)
Definition space : regex := Cls false [Space].        (* \s *)
Definition nonspace : regex := Cls true [Space].      (* [^\s] *)

End Re.

(* ===================================================================== *)
(** * config.py                                                           *)
(* ===================================================================== *)

Module Config.

Record ScamDetectionConfig : Type := {
  confidence_threshold : Q;
  keyword_weight : Q;
  pattern_weight : Q;
  llm_weight : Q;
  enable_whitelist : bool
}.

Record EngagementLimits : Type := {
  max_messages : Z;
  max_duration_minutes : Z;
  min_entities_for_stop : Z;
  max_repetitions : Z;
  suspicion_threshold : Q
}.

Record LLMConfig : Type := {
  provider : string;
  api_key : string;
  enable_fallback : bool
}.

Record EntityExtractionConfig : Type := {
  enable_normalization : bool;
  enable_url_expansion : bool
}.

Record t : Type := {
  scam_detection : ScamDetectionConfig;
  engagement : EngagementLimits;
  llm : LLMConfig;
  entity_extraction : EntityExtractionConfig
}.

(** The dataclass defaults, which [Config.__init__] keeps when the
    environment sets nothing. *)
Definition default (key : string) : t := {|
  scam_detection := {| confidence_threshold := 0.85;
                       keyword_weight := 0.3;
                       pattern_weight := 0.3;
                       llm_weight := 0.4;
                       enable_whitelist := true |};
  engagement := {| max_messages := 15;
                   max_duration_minutes := 30;
                   min_entities_for_stop := 3;
                   max_repetitions := 3;
                   suspicion_threshold := 0.7 |};
  llm := {| provider := "openai"; api_key := key; enable_fallback := true |};
  entity_extraction := {| enable_normalization := true;
                          enable_url_expansion := true |}
|}.

End Config.

(* ===================================================================== *)
(** * utils.py: [DataNormalizer] and [calculate_weighted_score]           *)
(* ===================================================================== *)

Module Utils.
Import Text.

(** ** DataNormalizer *)

(** [re.sub(r'[^\d+]', '', phone)] *)
Definition normalize_phone (phone : string) : string :=
  keep (fun c => is_digit c || Ascii.eqb c "+") phone.

(** [re.sub(r'[\s\-]', '', account)] *)
Definition normalize_bank_account (account : string) : string :=
  keep (fun c => negb (is_space c || Ascii.eqb c "-")) account.

Definition normalize_upi (upi : string) : string :=
  let upi := replace "(at)" "@" upi in
  let upi := replace "[at]" "@" upi in
  let upi := replace " at " "@" upi in
  strip (lower upi).

Definition normalize_url (url : string) : string :=
  let url := strip url in
  if negb (startswith "http://" url || startswith "https://" url)
  then "https://" ++ url
  else url.

Definition digit_value (c : ascii) : Z := Z.of_N (code c) - 48.

(** [all(int(d[i]) == int(d[i-1]) + 1 for i in range(1, n + 1))] where
    [prev] is [d[0]] and [rest] is [d[1:]]; [rest] is long enough for the
    range wherever the source evaluates it. *)
Fixpoint ascending (n : nat) (prev : ascii) (rest : string) : bool :=
  match n with
  | O => true
  | S n' =>
      match rest with
      | String c rest' =>
          (digit_value c =? digit_value prev + 1)%Z && ascending n' c rest'
      | EmptyString => true
      end
  end.

Definition is_sequential (digits : string) : bool :=
  match digits with
  | String d0 rest => ascending (Nat.min 6 (String.length digits) - 1) d0 rest
  | EmptyString => true
  end.

(** [len(set(digits))] *)
Definition distinct_chars (s : string) : nat :=
  List.length (nodup ascii_dec (list_ascii_of_string s)).

Definition test_keywords : list string :=
  ["test"; "dummy"; "fake"; "example"; "000000"; "999999"].

Definition is_likely_fake (value entity_type : string) : bool :=
  if (String.eqb entity_type "bank_account" || String.eqb entity_type "phone")
     && (let digits := keep is_digit value in
         ((6 <=? String.length digits)%nat && is_sequential digits)
         || (distinct_chars digits <=? 2)%nat)
  then true
  else existsb (fun keyword => contains keyword (lower value)) test_keywords.

(** ** calculate_weighted_score *)

(** A [Dict[str, float]], in insertion order. *)
Definition fdict : Type := list (string * Q).

(** [d.get(key, default)] *)
Fixpoint get (d : fdict) (key : string) (default : Q) : Q :=
  match d with
  | [] => default
  | (k, v) :: d' => if String.eqb k key then v else get d' key default
  end.

(** [sum(xs)] *)
Definition sum (xs : list Q) : Q := fold_left Qplus xs 0.

Definition is_empty {A : Type} (d : list A) : bool :=
  match d with [] => true | _ :: _ => false end.

Definition calculate_weighted_score (scores weights : fdict) : Q :=
  if is_empty scores || is_empty weights then 0
  else
    let total_score := sum (map (fun kw => get scores (fst kw) 0 * snd kw) weights) in
    let total_weight := sum (map snd weights) in
    if negb (Qle_bool total_weight 0) then total_score / total_weight else 0.

End Utils.

(* ===================================================================== *)
(** * entity_extractor.py                                                 *)
(* ===================================================================== *)

Module EntityExtractor.
Import Text Re.

Inductive EntityType : Type :=
| BANK_ACCOUNT | UPI_ID | PHONE_NUMBER | URL | EMAIL | CRYPTO_ADDRESS | NAME.

(** [entity_type.value] *)
Definition type_value (t : EntityType) : string :=
  match t with
  | BANK_ACCOUNT => "bank_account"
  | UPI_ID => "upi_id"
  | PHONE_NUMBER => "phone_number"
  | URL => "url"
  | EMAIL => "email"
  | CRYPTO_ADDRESS => "crypto_address"
  | NAME => "name"
  end.

Inductive ConfidenceLevel : Type := HIGH | MEDIUM | LOW | NEEDS_VERIFICATION.

Record ExtractedEntity : Type := {
  entity_type : EntityType;
  value : string;
  normalized_value : string;
  confidence : ConfidenceLevel;
  context : string;
  source_message : string
}.

Definition type_eqb (a b : EntityType) : bool :=
  match a, b with
  | BANK_ACCOUNT, BANK_ACCOUNT | UPI_ID, UPI_ID | PHONE_NUMBER, PHONE_NUMBER
  | URL, URL | EMAIL, EMAIL | CRYPTO_ADDRESS, CRYPTO_ADDRESS | NAME, NAME => true
  | _, _ => false
  end.

(** ** PATTERNS *)

Definition sep : regex := Cls false [One "-"; One "."; Space].              (* [-.\s] *)
Definition digit_run : regex := Seq digit (star (Cls false [Space; One "-"])). (* the group \d[\s\-]* *)
Definition upi_user : regex :=                                            (* [a-zA-Z0-9._-]+ *)
  plus (Cls false [Range "a" "z"; Range "A" "Z"; Range "0" "9"; One "."; One "_"; One "-"]).
Definition upi_host : regex :=                                            (* [a-zA-Z0-9.-]+ *)
  plus (Cls false [Range "a" "z"; Range "A" "Z"; Range "0" "9"; One "."; One "-"]).

Definition bank_patterns : list regex :=
  [ (* \b(digit_run){9,18}\b *)
    seq [WordB; upto 9 18 digit_run; WordB];
    (* account\s*(?:number|no\.?|#)?\s*:?\s*(digit_run){9,18} *)
    seq [lit "account"; star space;
         opt (alt [lit "number"; Seq (lit "no") (opt (chr ".")); chr "#"]);
         star space; opt (chr ":"); star space; upto 9 18 digit_run] ].

Definition upi_patterns : list regex :=
  [ (* \b([a-zA-Z0-9._-]+)@([a-zA-Z0-9.-]+)\b *)
    seq [WordB; upi_user; chr "@"; upi_host; WordB];
    (* \b([a-zA-Z0-9._-]+)\s*(?:\(at\)|\[at\]|at)\s*([a-zA-Z0-9.-]+)\b *)
    seq [WordB; upi_user; star space;
         alt [lit "(at)"; lit "[at]"; lit "at"];
         star space; upi_host; WordB] ].

Definition phone_patterns : list regex :=
  [ (* \+?\d{1,3}[-.\s]?\(?\d{3}\)?[-.\s]?\d{3}[-.\s]?\d{4} *)
    seq [opt (chr "+"); upto 1 3 digit; opt sep; opt (chr "("); times 3 digit;
         opt (chr ")"); opt sep; times 3 digit; opt sep; times 4 digit];
    (* \b(digit_run){10,15}\b *)
    seq [WordB; upto 10 15 digit_run; WordB] ].

Definition url_patterns : list regex :=
  [ seq [lit "http"; opt (chr "s"); lit "://"; plus nonspace];   (* https?://[^\s]+ *)
    seq [lit "www."; plus nonspace];                             (* www\.[^\s]+ *)
    seq [lit "bit.ly/"; plus nonspace];                          (* bit\.ly/[^\s]+ *)
    seq [lit "tinyurl.com/"; plus nonspace] ].                   (* tinyurl\.com/[^\s]+ *)

Definition email_patterns : list regex :=
  [ (* \b[a-zA-Z0-9._%+-]+@[a-zA-Z0-9.-]+\.[a-zA-Z]{2,}\b *)
    seq [WordB;
         plus (Cls false [Range "a" "z"; Range "A" "Z"; Range "0" "9";
                          One "."; One "_"; One "%"; One "+"; One "-"]);
         chr "@"; upi_host; chr ".";
         atleast 2 (Cls false [Range "a" "z"; Range "A" "Z"]); WordB] ].

Definition crypto_patterns : list regex :=
  [ (* \b[13][a-km-zA-HJ-NP-Z1-9]{25,34}\b *)
    seq [WordB; Cls false [One "1"; One "3"];
         upto 25 34 (Cls false [Range "a" "k"; Range "m" "z"; Range "A" "H";
                                Range "J" "N"; Range "P" "Z"; Range "1" "9"]);
         WordB];
    (* \b0x[a-fA-F0-9]{40}\b *)
    seq [WordB; lit "0x";
         times 40 (Cls false [Range "a" "f"; Range "A" "F"; Range "0" "9"]); WordB] ].

(** The dictionary [PATTERNS], in its insertion order. *)
Definition PATTERNS : list (EntityType * list regex) :=
  [ (BANK_ACCOUNT, bank_patterns);
    (UPI_ID, upi_patterns);
    (PHONE_NUMBER, phone_patterns);
    (URL, url_patterns);
    (EMAIL, email_patterns);
    (CRYPTO_ADDRESS, crypto_patterns) ].

Section Extractor.

(** The configuration, and the network as [_expand_url] sees it:
    [http_head url] is the final URL of [requests.head(url,
    allow_redirects=True)], or [None] when the request raises. *)
Variable cfg : Config.t.
Variable http_head : string -> option string.

Definition _expand_url (url : string) : string :=
  match http_head url with
  | Some final => final
  | None => url
  end.

Definition _normalize (value : string) (entity_type : EntityType) : string :=
  if negb (Config.enable_normalization (Config.entity_extraction cfg)) then value
  else
    match entity_type with
    | BANK_ACCOUNT => Utils.normalize_bank_account value
    | UPI_ID => Utils.normalize_upi value
    | PHONE_NUMBER => Utils.normalize_phone value
    | URL =>
        let normalized := Utils.normalize_url value in
        if Config.enable_url_expansion (Config.entity_extraction cfg)
        then _expand_url normalized
        else normalized
    | _ => strip value
    end.

Definition high_confidence_patterns : list regex :=
  [ (* (?:my|our)\s+(?:account|upi|number|phone) *)
    seq [alt [lit "my"; lit "our"]; plus space;
         alt [lit "account"; lit "upi"; lit "number"; lit "phone"]];
    (* (?:send|transfer|pay)\s+(?:to|at) *)
    seq [alt [lit "send"; lit "transfer"; lit "pay"]; plus space;
         alt [lit "to"; lit "at"]];
    (* (?:use|enter)\s+(?:this|the) *)
    seq [alt [lit "use"; lit "enter"]; plus space; alt [lit "this"; lit "the"]] ].

Definition _assess_confidence (value : string) (entity_type : EntityType)
           (message role : string) : ConfidenceLevel :=
  if String.eqb role "victim" then LOW
  else if Utils.is_likely_fake value (type_value entity_type) then NEEDS_VERIFICATION
  else if existsb (fun pattern => search true pattern message) high_confidence_patterns
  then HIGH
  else MEDIUM.

Definition _get_context (message : string) (start stop : nat) : string :=
  let window := 30%nat in
  let context_start := Nat.max 0 (start - window) in
  let context_end := Nat.min (String.length message) (stop + window) in
  slice context_start context_end message.

Definition email_domains : list string :=
  [".com"; ".org"; ".net"; ".in"; ".co"; ".edu"; ".gov"].

Definition _is_likely_email (value : string) : bool :=
  existsb (fun domain => endswith domain (lower value)) email_domains.

(** The body of the innermost loop of [extract] for one match: [None] is
    the [continue] of a UPI match that looks like an email address. *)
Definition entity_of_match (entity_type : EntityType) (message role : string)
           (span : nat * nat) : option ExtractedEntity :=
  let raw_value := slice (fst span) (snd span) message in
  if type_eqb entity_type UPI_ID && _is_likely_email raw_value then None
  else
    let normalized := _normalize raw_value entity_type in
    Some {| entity_type := entity_type;
            value := raw_value;
            normalized_value := normalized;
            confidence := _assess_confidence normalized entity_type message role;
            context := _get_context message (fst span) (snd span);
            source_message := message |}.

Fixpoint somes {A : Type} (l : list (option A)) : list A :=
  match l with
  | [] => []
  | Some a :: l' => a :: somes l'
  | None :: l' => somes l'
  end.

(** The local list [entities] when the three nested loops are done. *)
Definition matches (message role : string) : list ExtractedEntity :=
  flat_map
    (fun tp : EntityType * list regex =>
       flat_map
         (fun pattern =>
            somes (map (entity_of_match (fst tp) message role)
                       (spans true pattern message)))
         (snd tp))
    PATTERNS.

(** [self.extracted_entities], the running deduplicated list. *)
Definition store : Type := list ExtractedEntity.

Definition same_key (a b : ExtractedEntity) : bool :=
  type_eqb (entity_type a) (entity_type b)
  && String.eqb (normalized_value a) (normalized_value b).

Definition _is_duplicate (st : store) (entity : ExtractedEntity) : bool :=
  existsb (fun existing => same_key existing entity) st.

(** One turn of the loop that adds to the global list. *)
Definition remember (st : store) (entity : ExtractedEntity) : store :=
  if negb (_is_duplicate st entity) then (st ++ [entity])%list else st.

(** [extract]: the returned list and the store afterwards. *)
Definition extract (message role : string) (st : store)
  : list ExtractedEntity * store :=
  let entities := matches message role in
  (entities, fold_left remember entities st).

End Extractor.

Definition is_high_value (e : ExtractedEntity) : bool :=
  match confidence e with
  | HIGH | MEDIUM => true
  | LOW | NEEDS_VERIFICATION => false
  end.

Definition get_high_value_entities (st : store) : list ExtractedEntity :=
  filter is_high_value st.

Definition get_entity_count (st : store) : Z :=
  Z.of_nat (List.length (get_high_value_entities st)).

(** The number of entries of a list carrying a given
    [(entity_type, normalized_value)] pair. *)
Definition has_key (t : EntityType) (v : string) (e : ExtractedEntity) : bool :=
  type_eqb (entity_type e) t && String.eqb (normalized_value e) v.

Definition count_key (t : EntityType) (v : string) (l : list ExtractedEntity) : nat :=
  List.length (filter (has_key t v) l).

(** The running lists a session can hold: empty when the extractor is
    built, and afterwards only what [extract] leaves, whatever the network
    answers during each call. *)
Inductive session_store (cfg : Config.t) : store -> Prop :=
| fresh : session_store cfg []
| grown : forall http_head message role st,
    session_store cfg st ->
    session_store cfg (snd (extract cfg http_head message role st)).

(** No pair occurs twice. *)
Definition unique_keys (st : store) : Prop :=
  forall t v, (count_key t v st <= 1)%nat.

End EntityExtractor.

(* ===================================================================== *)
(** * llm_interface.py: the classification half                           *)
(* ===================================================================== *)

Module Llm.
Import Text.

(** A Python value as [json.loads] builds it; [JObj] lists the items of a
    [dict], and [JNum] is a finite [float] or an [int]. *)
#[local] Set Warnings "-register-all".
Inductive jval : Type :=
| JNull
| JBool (b : bool)
| JNum (q : Q)
| JStr (s : string)
| JArr (items : list jval)
| JObj (fields : list (string * jval)).

(** [d.get(key)] on the items of a dict. *)
Fixpoint lookup (fields : list (string * jval)) (key : string) : option jval :=
  match fields with
  | [] => None
  | (k, v) :: rest => if String.eqb k key then Some v else lookup rest key
  end.

(** Truth value of a Python object. *)
Definition truthy (v : jval) : bool :=
  match v with
  | JNull => false
  | JBool b => b
  | JNum q => negb (Qeq_bool q 0)
  | JStr s => negb (String.eqb s "")
  | JArr items => negb (Utils.is_empty items)
  | JObj fields => negb (Utils.is_empty fields)
  end.

Record LLMResponse : Type := {
  content : string;
  success : bool;
  error : option string;
  used_fallback : bool
}.

(** What one of [_call_openai], [_call_gemini], [_call_ollama] comes back
    with: the stripped text of the answer, or the message of the exception
    it caught. *)
Inductive provider_outcome : Type :=
| Answered (text : string)
| Failed (err : string).

Definition response_of (o : provider_outcome) : LLMResponse :=
  match o with
  | Answered text =>
      {| content := text; success := true; error := None; used_fallback := false |}
  | Failed err =>
      {| content := ""; success := false; error := Some err; used_fallback := false |}
  end.

(** ** PromptGuardrails.validate_victim_response *)

Definition RESPONSE_VALIDATION_RULES : list string :=
  ["as an ai"; "i am an ai"; "i cannot"; "i can't help"; "i'm not able";
   "let me explain how"; "here's how you"; "the process works"].

Definition technical_terms : list string :=
  ["algorithm"; "api"; "database"; "encryption"; "protocol"].

Definition validate_victim_response (response : string) : bool * option string :=
  let response_lower := lower response in
  match find (fun forbidden => contains forbidden response_lower)
             RESPONSE_VALIDATION_RULES with
  | Some forbidden =>
      (false, Some ("Response contains forbidden phrase: '" ++ forbidden ++ "'"))
  | None =>
      if (50 <? count_words response)%nat
      then (false, Some "Response too long for victim persona")
      else if existsb (fun term => contains term response_lower) technical_terms
      then (false, Some "Response contains technical jargon")
      else (true, None)
  end.

(** ** LLMInterface *)

Definition fallback_responses : list string :=
  ["I'm not sure I understand. Can you explain more?";
   "That sounds interesting. How does this work?";
   "I'm a bit confused. Can you help me with the next steps?";
   "Okay, what do I need to do?";
   "I'm interested, but I want to make sure this is safe."].

(** The mutable part of the interface object. *)
Record state : Type := { fallback_index : nat }.

Definition initial : state := {| fallback_index := 0 |}.

Definition _get_fallback_response (st : state) : string * state :=
  (nth (fallback_index st) fallback_responses "",
   {| fallback_index := (fallback_index st + 1) mod List.length fallback_responses |}).

Definition known_provider (p : string) : bool :=
  String.eqb p "openai" || String.eqb p "gemini" || String.eqb p "ollama".

Section Interface.

Variable cfg : Config.t.

(** [json.loads] on a text that begins like a JSON document. *)
Variable json_doc : string -> option jval.

(** [str(v)] for a value that is not a string. *)
Variable py_repr : jval -> string.

Definition generate (outcome : provider_outcome) (validate_response : bool) (st : state)
  : LLMResponse * state :=
  let response :=
    if known_provider (Config.provider (Config.llm cfg)) then response_of outcome
    else {| content := ""; success := false; error := Some "Unknown provider";
            used_fallback := false |} in
  let fallback := Config.enable_fallback (Config.llm cfg) in
  if negb (success response) && negb fallback then (response, st)
  else
    let '(response, st) :=
      if negb (success response)
      then let '(text, st') := _get_fallback_response st in
           ({| content := text; success := true; error := error response;
               used_fallback := true |}, st')
      else (response, st) in
    if validate_response
    then
      let '(is_valid, err) := validate_victim_response (content response) in
      if is_valid then (response, st)
      else if fallback
      then let '(text, st') := _get_fallback_response st in
           ({| content := text; success := success response; error := error response;
               used_fallback := true |}, st')
      else ({| content := content response; success := false; error := err;
               used_fallback := used_fallback response |}, st)
    else (response, st).

(** JSON white space. *)
Fixpoint skip_ws (s : string) : string :=
  match s with
  | String c s' =>
      if Ascii.eqb c " " || Ascii.eqb c "009" || Ascii.eqb c "010" || Ascii.eqb c "013"
      then skip_ws s' else s
  | EmptyString => EmptyString
  end.

(** A JSON document begins with an object, an array, a string, a number
    or one of the literals [json.loads] knows. *)
Definition begins_json (s : string) : bool :=
  match skip_ws s with
  | EmptyString => false
  | String c _ as t =>
      Ascii.eqb c "{" || Ascii.eqb c "[" || Ascii.eqb c "034" || Ascii.eqb c "-"
      || is_digit c
      || existsb (fun w => startswith w t) ["true"; "false"; "null"; "NaN"; "Infinity"]
  end.

(** [json.loads(s)]; [None] is the exception it raises. *)
Definition json_loads (s : string) : option jval :=
  if begins_json s then json_doc s else None.

Definition detect_scam (outcome : provider_outcome) (st : state) : jval * state :=
  let '(response, st) := generate outcome false st in
  if negb (success response)
  then (JObj [("is_scam", JBool false); ("confidence", JNum 0.0);
              ("scam_type", JStr "unknown"); ("reasoning", JStr "LLM analysis failed")],
        st)
  else
    match json_loads (content response) with
    | Some result => (result, st)
    | None =>
        (JObj [("is_scam", JBool (contains "scam" (lower (content response))));
               ("confidence", JNum 0.5);
               ("scam_type", JStr "unknown");
               ("reasoning", JStr (content response))],
         st)
    end.

(** [f"{v}"] *)
Definition format_value (v : jval) : string :=
  match v with
  | JStr s => s
  | _ => py_repr v
  end.

End Interface.

End Llm.

(* ===================================================================== *)
(** * scam_detector.py                                                    *)
(* ===================================================================== *)

Module ScamDetector.
Import Text Re.

Inductive ScamType : Type :=
| JOB_SCAM | INVESTMENT_SCAM | BANKING_FRAUD | ROMANCE_SCAM | PRIZE_LOTTERY
| TECH_SUPPORT | IMPERSONATION | UNKNOWN | NOT_SCAM.

(** [scam_type.value] *)
Definition type_value (t : ScamType) : string :=
  match t with
  | JOB_SCAM => "job_scam"
  | INVESTMENT_SCAM => "investment_scam"
  | BANKING_FRAUD => "banking_fraud"
  | ROMANCE_SCAM => "romance_scam"
  | PRIZE_LOTTERY => "prize_lottery"
  | TECH_SUPPORT => "tech_support"
  | IMPERSONATION => "impersonation"
  | UNKNOWN => "unknown"
  | NOT_SCAM => "not_scam"
  end.

Definition all_types : list ScamType :=
  [JOB_SCAM; INVESTMENT_SCAM; BANKING_FRAUD; ROMANCE_SCAM; PRIZE_LOTTERY;
   TECH_SUPPORT; IMPERSONATION; UNKNOWN; NOT_SCAM].

(** [ScamType(v)]; [None] is the [ValueError] of a value that names no
    member. *)
Definition ScamType_of (v : Llm.jval) : option ScamType :=
  match v with
  | Llm.JStr s => find (fun t => String.eqb (type_value t) s) all_types
  | _ => None
  end.

Definition is_unknown (t : ScamType) : bool :=
  match t with UNKNOWN => true | _ => false end.

Record ScamDetectionResult : Type := {
  is_scam : bool;
  confidence : Q;
  scam_type : ScamType;
  reasoning : string;
  layer_scores : Utils.fdict
}.

(** The dictionary a layer returns. *)
Record LayerResult : Type := {
  score : Q;
  layer_type : ScamType;
  indicators : list string
}.

(** ** KeywordDetector *)

Module KeywordDetector.

Definition URGENCY_KEYWORDS : list string :=
  ["urgent"; "immediately"; "act now"; "limited time"; "expires today";
   "last chance"; "hurry"; "quick"; "asap"; "right now"].

(** The thirteenth money keyword as the source file spells it: the
    characters U+00E2, U+201A, U+00B9, here in UTF-8. *)
Definition rupee_sign : string :=
  string_of_list_ascii ["195"; "162"; "226"; "128"; "154"; "194"; "185"]%char.

Definition MONEY_KEYWORDS : list string :=
  ["money"; "cash"; "payment"; "transfer"; "deposit"; "account";
   "bank"; "upi"; "paytm"; "gpay"; "phonepe"; "wallet"; rupee_sign; "$";
   "lakh"; "crore"; "thousand"; "investment"; "profit"; "earn"].

Definition THREAT_KEYWORDS : list string :=
  ["blocked"; "suspended"; "deactivated"; "frozen"; "locked";
   "arrest"; "legal action"; "police"; "court"; "fine"; "penalty";
   "unauthorized"; "suspicious activity"; "security alert"].

Definition REQUEST_KEYWORDS : list string :=
  ["send"; "provide"; "share"; "verify"; "confirm"; "update";
   "click"; "download"; "install"; "enter"; "submit"; "reply"].

Definition PRIZE_KEYWORDS : list string :=
  ["won"; "winner"; "prize"; "lottery"; "lucky"; "selected";
   "congratulations"; "reward"; "gift"; "free"; "bonus"].

Definition JOB_KEYWORDS : list string :=
  ["job"; "work from home"; "part time"; "earn money"; "hiring";
   "opportunity"; "registration fee"; "training fee"; "joining fee"].

Definition LEGITIMATE_PATTERNS : list regex :=
  [ seq [lit "@amazon.com"; EndS];       (* @amazon\.com$ *)
    seq [lit "@google.com"; EndS];       (* @google\.com$ *)
    seq [lit "@microsoft.com"; EndS];    (* @microsoft\.com$ *)
    seq [lit "@linkedin.com"; EndS];     (* @linkedin\.com$ *)
    seq [chr "-"; times 6 (Cls false [Range "A" "Z"]); EndS] ].  (* -[A-Z]{6}$ *)

(** The test [if sender and config.scam_detection.enable_whitelist] with
    the loop under it: some whitelist pattern is found in the sender. *)
Definition whitelisted (cfg : Config.t) (sender : option string) : bool :=
  match sender with
  | Some s =>
      negb (String.eqb s "")
      && Config.enable_whitelist (Config.scam_detection cfg)
      && existsb (fun pattern => search true pattern s) LEGITIMATE_PATTERNS
  | None => false
  end.

Definition detect (cfg : Config.t) (message : string) (sender : option string)
  : LayerResult :=
  let message_lower := lower message in
  if whitelisted cfg sender
  then {| score := 0.0; layer_type := NOT_SCAM; indicators := ["whitelisted_sender"] |}
  else
    let urgency_count := count_in URGENCY_KEYWORDS message_lower in
    let money_count := count_in MONEY_KEYWORDS message_lower in
    let threat_count := count_in THREAT_KEYWORDS message_lower in
    let request_count := count_in REQUEST_KEYWORDS message_lower in
    let prize_count := count_in PRIZE_KEYWORDS message_lower in
    let job_count := count_in JOB_KEYWORDS message_lower in
    let '(scam_type, indicators) :=
      if (2 <=? prize_count)%Z then (PRIZE_LOTTERY, ["prize_keywords"])
      else if (2 <=? job_count)%Z && (1 <=? money_count)%Z then (JOB_SCAM, ["job_keywords"])
      else if (2 <=? threat_count)%Z then (BANKING_FRAUD, ["threat_keywords"])
      else if (3 <=? money_count)%Z then (INVESTMENT_SCAM, ["money_keywords"])
      else (UNKNOWN, []) in
    let total_keywords :=
      (urgency_count + money_count + threat_count + request_count
       + prize_count + job_count)%Z in
    let '(indicators, score) :=
      if (2 <=? urgency_count)%Z && ((2 <=? money_count)%Z || (2 <=? threat_count)%Z)
      then ((indicators ++ ["urgency_with_money_or_threat"])%list, 0.8)
      else if (5 <=? total_keywords)%Z
      then ((indicators ++ ["high_keyword_density"])%list, 0.7)
      else if (3 <=? total_keywords)%Z
      then ((indicators ++ ["moderate_keyword_density"])%list, 0.5)
      else if (1 <=? total_keywords)%Z then (indicators, 0.3)
      else (indicators, 0.0) in
    {| score := Qmin score 1.0; layer_type := scam_type; indicators := indicators |}.

End KeywordDetector.

(** ** PatternDetector *)

Module PatternDetector.

(* \+?\d{1,3}[-.\s]?\(?\d{3}\)?[-.\s]?\d{3}[-.\s]?\d{4} *)
Definition PHONE_PATTERN : regex :=
  let sep := Cls false [One "-"; One "."; Space] in
  seq [opt (chr "+"); upto 1 3 digit; opt sep; opt (chr "("); times 3 digit;
       opt (chr ")"); opt sep; times 3 digit; opt sep; times 4 digit].

(* \b\d{9,18}\b *)
Definition BANK_ACCOUNT_PATTERN : regex := seq [WordB; upto 9 18 digit; WordB].

(* [a-zA-Z0-9._-]+@[a-zA-Z0-9.-]+ *)
Definition UPI_PATTERN : regex :=
  seq [plus (Cls false [Range "a" "z"; Range "A" "Z"; Range "0" "9";
                        One "."; One "_"; One "-"]);
       chr "@";
       plus (Cls false [Range "a" "z"; Range "A" "Z"; Range "0" "9"; One "."; One "-"])].

(* https?://[^\s]+|www\.[^\s]+|bit\.ly/[^\s]+|tinyurl\.com/[^\s]+ *)
Definition URL_PATTERN : regex :=
  alt [seq [lit "http"; opt (chr "s"); lit "://"; plus nonspace];
       seq [lit "www."; plus nonspace];
       seq [lit "bit.ly/"; plus nonspace];
       seq [lit "tinyurl.com/"; plus nonspace]].

Definition SUSPICIOUS_DOMAINS : list string :=
  ["bit.ly"; "tinyurl.com"; "goo.gl"; "t.co"; ".tk"; ".ml"; ".ga"; ".cf"].

Definition payment_methods : list string :=
  ["upi"; "paytm"; "gpay"; "phonepe"; "bank account"; "account number"].

(* \d\s+\d\s+\d *)
Definition obfuscated : regex := seq [digit; plus space; digit; plus space; digit].

(** One [if] block of [detect]: when [hit] holds the indicator is
    appended and the score raised. *)
Definition bump (hit : bool) (indicator : string) (amount : Q)
           (acc : list string * Q) : list string * Q :=
  if hit then ((fst acc ++ [indicator])%list, snd acc + amount) else acc.

Definition detect (message : string) : LayerResult :=
  let acc := ([], 0.0) in
  let phone_matches := findall false PHONE_PATTERN message in
  let acc := bump (negb (Utils.is_empty phone_matches))
                  ("phone_numbers:" ++ of_nat (List.length phone_matches)) 0.2 acc in
  let bank_matches := findall false BANK_ACCOUNT_PATTERN message in
  let acc := bump (negb (Utils.is_empty bank_matches))
                  ("bank_accounts:" ++ of_nat (List.length bank_matches)) 0.3 acc in
  let upi_matches :=
    filter (fun u => negb (endswith_any [".com"; ".org"; ".net"; ".in"] u))
           (findall false UPI_PATTERN message) in
  let acc := bump (negb (Utils.is_empty upi_matches))
                  ("upi_ids:" ++ of_nat (List.length upi_matches)) 0.3 acc in
  let url_matches := findall false URL_PATTERN message in
  let acc := bump (negb (Utils.is_empty url_matches))
                  ("urls:" ++ of_nat (List.length url_matches)) 0.1 acc in
  let acc := bump (existsb (fun url =>
                              existsb (fun domain => contains domain (lower url))
                                      SUSPICIOUS_DOMAINS)
                           url_matches)
                  "suspicious_url" 0.3 acc in
  let payment_count := count_in payment_methods (lower message) in
  let acc := bump (2 <=? payment_count)%Z "multiple_payment_methods" 0.2 acc in
  let acc := bump (search false obfuscated message) "obfuscated_numbers" 0.2 acc in
  {| score := Qmin (snd acc) 1.0; layer_type := UNKNOWN; indicators := fst acc |}.

End PatternDetector.

(** ** ScamDetector *)

Inductive exn : Type :=
| AttributeError   (* [.get] on a value that is not a dict *)
| TypeError        (* a confidence that cannot be multiplied by a weight *)
| OverflowError.   (* an [int] confidence too large to become a [float] *)

Inductive result (A : Type) : Type :=
| Ok (a : A)
| Raise (e : exn).
Arguments Ok {A} a.
Arguments Raise {A} e.

Definition bind {A B : Type} (m : result A) (f : A -> result B) : result B :=
  match m with
  | Ok a => f a
  | Raise e => Raise e
  end.

Notation "x <- m ;; k" := (bind m (fun x => k))
  (at level 61, m at next level, right associativity).

(** [d.get(key, default)] on the items of a dict. *)
Definition field_or (fields : list (string * Llm.jval)) (key : string)
           (default : Llm.jval) : Llm.jval :=
  match Llm.lookup fields key with
  | Some v => v
  | None => default
  end.

(** [llm_result.get(key, default)] *)
Definition dict_get (d : Llm.jval) (key : string) (default : Llm.jval)
  : result Llm.jval :=
  match d with
  | Llm.JObj fields => Ok (field_or fields key default)
  | _ => Raise AttributeError
  end.

(** The magnitude from which a Python [int] has no [float]:
    2^1024 - 2^970, halfway between the largest double and 2^1024.  Every
    float is smaller, so a [JNum] of that size is an [int]. *)
Definition int_overflow : Q := inject_Z (2 ^ 1024 - 2 ^ 970).

(** The operand of [score * weight], a product with a [float]: a float or
    a bool is taken as it is, an [int] is converted first, which raises
    when it is too large, and nothing else can be multiplied. *)
Definition as_number (v : Llm.jval) : result Q :=
  match v with
  | Llm.JNum q =>
      if Qle_bool int_overflow (Qabs q) then Raise OverflowError else Ok q
  | Llm.JBool b => Ok (if b then 1 else 0)
  | _ => Raise TypeError
  end.

(** One [if ...: reasoning_parts.append(text)] of [detect]. *)
Definition part (present : bool) (text : string) : list string :=
  if present then [text] else [].

(** The block "Determine scam type" of [detect]. *)
Definition choose_type (keyword_type : ScamType) (reported : Llm.jval)
           (is_scam : bool) : ScamType :=
  if negb (is_unknown keyword_type) then keyword_type
  else if Llm.truthy reported
  then match ScamType_of reported with
       | Some t => t
       | None => UNKNOWN
       end
  else if is_scam then UNKNOWN else NOT_SCAM.

Section Detector.

Variable cfg : Config.t.
Variable json_doc : string -> option Llm.jval.
Variable py_repr : Llm.jval -> string.

(** The dictionary [weights] of [detect]. *)
Definition weights : Utils.fdict :=
  let sd := Config.scam_detection cfg in
  [("keyword", Config.keyword_weight sd);
   ("pattern", Config.pattern_weight sd);
   ("llm", Config.llm_weight sd)].

(** [llm_score]: the reported confidence when the reply says scam, else
    [0.0]. *)
Definition llm_score_of (llm_result : Llm.jval) : result Llm.jval :=
  flagged <- dict_get llm_result "is_scam" (Llm.JBool false) ;;
  if Llm.truthy flagged then dict_get llm_result "confidence" (Llm.JNum 0.0)
  else Ok (Llm.JNum 0.0).

(** The block "Build reasoning" of [detect]. *)
Definition build_reasoning (keyword_result pattern_result : LayerResult)
           (reported : Llm.jval) : string :=
  let reasoning_parts :=
    List.app
      (part (negb (Utils.is_empty (indicators keyword_result)))
            ("Keywords: " ++ join ", " (indicators keyword_result)))
      (List.app
         (part (negb (Utils.is_empty (indicators pattern_result)))
               ("Patterns: " ++ join ", " (indicators pattern_result)))
         (part (Llm.truthy reported)
               ("LLM: " ++ Llm.format_value py_repr reported))) in
  if negb (Utils.is_empty reasoning_parts) then join " | " reasoning_parts
  else "No strong indicators".

(** [detect] once the three layers have answered. *)
Definition fuse (keyword_result pattern_result : LayerResult) (llm_result : Llm.jval)
  : result ScamDetectionResult :=
  llm_score_value <- llm_score_of llm_result ;;
  llm_score <- as_number llm_score_value ;;
  let scores :=
    [("keyword", score keyword_result); ("pattern", score pattern_result);
     ("llm", llm_score)] in
  let final_confidence := Utils.calculate_weighted_score scores weights in
  let is_scam :=
    Qle_bool (Config.confidence_threshold (Config.scam_detection cfg))
             final_confidence in
  reported_type <- dict_get llm_result "scam_type" Llm.JNull ;;
  reported_reasoning <- dict_get llm_result "reasoning" Llm.JNull ;;
  Ok {| is_scam := is_scam;
        confidence := final_confidence;
        scam_type := choose_type (layer_type keyword_result) reported_type is_scam;
        reasoning := build_reasoning keyword_result pattern_result reported_reasoning;
        layer_scores := scores |}.

Definition detect (outcome : Llm.provider_outcome) (st : Llm.state)
           (message : string) (sender : option string)
  : result ScamDetectionResult * Llm.state :=
  let keyword_result := KeywordDetector.detect cfg message sender in
  let pattern_result := PatternDetector.detect message in
  let llm := Llm.detect_scam cfg json_doc outcome st in
  (fuse keyword_result pattern_result (fst llm), snd llm).

End Detector.

(** The replies [detect] can digest: a dict whose confidence, when the
    dict says scam, is a float, a bool or an [int] within the range of
    the doubles.  Anything else makes [detect] raise. *)
Definition usable (llm_result : Llm.jval) : bool :=
  match llm_result with
  | Llm.JObj fields =>
      if Llm.truthy (field_or fields "is_scam" (Llm.JBool false))
      then match as_number (field_or fields "confidence" (Llm.JNum 0.0)) with
           | Ok _ => true
           | Raise _ => false
           end
      else true
  | _ => false
  end.

End ScamDetector.

(* ===================================================================== *)
(** * strategy_engine.py                                                  *)
(* ===================================================================== *)

Module StrategyEngine.
Import Text Re.

Inductive StrategyPhase : Type := BUILD_TRUST | EXTRACT_INTEL | DELAY_PROBE | EXIT.

Inductive StopReason : Type :=
| MAX_MESSAGES | ENTITIES_EXTRACTED | SCAMMER_SUSPICIOUS | UNPRODUCTIVE | TIME_LIMIT
| SCAMMER_ENDED | DEMO_MODE | SCAMMER_DISENGAGED | AGENT_DISENGAGED.

Record ConversationState : Type := {
  message_count : Z;
  start_time : Q;                      (* seconds, as [time.time()] gives them *)
  current_phase : StrategyPhase;
  scammer_repetitions : Z;
  last_scammer_message : string;
  suspicion_indicators : list string
}.

(** [ConversationState()] built at time [now]. *)
Definition new_state (now : Q) : ConversationState := {|
  message_count := 0;
  start_time := now;
  current_phase := BUILD_TRUST;
  scammer_repetitions := 0;
  last_scammer_message := "";
  suspicion_indicators := []
|}.

(** Each indicator is kept with the text of its pattern, which is what
    the engine records. *)
Definition SUSPICION_INDICATORS : list (string * regex) :=
  [ ("are you (?:a )?(?:bot|robot|ai)",
     seq [lit "are you "; opt (lit "a "); alt [lit "bot"; lit "robot"; lit "ai"]]);
    ("are you real", lit "are you real");
    ("send (?:me )?(?:a )?(?:voice|audio|video)",
     seq [lit "send "; opt (lit "me "); opt (lit "a ");
          alt [lit "voice"; lit "audio"; lit "video"]]);
    ("call me", lit "call me");
    ("video call", lit "video call");
    ("prove you(?:\'re| are) real",
     seq [lit "prove you"; alt [lit "'re"; lit " are"]; lit " real"]);
    ("show me your (?:face|photo)",
     seq [lit "show me your "; alt [lit "face"; lit "photo"]]);
    ("why (?:are you|you\'re) asking so many questions",
     seq [lit "why "; alt [lit "are you"; lit "you're"];
          lit " asking so many questions"]) ].

Definition UNPRODUCTIVE_INDICATORS : list (string * regex) :=
  [ ("(?:stop|leave me alone|don\'t (?:contact|message))",
     alt [lit "stop"; lit "leave me alone";
          Seq (lit "don't ") (alt [lit "contact"; lit "message"])]);
    ("i\'m not interested", lit "i'm not interested");
    ("this is (?:a )?scam", seq [lit "this is "; opt (lit "a "); lit "scam"]);
    ("i will (?:report|complain)",
     Seq (lit "i will ") (alt [lit "report"; lit "complain"])) ].

Section Engine.

Variable cfg : Config.t.

(** [should_stop] at wall-clock time [now], with the extractor's running
    list [entities]. *)
Definition should_stop (now : Q) (entities : EntityExtractor.store)
           (state : ConversationState) : bool * option StopReason :=
  let limits := Config.engagement cfg in
  if (Config.max_messages limits <=? message_count state)%Z
  then (true, Some MAX_MESSAGES)
  else
    let elapsed_minutes := (now - start_time state) / 60 in
    if Qle_bool (inject_Z (Config.max_duration_minutes limits)) elapsed_minutes
    then (true, Some TIME_LIMIT)
    else
      let entity_count := EntityExtractor.get_entity_count entities in
      if (Config.min_entities_for_stop limits <=? entity_count)%Z
      then (true, Some ENTITIES_EXTRACTED)
      else if (2 <=? Z.of_nat (List.length (suspicion_indicators state)))%Z
      then (true, Some SCAMMER_SUSPICIOUS)
      else if (Config.max_repetitions limits <=? scammer_repetitions state)%Z
      then (true, Some UNPRODUCTIVE)
      else (false, None).

(** The dictionary [analysis]. *)
Record Analysis : Type := {
  suspicion_detected : bool;
  unproductive_detected : bool;
  is_repetition : bool;
  indicators : list string
}.

Definition found_in (message : string) (table : list (string * regex)) : list string :=
  map fst (filter (fun entry => search true (snd entry) message) table).

Definition analyze_scammer_message (message : string) (state : ConversationState)
  : Analysis * ConversationState :=
  let suspicious := found_in message SUSPICION_INDICATORS in
  let unproductive := found_in message UNPRODUCTIVE_INDICATORS in
  let repeated :=
    String.eqb (lower (strip message)) (lower (strip (last_scammer_message state))) in
  ({| suspicion_detected := negb (Utils.is_empty suspicious);
      unproductive_detected := negb (Utils.is_empty unproductive);
      is_repetition := repeated;
      indicators := List.app (map (fun p => "suspicion:" ++ p) suspicious)
                             (map (fun p => "unproductive:" ++ p) unproductive) |},
   {| message_count := message_count state;
      start_time := start_time state;
      current_phase := current_phase state;
      scammer_repetitions := if repeated then (scammer_repetitions state + 1)%Z else 0%Z;
      last_scammer_message := if repeated then last_scammer_message state else message;
      suspicion_indicators := List.app (suspicion_indicators state) suspicious |}).

Definition determine_phase (entities : EntityExtractor.store)
           (state : ConversationState) : StrategyPhase :=
  let message_count := message_count state in
  let entity_count := EntityExtractor.get_entity_count entities in
  if (message_count <? 3)%Z then BUILD_TRUST
  else if (message_count <? 8)%Z && (entity_count <? 2)%Z then EXTRACT_INTEL
  else if (1 <=? entity_count)%Z
          && (message_count <? Config.max_messages (Config.engagement cfg) - 3)%Z
  then DELAY_PROBE
  else EXIT.

(** [get_strategy_guidance]: the phase it reports, and the state with
    [current_phase] stored. *)
Definition get_strategy_guidance (entities : EntityExtractor.store)
           (state : ConversationState) : StrategyPhase * ConversationState :=
  let phase := determine_phase entities state in
  (phase,
   {| message_count := message_count state;
      start_time := start_time state;
      current_phase := phase;
      scammer_repetitions := scammer_repetitions state;
      last_scammer_message := last_scammer_message state;
      suspicion_indicators := suspicion_indicators state |}).

Definition increment_message_count (state : ConversationState) : ConversationState :=
  {| message_count := message_count state + 1;
     start_time := start_time state;
     current_phase := current_phase state;
     scammer_repetitions := scammer_repetitions state;
     last_scammer_message := last_scammer_message state;
     suspicion_indicators := suspicion_indicators state |}.

(** Which of the three prompt additions [get_adaptive_prompt_addition]
    returns, or none. *)
Inductive Guidance : Type := TestingIfReal | WantsVoiceOrVideo | DirectQuestion | NoGuidance.

(* (?:voice|audio|video|call|photo|picture) *)
Definition media_request : regex :=
  alt [lit "voice"; lit "audio"; lit "video"; lit "call"; lit "photo"; lit "picture"].

Definition get_adaptive_prompt_addition (scammer_message : string)
           (state : ConversationState) : Guidance * ConversationState :=
  let '(analysis, state) := analyze_scammer_message scammer_message state in
  (if suspicion_detected analysis then TestingIfReal
   else if search true media_request scammer_message then WantsVoiceOrVideo
   else if contains "?" scammer_message && (count_words scammer_message <? 10)%nat
   then DirectQuestion
   else NoGuidance,
   state).

(** The dictionary of [get_state_summary]; rounding of the elapsed time to
    two decimals is left to the report. *)
Record Summary : Type := {
  summary_message_count : Z;
  summary_elapsed_minutes : Q;
  summary_current_phase : StrategyPhase;
  summary_entities_extracted : Z;
  summary_suspicion_indicators : Z;
  summary_scammer_repetitions : Z
}.

Definition get_state_summary (now : Q) (entities : EntityExtractor.store)
           (state : ConversationState) : Summary :=
  {| summary_message_count := message_count state;
     summary_elapsed_minutes := (now - start_time state) / 60;
     summary_current_phase := current_phase state;
     summary_entities_extracted := EntityExtractor.get_entity_count entities;
     summary_suspicion_indicators := Z.of_nat (List.length (suspicion_indicators state));
     summary_scammer_repetitions := scammer_repetitions state |}.

(** ** The engine's methods as commands on the session state *)

Inductive call : Type :=
| ShouldStop (now : Q) (entities : EntityExtractor.store)
| AnalyzeScammerMessage (message : string)
| DeterminePhase (entities : EntityExtractor.store)
| GetStrategyGuidance (entities : EntityExtractor.store)
| IncrementMessageCount
| GetAdaptivePromptAddition (message : string)
| GetStateSummary (now : Q) (entities : EntityExtractor.store).

(** The state a method call leaves behind. *)
Definition step (c : call) (state : ConversationState) : ConversationState :=
  match c with
  | ShouldStop _ _ => state
  | AnalyzeScammerMessage message => snd (analyze_scammer_message message state)
  | DeterminePhase _ => state
  | GetStrategyGuidance entities => snd (get_strategy_guidance entities state)
  | IncrementMessageCount => increment_message_count state
  | GetAdaptivePromptAddition message => snd (get_adaptive_prompt_addition message state)
  | GetStateSummary _ _ => state
  end.

Definition run (calls : list call) (state : ConversationState) : ConversationState :=
  fold_left (fun st c => step c st) calls state.

Definition is_increment (c : call) : bool :=
  match c with IncrementMessageCount => true | _ => false end.

End Engine.

(** ** The stop conditions as the specification lists them

    The five conditions in their priority order, each with its reason;
    [first_true] picks the reason of the first one that holds. *)
Definition stop_conditions (cfg : Config.t) (now : Q) (entities : EntityExtractor.store)
           (state : ConversationState) : list (bool * StopReason) :=
  let limits := Config.engagement cfg in
  [ ((Config.max_messages limits <=? message_count state)%Z, MAX_MESSAGES);
    (Qle_bool (inject_Z (Config.max_duration_minutes limits))
              ((now - start_time state) / 60), TIME_LIMIT);
    ((Config.min_entities_for_stop limits
      <=? EntityExtractor.get_entity_count entities)%Z, ENTITIES_EXTRACTED);
    ((2 <=? Z.of_nat (List.length (suspicion_indicators state)))%Z, SCAMMER_SUSPICIOUS);
    ((Config.max_repetitions limits <=? scammer_repetitions state)%Z, UNPRODUCTIVE) ].

Fixpoint first_true (conditions : list (bool * StopReason)) : bool * option StopReason :=
  match conditions with
  | [] => (false, None)
  | (holds, reason) :: rest => if holds then (true, Some reason) else first_true rest
  end.

End StrategyEngine.

(* ===================================================================== *)
(** * Concrete sessions used in the examples                              *)
(* ===================================================================== *)

Module Scenario.
Import EntityExtractor StrategyEngine.

(** No request goes through: [_expand_url] keeps every URL. *)
Definition offline : string -> option string := fun _ => None.

(** An entity as [extract] records it for a UPI id met in a message that
    is just that id. *)
Definition upi_entity (id : string) (level : ConfidenceLevel) : ExtractedEntity :=
  {| entity_type := UPI_ID; value := id; normalized_value := id;
     confidence := level; context := id; source_message := id |}.

Definition one_entity : store := [upi_entity "claim@paytm" MEDIUM].

Definition three_entities : store :=
  [upi_entity "claim@paytm" HIGH; upi_entity "pay@ybl" MEDIUM;
   upi_entity "win@okaxis" MEDIUM].

(** A session started at time 0 that has produced [n] responses. *)
Definition after_turns (n : Z) : ConversationState :=
  {| message_count := n; start_time := 0; current_phase := BUILD_TRUST;
     scammer_repetitions := 0; last_scammer_message := "";
     suspicion_indicators := [] |}.

(** The default configuration with [enable_fallback] switched off. *)
Definition without_fallback : Config.t := {|
  Config.scam_detection := Config.scam_detection (Config.default "key");
  Config.engagement := Config.engagement (Config.default "key");
  Config.llm := {| Config.provider := "openai"; Config.api_key := "key";
                   Config.enable_fallback := false |};
  Config.entity_extraction := Config.entity_extraction (Config.default "key")
|}.

(** An oracle that never answers in JSON, and values that are never
    printed. *)
Definition never_json : string -> option Llm.jval := fun _ => None.
Definition unprinted : Llm.jval -> string := fun _ => "".

End Scenario.

(* ===================================================================== *)
(** * utils.py: [truncate_text]                                           *)
(* ===================================================================== *)

Module UtilsText.

(** [s[:n]] for an integer [n]; a negative [n] counts from the end. *)
Definition upto (n : Z) (s : string) : string :=
  if (0 <=? n)%Z then substring 0 (Z.to_nat n) s
  else substring 0 (String.length s - Z.to_nat (- n)) s.

Definition truncate_text (text : string) (max_length : Z) : string :=
  if (Z.of_nat (String.length text) <=? max_length)%Z then text
  else upto (max_length - 3) text ++ "...".

End UtilsText.

(* ===================================================================== *)
(** * entity_extractor.py: [to_dict] and [_group_by_type]                 *)
(* ===================================================================== *)

Module ExtractorReport.
Import EntityExtractor.

(** [confidence.value] *)
Definition level_value (c : ConfidenceLevel) : string :=
  match c with
  | HIGH => "high"
  | MEDIUM => "medium"
  | LOW => "low"
  | NEEDS_VERIFICATION => "needs_verification"
  end.

(** The dictionary of [ExtractedEntity.to_dict]. *)
Record EntityDict : Type := {
  dict_type : string;
  dict_value : string;
  dict_normalized_value : string;
  dict_confidence : string;
  dict_context : string
}.

Definition entity_to_dict (e : ExtractedEntity) : EntityDict :=
  {| dict_type := type_value (entity_type e);
     dict_value := value e;
     dict_normalized_value := normalized_value e;
     dict_confidence := level_value (confidence e);
     dict_context := context e |}.

(** [counts[key] = counts.get(key, 0) + 1] on a dict kept in insertion
    order. *)
Fixpoint count_up (key : string) (counts : list (string * Z)) : list (string * Z) :=
  match counts with
  | [] => [(key, 1%Z)]
  | (k, n) :: rest =>
      if String.eqb k key then (k, (n + 1)%Z) :: rest
      else (k, n) :: count_up key rest
  end.

Definition _group_by_type (st : store) : list (string * Z) :=
  fold_left (fun counts entity => count_up (type_value (entity_type entity)) counts)
            st [].

(** [counts.get(key, 0)] *)
Fixpoint count_of (counts : list (string * Z)) (key : string) : Z :=
  match counts with
  | [] => 0%Z
  | (k, n) :: rest => if String.eqb k key then n else count_of rest key
  end.

(** The dictionary of [EntityExtractor.to_dict]. *)
Record StoreDict : Type := {
  total_entities : Z;
  high_value_entities : Z;
  entities_by_type : list (string * Z);
  all_entities : list EntityDict
}.

Definition to_dict (st : store) : StoreDict :=
  {| total_entities := Z.of_nat (List.length st);
     high_value_entities := Z.of_nat (List.length (get_high_value_entities st));
     entities_by_type := _group_by_type st;
     all_entities := map entity_to_dict st |}.

End ExtractorReport.

(* ===================================================================== *)
(** * persona_manager.py                                                  *)
(* ===================================================================== *)

Module PersonaManager.

Inductive PersonaType : Type := ELDERLY | JOB_SEEKER | INVESTOR | TECH_NOVICE | STUDENT.

Record PersonaProfile : Type := {
  persona_type : PersonaType;
  name : string;
  age : Z;
  location : string;
  occupation : string;
  tech_knowledge : string;
  financial_status : string;
  family_status : string;
  personality_traits : list string;
  vulnerabilities : list string;
  max_typing_speed_wpm : Z;
  makes_typos : bool;
  uses_emojis : bool
}.

Definition persona_eqb (a b : PersonaType) : bool :=
  match a, b with
  | ELDERLY, ELDERLY | JOB_SEEKER, JOB_SEEKER | INVESTOR, INVESTOR
  | TECH_NOVICE, TECH_NOVICE | STUDENT, STUDENT => true
  | _, _ => false
  end.

(** The dictionary [PERSONAS], in its insertion order. *)
Definition PERSONAS : list (PersonaType * PersonaProfile) :=
  [ (ELDERLY,
     {| persona_type := ELDERLY; name := "Rajesh Kumar"; age := 68;
        location := "Pune, India"; occupation := "Retired bank employee";
        tech_knowledge := "low";
        financial_status := "Has retirement savings, looking to invest";
        family_status := "Widower, two children living abroad";
        personality_traits := ["trusting"; "polite"; "cautious with money"; "lonely"];
        vulnerabilities :=
          ["Limited understanding of digital payments";
           "Trusts people who sound professional";
           "Wants to help children financially";
           "Feels isolated and appreciates attention"];
        max_typing_speed_wpm := 25; makes_typos := true; uses_emojis := false |});
    (JOB_SEEKER,
     {| persona_type := JOB_SEEKER; name := "Priya Sharma"; age := 24;
        location := "Delhi, India"; occupation := "Recent graduate, looking for work";
        tech_knowledge := "medium";
        financial_status := "Student loans, needs income urgently";
        family_status := "Single, lives with parents";
        personality_traits := ["eager"; "optimistic"; "inexperienced"; "ambitious"];
        vulnerabilities :=
          ["Desperate for job opportunities";
           "Willing to pay small fees for 'guaranteed' jobs";
           "Lacks experience spotting job scams";
           "Trusts official-looking communications"];
        max_typing_speed_wpm := 45; makes_typos := false; uses_emojis := true |});
    (INVESTOR,
     {| persona_type := INVESTOR; name := "Amit Patel"; age := 42;
        location := "Mumbai, India"; occupation := "Small business owner";
        tech_knowledge := "medium";
        financial_status := "Has savings, wants higher returns";
        family_status := "Married with two children";
        personality_traits := ["ambitious"; "risk-taker"; "busy"; "greedy"];
        vulnerabilities :=
          ["Attracted to high-return promises";
           "FOMO (fear of missing out) on opportunities";
           "Too busy to verify thoroughly";
           "Overconfident in financial knowledge"];
        max_typing_speed_wpm := 50; makes_typos := false; uses_emojis := false |});
    (TECH_NOVICE,
     {| persona_type := TECH_NOVICE; name := "Sunita Reddy"; age := 35;
        location := "Bangalore, India"; occupation := "Homemaker";
        tech_knowledge := "low";
        financial_status := "Manages household finances";
        family_status := "Married, husband works in IT";
        personality_traits := ["careful"; "confused by tech"; "helpful"; "worried"];
        vulnerabilities :=
          ["Easily confused by technical terms";
           "Fears account being blocked/frozen";
           "Follows instructions when panicked";
           "Trusts authority figures"];
        max_typing_speed_wpm := 30; makes_typos := true; uses_emojis := false |});
    (STUDENT,
     {| persona_type := STUDENT; name := "Arjun Singh"; age := 20;
        location := "Kolkata, India"; occupation := "College student";
        tech_knowledge := "high";
        financial_status := "Limited pocket money, wants extra income";
        family_status := "Single, lives in hostel";
        personality_traits := ["tech-savvy"; "naive about scams"; "greedy"; "impulsive"];
        vulnerabilities :=
          ["Wants easy money for expenses";
           "Overconfident in tech abilities";
           "Doesn't consult parents before decisions";
           "Attracted to 'work from home' offers"];
        max_typing_speed_wpm := 60; makes_typos := false; uses_emojis := true |}) ].

(** [PERSONAS[key]]; [None] is the [KeyError]. *)
Fixpoint persona_of (table : list (PersonaType * PersonaProfile)) (key : PersonaType)
  : option PersonaProfile :=
  match table with
  | [] => None
  | (k, p) :: rest => if persona_eqb k key then Some p else persona_of rest key
  end.

(** [persona_mapping.get(scam_type, PersonaType.TECH_NOVICE)] *)
Definition persona_mapping (scam_type : ScamDetector.ScamType) : PersonaType :=
  match scam_type with
  | ScamDetector.JOB_SCAM => JOB_SEEKER
  | ScamDetector.INVESTMENT_SCAM => INVESTOR
  | ScamDetector.BANKING_FRAUD => TECH_NOVICE
  | ScamDetector.PRIZE_LOTTERY => ELDERLY
  | ScamDetector.TECH_SUPPORT => TECH_NOVICE
  | ScamDetector.ROMANCE_SCAM => ELDERLY
  | ScamDetector.IMPERSONATION => TECH_NOVICE
  | ScamDetector.UNKNOWN | ScamDetector.NOT_SCAM => TECH_NOVICE
  end.

(** A message of the conversation memory: its role and its content.  The
    time stamp, and the list of persona statements that nothing reads, are
    left out. *)
Definition message : Type := (string * string)%type.

(** The manager: the persona in use and the messages of its
    [ConversationMemory], both [None] until a persona is selected. *)
Record state : Type := {
  current_persona : option PersonaProfile;
  memory : option (list message)
}.

Definition initial : state := {| current_persona := None; memory := None |}.

(** [select_persona]: the persona returned and the manager afterwards;
    [None] is the [KeyError] of a persona type missing from [PERSONAS]. *)
Definition select_persona (scam_type : ScamDetector.ScamType) (st : state)
  : option (PersonaProfile * state) :=
  match persona_of PERSONAS (persona_mapping scam_type) with
  | Some p => Some (p, {| current_persona := Some p; memory := Some [] |})
  | None => None
  end.

Definition add_message (role content : string) (st : state) : state :=
  match memory st with
  | Some messages =>
      {| current_persona := current_persona st;
         memory := Some (messages ++ [(role, content)])%list |}
  | None => st
  end.

(** [messages[-count:]] *)
Definition get_recent_messages {A : Type} (count : Z) (messages : list A) : list A :=
  if (0 <? count)%Z then skipn (List.length messages - Z.to_nat count) messages
  else skipn (Z.to_nat (- count)) messages.

Definition get_conversation_history (count : Z) (st : state) : list message :=
  match memory st with
  | Some messages => get_recent_messages count messages
  | None => []
  end.

End PersonaManager.

(* ===================================================================== *)
(** * conversation_agent.py                                               *)
(* ===================================================================== *)

Module ConversationAgent.

(** The singletons [generate_response] works on. *)
Record world : Type := {
  store : EntityExtractor.store;
  engine : StrategyEngine.ConversationState;
  llm : Llm.state;
  persona : PersonaManager.state
}.

(** What the outside brings to one call of [generate_response]: the
    network seen by [extract], the clock read by [should_stop], the pick
    of [random.choice], what the provider answers to the first request
    and to the retry, and the verdict of the persona consistency check on
    the first reply. *)
Record turn_env : Type := {
  net : string -> option string;
  now : Q;
  exit_choice : nat;
  first_outcome : Llm.provider_outcome;
  consistent : bool;
  second_outcome : Llm.provider_outcome
}.

(** [generate_response] returns an [Optional[str]] or lets the
    [ValueError] of [get_persona_context] through. *)
Inductive returned : Type :=
| Value (response : option string)
| NoPersonaSelected.

Definition exit_messages : list string :=
  ["Thank you for the information. I need to think about this and discuss with my family.";
   "I appreciate your help. Let me check with my bank first and get back to you.";
   "This sounds good, but I need some time to arrange the money. I'll contact you later.";
   "I'm interested, but I need to go now. Can we continue this tomorrow?";
   "Let me talk to my son/daughter about this first. I'll message you back."].

(** [random.choice(exit_messages)], the pick being named by an index. *)
Definition _generate_exit_message (choice : nat) : string :=
  nth (choice mod List.length exit_messages) exit_messages "".

Section Agent.

Variable cfg : Config.t.

(** [llm.generate_victim_response]: the prompt it builds goes to the
    provider; what it returns is [generate] with validation on. *)
Definition generate_victim_response (outcome : Llm.provider_outcome) (st : Llm.state)
  : Llm.LLMResponse * Llm.state :=
  Llm.generate cfg outcome true st.

Definition generate_response (env : turn_env) (scammer_message : string) (w : world)
  : returned * world :=
  let store1 :=
    snd (EntityExtractor.extract cfg (net env) scammer_message "scammer" (store w)) in
  let engine1 :=
    snd (StrategyEngine.analyze_scammer_message scammer_message (engine w)) in
  if fst (StrategyEngine.should_stop cfg (now env) store1 engine1)
  then (Value (Some (_generate_exit_message (exit_choice env))),
        {| store := store1; engine := engine1; llm := llm w; persona := persona w |})
  else
    let engine2 := snd (StrategyEngine.get_strategy_guidance cfg store1 engine1) in
    let engine3 :=
      snd (StrategyEngine.get_adaptive_prompt_addition scammer_message engine2) in
    match PersonaManager.current_persona (persona w) with
    | None =>
        (NoPersonaSelected,
         {| store := store1; engine := engine3; llm := llm w; persona := persona w |})
    | Some _ =>
        let first := generate_victim_response (first_outcome env) (llm w) in
        if negb (Llm.success (fst first))
        then (Value None,
              {| store := store1; engine := engine3; llm := snd first;
                 persona := persona w |})
        else
          let retry := generate_victim_response (second_outcome env) (snd first) in
          let response :=
            if consistent env then Llm.content (fst first)
            else if Llm.success (fst retry) then Llm.content (fst retry)
                 else "I'm not sure what you mean." in
          let llm' := if consistent env then snd first else snd retry in
          (Value (Some response),
           {| store := store1;
              engine := StrategyEngine.increment_message_count engine3;
              llm := llm';
              persona :=
                PersonaManager.add_message "victim" response
                  (PersonaManager.add_message "scammer" scammer_message (persona w)) |})
    end.

End Agent.

End ConversationAgent.

(* ===================================================================== *)
(** * main.py: [_conversation_loop]                                       *)
(* ===================================================================== *)

Module Main.
Import ConversationAgent.

Record loop_result : Type := {
  messages_exchanged : Z;
  stop_reason : StrategyEngine.StopReason;
  last_victim_response : option string
}.

Inductive finished : Type :=
| Done (r : loop_result)
| NoPersonaError          (* the [ValueError] of [generate_response] *)
| OutOfFuel.              (* the model's bound on iterations was too small *)

Section Loop.

Variable cfg : Config.t.

(** The environment of the [n]-th call of [generate_response], and the
    answer of the [n]-th call of [scammer_callback] to the response it is
    given. *)
Variable env : nat -> turn_env.
Variable scammer_callback : nat -> option string -> option string.

(** The [while] loop; [turn] counts the calls of [generate_response] made
    so far and [fuel] bounds the iterations still allowed. *)
Fixpoint rounds (fuel turn : nat) (exchanged : Z) (victim_response : option string)
         (w : world) : finished * world :=
  if negb (exchanged <? Config.max_messages (Config.engagement cfg))%Z
  then (Done {| messages_exchanged := exchanged;
                stop_reason := StrategyEngine.MAX_MESSAGES;
                last_victim_response := victim_response |}, w)
  else
    match fuel with
    | O => (OutOfFuel, w)
    | S fuel' =>
        match scammer_callback (turn - 1) victim_response with
        | None =>
            (Done {| messages_exchanged := exchanged;
                     stop_reason := StrategyEngine.SCAMMER_DISENGAGED;
                     last_victim_response := victim_response |}, w)
        | Some scammer_message =>
            let w1 :=
              {| store := store w; engine := engine w; llm := llm w;
                 persona := PersonaManager.add_message "scammer" scammer_message
                              (persona w) |} in
            match generate_response cfg (env turn) scammer_message w1 with
            | (NoPersonaSelected, w2) => (NoPersonaError, w2)
            | (Value None, w2) =>
                (Done {| messages_exchanged := exchanged + 1;
                         stop_reason := StrategyEngine.AGENT_DISENGAGED;
                         last_victim_response := None |}, w2)
            | (Value (Some response), w2) =>
                rounds fuel' (S turn) (exchanged + 1) (Some response) w2
            end
        end
    end.

(** [_conversation_loop]; [with_callback] tells whether a
    [scammer_callback] was given. *)
Definition _conversation_loop (with_callback : bool) (initial_message : string)
           (w : world) : finished * world :=
  match generate_response cfg (env 0%nat) initial_message w with
  | (NoPersonaSelected, w1) => (NoPersonaError, w1)
  | (Value victim_response, w1) =>
      if negb with_callback
      then (Done {| messages_exchanged := 1;
                    stop_reason := StrategyEngine.DEMO_MODE;
                    last_victim_response := victim_response |}, w1)
      else rounds (Z.to_nat (Config.max_messages (Config.engagement cfg) - 1))
                  1%nat 1%Z victim_response w1
  end.

End Loop.

End Main.

(* ===================================================================== *)
(** * Concrete turns used in the examples                                 *)
(* ===================================================================== *)

Module Samples.
Import ConversationAgent.

(** An oracle that answers with a JSON array, and [json.loads] on that
    answer. *)
Definition array_answer : string := "[1, 2]".

Definition reads_array : string -> option Llm.jval :=
  fun s =>
    if String.eqb s array_answer then Some (Llm.JArr [Llm.JNum 1; Llm.JNum 2])
    else None.

(** The manager once [select_persona] has run for a lottery scam. *)
Definition selected : PersonaManager.state :=
  match PersonaManager.select_persona ScamDetector.PRIZE_LOTTERY PersonaManager.initial with
  | Some (_, st) => st
  | None => PersonaManager.initial
  end.

(** The singletons at the start of a conversation begun at time 0. *)
Definition ready : world :=
  {| store := [];
     engine := StrategyEngine.new_state 0;
     llm := Llm.initial;
     persona := selected |}.

(** A turn one minute into the session, without network, in which the
    provider answers in character. *)
Definition calm : turn_env :=
  {| net := Scenario.offline;
     now := 60;
     exit_choice := 0;
     first_outcome := Llm.Answered "Okay, what do I need to do?";
     consistent := true;
     second_outcome := Llm.Answered "Okay, what do I need to do?" |}.

(** A scammer who goes on asking. *)
Definition insistent : nat -> option string -> option string :=
  fun _ _ => Some "Please send the payment soon.".

End Samples.

(* ===================================================================== *)
(** * IEEE doubles, as Python floats compute                             *)
(* ===================================================================== *)

Module Binary64.
#[local] Open Scope Z_scope.

(** A finite double is an integer multiple of 2^-1074, the smallest
    positive double; [Fin n] is the double [n * 2^-1074].  The sign of
    zero is not kept. *)
Inductive float : Type :=
| Fin (n : Z)
| PInf
| NInf
| NaN.

(** 1.0 counted in multiples of 2^-1074. *)
Definition scale : Z := 2 ^ 1074.

(** 2^1024, the first magnitude that is no double, in the same unit. *)
Definition limit : Z := 2 ^ 2098.

(** The integer nearest to [num / den], ties to the even one. *)
Definition rne (num den : Z) : Z :=
  let f := num / den in
  match 2 * (num mod den) ?= den with
  | Lt => f
  | Gt => f + 1
  | Eq => if Z.even f then f else f + 1
  end.

(** The binary exponent of the last place of [num / den]: doubles keep 53
    bits, and below 2^-1021 their spacing stays 2^-1074. *)
Definition shift (num den : Z) : Z := Z.max 0 (Z.log2 (num / den) - 52).

(** [num / den >= 0] rounded to the nearest number with 53 bits. *)
Definition round_pos (num den : Z) : Z :=
  let s := shift num den in
  rne num (den * 2 ^ s) * 2 ^ s.

(** Round to nearest, ties to even, overflow to an infinity: the double
    of the real number [num / den * 2^-1074], for [den > 0]. *)
Definition round (num den : Z) : float :=
  let m := round_pos (Z.abs num) den in
  if limit <=? m then (if num <? 0 then NInf else PInf)
  else Fin (Z.sgn num * m).

(** The double a decimal literal of the source denotes. *)
Definition of_Q (q : Q) : float := round (Qnum q * scale) (Zpos (Qden q)).

(** The real number a finite double is. *)
Definition to_Q (x : float) : Q :=
  match x with
  | Fin n => inject_Z n / inject_Z scale
  | _ => 0%Q
  end.

Definition zero : float := Fin 0.
Definition one : float := Fin scale.

Definition add (x y : float) : float :=
  match x, y with
  | NaN, _ | _, NaN => NaN
  | PInf, NInf | NInf, PInf => NaN
  | PInf, _ | _, PInf => PInf
  | NInf, _ | _, NInf => NInf
  | Fin a, Fin b => round (a + b) 1
  end.

Definition neg (x : float) : float :=
  match x with
  | Fin n => Fin (- n)
  | PInf => NInf
  | NInf => PInf
  | NaN => NaN
  end.

Definition sub (x y : float) : float := add x (neg y).

Definition abs (x : float) : float :=
  match x with
  | Fin n => Fin (Z.abs n)
  | PInf | NInf => PInf
  | NaN => NaN
  end.

(** The infinity of the sign of [s * t], or [NaN] when one is zero. *)
Definition signed_inf (s : Z) : float :=
  match s with
  | Z0 => NaN
  | Zpos _ => PInf
  | Zneg _ => NInf
  end.

Definition sign (x : float) : Z :=
  match x with
  | Fin n => Z.sgn n
  | PInf => 1
  | NInf => -1
  | NaN => 0
  end.

Definition mul (x y : float) : float :=
  match x, y with
  | NaN, _ | _, NaN => NaN
  | Fin a, Fin b => round (a * b) scale
  | _, _ => signed_inf (sign x * sign y)
  end.

(** [x / y]; [None] is the [ZeroDivisionError] of a zero divisor. *)
Definition div (x y : float) : option float :=
  match x, y with
  | _, Fin 0 => None
  | NaN, _ | _, NaN => Some NaN
  | Fin a, Fin b => Some (round (Z.sgn b * a * scale) (Z.abs b))
  | Fin _, _ => Some zero
  | _, Fin b => Some (signed_inf (sign x * Z.sgn b))
  | _, _ => Some NaN
  end.

(** [x <= y], [x < y] and [x == y]; every comparison with [NaN] is false. *)
Definition leb (x y : float) : bool :=
  match x, y with
  | NaN, _ | _, NaN => false
  | NInf, _ | _, PInf => true
  | Fin a, Fin b => a <=? b
  | _, _ => false
  end.

Definition ltb (x y : float) : bool :=
  match x, y with
  | NaN, _ | _, NaN => false
  | PInf, _ | _, NInf => false
  | Fin a, Fin b => a <? b
  | _, _ => true
  end.

Definition eqb (x y : float) : bool :=
  match x, y with
  | Fin a, Fin b => a =? b
  | PInf, PInf | NInf, NInf => true
  | _, _ => false
  end.

(** The values a Python float can have. *)
Definition is_double (x : float) : bool :=
  match x with
  | Fin n => eqb (round n 1) (Fin n)
  | _ => true
  end.

End Binary64.

(* ===================================================================== *)
(** * The fusing arithmetic in doubles                                    *)
(* ===================================================================== *)

Module Doubles.
Import Binary64.

(** A [Dict[str, float]], in insertion order. *)
Definition fdict : Type := list (string * float).

(** [d.get(key, default)] *)
Fixpoint get (d : fdict) (key : string) (default : float) : float :=
  match d with
  | [] => default
  | (k, v) :: d' => if String.eqb k key then v else get d' key default
  end.

(** [sum(xs)]: from the integer 0 the numbers are added from left to
    right, each addition rounded.  This is the loop of CPython's [sum] up
    to version 3.11; later versions also carry the rounding errors along
    and add them at the end. *)
Definition sum (xs : list float) : float := fold_left add xs zero.

Definition calculate_weighted_score (scores weights : fdict) : float :=
  if Utils.is_empty scores || Utils.is_empty weights then zero
  else
    let total_score :=
      sum (map (fun kw => mul (get scores (fst kw) zero) (snd kw)) weights) in
    let total_weight := sum (map snd weights) in
    if ltb zero total_weight
    then match div total_score total_weight with
         | Some quotient => quotient
         | None => zero       (* no zero divisor passes the test *)
         end
    else zero.

(** The four numbers of [ScamDetectionConfig]. *)
Record ScamDetectionConfig : Type := {
  confidence_threshold : float;
  keyword_weight : float;
  pattern_weight : float;
  llm_weight : float
}.

(** The dataclass defaults. *)
Definition default : ScamDetectionConfig :=
  {| confidence_threshold := of_Q 0.85;
     keyword_weight := of_Q 0.3;
     pattern_weight := of_Q 0.3;
     llm_weight := of_Q 0.4 |}.

(** The dictionary [weights] of [ScamDetector.detect]. *)
Definition weights (sd : ScamDetectionConfig) : fdict :=
  [("keyword", keyword_weight sd);
   ("pattern", pattern_weight sd);
   ("llm", llm_weight sd)].

(** The lines of [ScamDetector.detect] from the three layer scores to
    [final_confidence] and [is_scam]. *)
Definition fuse (sd : ScamDetectionConfig) (keyword_score pattern_score llm_score : float)
  : float * bool :=
  let scores :=
    [("keyword", keyword_score); ("pattern", pattern_score); ("llm", llm_score)] in
  let final_confidence := calculate_weighted_score scores (weights sd) in
  (final_confidence, leb (confidence_threshold sd) final_confidence).

(** [Config.validate], as a truth value; the four numbers are read in
    doubles, the other sections as [Config] has them. *)
Definition validate (sd : ScamDetectionConfig) (c : Config.t) : bool :=
  let weight_sum := add (add (keyword_weight sd) (pattern_weight sd)) (llm_weight sd) in
  if negb (leb zero (confidence_threshold sd) && leb (confidence_threshold sd) one)
  then false
  else if ltb (of_Q 0.01) (abs (sub weight_sum one)) then false
  else if (String.eqb (Config.provider (Config.llm c)) "openai"
           || String.eqb (Config.provider (Config.llm c)) "gemini")
          && String.eqb (Config.api_key (Config.llm c)) ""
  then false
  else if (Config.max_messages (Config.engagement c) <? 1)%Z then false
  else true.

(** A number within [0, 1]. *)
Definition in_unit_interval (x : float) : bool := leb zero x && leb x one.

(** The exact weighted mean of three scores, for weights that sum to
    one. *)
Definition exact_mean (sd : ScamDetectionConfig) (sk sp sl : float) : Q :=
  (to_Q (keyword_weight sd) * to_Q sk + to_Q (pattern_weight sd) * to_Q sp
   + to_Q (llm_weight sd) * to_Q sl)%Q.

(** Weights [2.0], [-1.0] and [0.0]: they sum to 1.0 and pass
    [Config.validate], which asks no weight to be positive. *)
Definition skewed : ScamDetectionConfig :=
  {| confidence_threshold := of_Q 0.85;
     keyword_weight := of_Q 2;
     pattern_weight := of_Q (-1);
     llm_weight := zero |}.

End Doubles.

(* ===================================================================== *)
(** * Properties of the strategy engine                                   *)
(* ===================================================================== *)

Section StrategyFacts.
Import EntityExtractor StrategyEngine Scenario.

(** C2, as stated, fails: with five messages, one high-value entity and the
    default limit of fifteen messages the phase is not [DELAY_PROBE]. *)
Lemma phase_5_1_is_not_delay_probe :
  ~ (forall (cfg : Config.t) (entities : store) (state : ConversationState),
        Config.max_messages (Config.engagement cfg) = 15%Z ->
        message_count state = 5%Z ->
        get_entity_count entities = 1%Z ->
        determine_phase cfg entities state = DELAY_PROBE).
Proof.
  intros H.
  specialize (H (Config.default "key") one_entity (after_turns 5)
                eq_refl eq_refl eq_refl).
  vm_compute in H. discriminate H.
Qed.

(** C2, amended: two messages give [BUILD_TRUST]; five messages with one
    high-value entity give [EXTRACT_INTEL] whatever the message limit,
    because the test [message_count < 8 and entity_count < 2] comes before
    the test [entity_count >= 1]; at five messages [DELAY_PROBE] is
    reached exactly when there are at least two high-value entities and
    the limit exceeds eight. *)
Theorem determine_phase_branch_order :
  forall (cfg : Config.t) (entities : store) (state : ConversationState),
    (message_count state = 2%Z -> determine_phase cfg entities state = BUILD_TRUST)
    /\ (message_count state = 5%Z -> get_entity_count entities = 1%Z ->
        determine_phase cfg entities state = EXTRACT_INTEL)
    /\ (message_count state = 5%Z ->
        (determine_phase cfg entities state = DELAY_PROBE
         <-> (2 <= get_entity_count entities
              /\ 8 < Config.max_messages (Config.engagement cfg))%Z)).
Proof.
  intros cfg entities state. unfold determine_phase.
  split; [| split].
  - intros ->. reflexivity.
  - intros -> ->. reflexivity.
  - intros ->. cbn [Z.ltb Z.compare Pos.compare Pos.compare_cont andb].
    destruct (get_entity_count entities <? 2)%Z eqn:Hlt.
    + apply Z.ltb_lt in Hlt. split; [discriminate | lia].
    + apply Z.ltb_ge in Hlt.
      destruct (1 <=? get_entity_count entities)%Z eqn:Hge;
        [| apply Z.leb_gt in Hge; lia].
      destruct (5 <? Config.max_messages (Config.engagement cfg) - 3)%Z eqn:Hmax;
        cbn [andb].
      * apply Z.ltb_lt in Hmax. split; [intros _; lia | reflexivity].
      * apply Z.ltb_ge in Hmax. split; [discriminate | lia].
Qed.

Lemma determine_phase_branch_order_witness :
  determine_phase (Config.default "key") one_entity (after_turns 2) = BUILD_TRUST
  /\ determine_phase (Config.default "key") one_entity (after_turns 5) = EXTRACT_INTEL
  /\ determine_phase (Config.default "key") three_entities (after_turns 5) = DELAY_PROBE.
Proof.
  destruct (determine_phase_branch_order (Config.default "key") one_entity (after_turns 2))
    as [H2 _].
  destruct (determine_phase_branch_order (Config.default "key") one_entity (after_turns 5))
    as [_ [H5 _]].
  destruct (determine_phase_branch_order (Config.default "key") three_entities (after_turns 5))
    as [_ [_ H5']].
  split; [apply H2; reflexivity | split].
  - apply H5; reflexivity.
  - apply H5'; [reflexivity | split; [vm_compute; discriminate | reflexivity]].
Defined.

(** C3: [should_stop] answers with the first of the five conditions, taken
    in the order maxMessages, timeLimit, entitiesSufficient,
    scammerSuspicious, unproductive, that holds; in particular when the
    message limit and the entity minimum are both reached the reason is
    [MAX_MESSAGES]. *)
Theorem should_stop_priority :
  forall (cfg : Config.t) (now : Q) (entities : store) (state : ConversationState),
    should_stop cfg now entities state
    = first_true (stop_conditions cfg now entities state)
    /\ ((Config.max_messages (Config.engagement cfg) <= message_count state)%Z ->
        (Config.min_entities_for_stop (Config.engagement cfg)
         <= get_entity_count entities)%Z ->
        should_stop cfg now entities state = (true, Some MAX_MESSAGES)).
Proof.
  intros cfg now entities state. split.
  - unfold should_stop, stop_conditions. cbn [first_true].
    repeat match goal with
           | |- context [if ?b then _ else _] => destruct b; try reflexivity
           end.
  - intros Hmax _. unfold should_stop.
    rewrite (proj2 (Z.leb_le _ _) Hmax). reflexivity.
Qed.

Lemma should_stop_priority_witness :
  should_stop (Config.default "key") 60 three_entities (after_turns 15)
  = (true, Some MAX_MESSAGES).
Proof.
  apply (proj2 (should_stop_priority (Config.default "key") 60 three_entities
                                     (after_turns 15))).
  - vm_compute. discriminate.
  - vm_compute. discriminate.
Defined.

(** Each method of the engine, seen as a step on the session state, leaves
    [message_count] alone, except [increment_message_count], which adds
    one. *)
Lemma step_message_count :
  forall (cfg : Config.t) (c : call) (state : ConversationState),
    message_count (step cfg c state)
    = (message_count state + (if is_increment c then 1 else 0))%Z.
Proof.
  intros cfg c state. destruct c; cbn; lia.
Qed.

Lemma run_message_count :
  forall (cfg : Config.t) (calls : list call) (state : ConversationState),
    message_count (run cfg calls state)
    = (message_count state
       + Z.of_nat (List.length (filter is_increment calls)))%Z.
Proof.
  intros cfg calls. unfold run.
  induction calls as [| c calls IH]; intros state.
  - cbn. lia.
  - cbn [fold_left filter]. rewrite IH, step_message_count.
    destruct (is_increment c); cbn [List.length]; lia.
Qed.

(** C9: over any sequence of calls of the engine's methods the counter
    never decreases; only [increment_message_count] changes it, by exactly
    one each time. *)
Theorem message_count_monotone :
  forall (cfg : Config.t) (before after : list call) (state : ConversationState),
    (message_count (run cfg before state)
     <= message_count (run cfg (before ++ after)%list state))%Z
    /\ message_count (run cfg before state)
       = (message_count state
          + Z.of_nat (List.length (filter is_increment before)))%Z
    /\ (forall c : call,
           message_count (step cfg c state)
           = if is_increment c then (message_count state + 1)%Z
             else message_count state)
    /\ message_count (increment_message_count state) = (message_count state + 1)%Z.
Proof.
  intros cfg before after state. repeat split.
  - rewrite !run_message_count, filter_app, length_app. lia.
  - apply run_message_count.
  - intros c. rewrite step_message_count. destruct (is_increment c); lia.
Qed.

End StrategyFacts.

(* ===================================================================== *)
(** * Properties of the extraction engine                                 *)
(* ===================================================================== *)

Section ExtractionFacts.
Import EntityExtractor Scenario.

Lemma type_eqb_eq : forall a b : EntityType, type_eqb a b = true <-> a = b.
Proof.
  intros a b; split.
  - destruct a, b; cbn; intros H; try reflexivity; discriminate H.
  - intros ->. destruct b; reflexivity.
Qed.

Lemma has_key_eq :
  forall t v e, has_key t v e = true <-> entity_type e = t /\ normalized_value e = v.
Proof.
  intros t v e. unfold has_key.
  rewrite andb_true_iff, type_eqb_eq, String.eqb_eq. tauto.
Qed.

Lemma count_key_app :
  forall t v (l1 l2 : list ExtractedEntity),
    count_key t v (l1 ++ l2)%list = (count_key t v l1 + count_key t v l2)%nat.
Proof.
  intros. unfold count_key. rewrite filter_app, length_app. reflexivity.
Qed.

Lemma existsb_count_key :
  forall t v (l : list ExtractedEntity),
    existsb (has_key t v) l = negb (count_key t v l =? 0)%nat.
Proof.
  intros t v l. unfold count_key.
  induction l as [| e l IH]; cbn; [reflexivity |].
  destruct (has_key t v e); cbn; [reflexivity | exact IH].
Qed.

(** The duplicate test looks for the entity's own pair in the store. *)
Lemma is_duplicate_existsb :
  forall st e,
    _is_duplicate st e = existsb (has_key (entity_type e) (normalized_value e)) st.
Proof. reflexivity. Qed.

Lemma count_key_remember :
  forall t v st e,
    count_key t v (remember st e)
    = if has_key t v e then Nat.max 1 (count_key t v st) else count_key t v st.
Proof.
  intros t v st e. unfold remember.
  destruct (has_key t v e) eqn:Hk.
  - pose proof (proj1 (has_key_eq t v e) Hk) as [Ht Hv].
    rewrite is_duplicate_existsb, Ht, Hv, existsb_count_key, negb_involutive.
    destruct (count_key t v st =? 0)%nat eqn:Hz.
    + apply Nat.eqb_eq in Hz. rewrite count_key_app, Hz.
      unfold count_key at 1. cbn [filter]. rewrite Hk. reflexivity.
    + apply Nat.eqb_neq in Hz. lia.
  - destruct (negb (_is_duplicate st e)); [| reflexivity].
    rewrite count_key_app. unfold count_key at 2. cbn [filter]. rewrite Hk.
    cbn. lia.
Qed.

Lemma count_key_fold_remember :
  forall t v es st,
    count_key t v (fold_left remember es st)
    = if existsb (has_key t v) es then Nat.max 1 (count_key t v st)
      else count_key t v st.
Proof.
  intros t v es. induction es as [| e es IH]; intros st; cbn [fold_left existsb].
  - reflexivity.
  - rewrite IH, count_key_remember.
    destruct (has_key t v e), (existsb (has_key t v) es); cbn [orb]; lia.
Qed.

(** What [extract] returns is the list of matches, untouched by the store. *)
Lemma extract_returns_matches :
  forall cfg http_head message role st,
    fst (extract cfg http_head message role st) = matches cfg http_head message role.
Proof. reflexivity. Qed.

Lemma count_key_extract :
  forall cfg http_head message role st t v,
    count_key t v (snd (extract cfg http_head message role st))
    = if (1 <=? count_key t v (matches cfg http_head message role))%nat
      then Nat.max 1 (count_key t v st)
      else count_key t v st.
Proof.
  intros. unfold extract. cbn [snd].
  rewrite count_key_fold_remember, existsb_count_key.
  destruct (count_key t v (matches cfg http_head message role)); reflexivity.
Qed.

(** The store of a session never holds a pair twice. *)
Lemma session_store_unique :
  forall cfg st, session_store cfg st -> unique_keys st.
Proof.
  intros cfg st H. induction H as [| http_head message role st _ IH]; intros t v.
  - cbn. lia.
  - rewrite count_key_extract. specialize (IH t v).
    destruct (1 <=? _)%nat; lia.
Qed.

(** C5: in any session, a pair matched in one call or in two successive
    calls is held exactly once by the running list afterwards, while the
    returned lists are the matches themselves: matched once in each of two
    calls, the pair is returned twice. *)
Theorem extract_idempotent_for_duplicates :
  forall (cfg : Config.t) (net1 net2 : string -> option string)
         (st : store) (message1 role1 message2 role2 : string)
         (t : EntityType) (v : string),
    session_store cfg st ->
    let first := extract cfg net1 message1 role1 st in
    let second := extract cfg net2 message2 role2 (snd first) in
    fst first = matches cfg net1 message1 role1
    /\ fst second = matches cfg net2 message2 role2
    /\ ((1 <= count_key t v (fst first))%nat -> count_key t v (snd first) = 1%nat)
    /\ ((1 <= count_key t v (fst first) + count_key t v (fst second))%nat ->
        count_key t v (snd second) = 1%nat)
    /\ (count_key t v (fst first) = 1%nat -> count_key t v (fst second) = 1%nat ->
        count_key t v (snd second) = 1%nat
        /\ count_key t v (fst first ++ fst second)%list = 2%nat).
Proof.
  intros cfg net1 net2 st message1 role1 message2 role2 t v Hst first second.
  pose proof (session_store_unique cfg st Hst t v) as Hu.
  assert (H1 : count_key t v (snd first)
               = if (1 <=? count_key t v (fst first))%nat
                 then Nat.max 1 (count_key t v st) else count_key t v st)
    by apply count_key_extract.
  assert (H2 : count_key t v (snd second)
               = if (1 <=? count_key t v (fst second))%nat
                 then Nat.max 1 (count_key t v (snd first))
                 else count_key t v (snd first))
    by apply count_key_extract.
  split; [reflexivity | split; [reflexivity |]].
  destruct (1 <=? count_key t v (fst first))%nat eqn:E1;
    destruct (1 <=? count_key t v (fst second))%nat eqn:E2;
    try apply Nat.leb_le in E1; try apply Nat.leb_gt in E1;
    try apply Nat.leb_le in E2; try apply Nat.leb_gt in E2;
    repeat split; intros; try rewrite count_key_app; lia.
Qed.

Lemma extract_idempotent_for_duplicates_witness :
  let first := extract (Config.default "key") offline "9876543210" "scammer" [] in
  let second := extract (Config.default "key") offline "9876543210" "scammer" (snd first) in
  count_key PHONE_NUMBER "9876543210" (snd second) = 1%nat
  /\ count_key PHONE_NUMBER "9876543210" (fst first ++ fst second)%list = 2%nat.
Proof.
  intros first second.
  apply (extract_idempotent_for_duplicates
           (Config.default "key") offline offline [] "9876543210" "scammer"
           "9876543210" "scammer" PHONE_NUMBER "9876543210"
           (fresh (Config.default "key"))).
  - vm_compute. reflexivity.
  - vm_compute. reflexivity.
Defined.

Lemma in_somes :
  forall (A : Type) (l : list (option A)) (a : A), In a (somes l) -> In (Some a) l.
Proof.
  intros A l a. induction l as [| [b |] l IH]; cbn; intros H.
  - exact H.
  - destruct H as [-> | H]; [left; reflexivity | right; exact (IH H)].
  - right; exact (IH H).
Qed.

(** Every entity of [matches] comes out of [entity_of_match] for its own
    type. *)
Lemma in_matches :
  forall cfg http_head message role e,
    In e (matches cfg http_head message role) ->
    exists span,
      entity_of_match cfg http_head (entity_type e) message role span = Some e.
Proof.
  intros cfg http_head message role e H. unfold matches in H.
  apply in_flat_map in H. destruct H as [[t patterns] [_ H]].
  apply in_flat_map in H. destruct H as [pattern [_ H]].
  apply in_somes, in_map_iff in H. destruct H as [span [H _]].
  exists span. cbn [fst] in H.
  assert (Ht : entity_type e = t).
  { unfold entity_of_match in H.
    destruct (type_eqb t UPI_ID && _); [discriminate H |].
    injection H as <-. reflexivity. }
  rewrite Ht. exact H.
Qed.

(** C8: spoken by the victim, an entity is [LOW] whatever its value, its
    type and the message around it. *)
Theorem victim_entities_are_low :
  (forall (value : string) (t : EntityType) (message : string),
      _assess_confidence value t message "victim" = LOW)
  /\ (forall (cfg : Config.t) (http_head : string -> option string)
             (message : string) (st : store) (e : ExtractedEntity),
         In e (fst (extract cfg http_head message "victim" st)) ->
         confidence e = LOW).
Proof.
  split.
  - reflexivity.
  - intros cfg http_head message st e H.
    rewrite extract_returns_matches in H.
    apply in_matches in H. destruct H as [span H].
    unfold entity_of_match in H.
    destruct (type_eqb (entity_type e) UPI_ID && _); [discriminate H |].
    injection H as H. rewrite <- H. reflexivity.
Qed.

Lemma victim_entities_are_low_witness :
  let e := {| entity_type := UPI_ID; value := "claim@paytm";
              normalized_value := "claim@paytm"; confidence := LOW;
              context := "my upi is claim@paytm";
              source_message := "my upi is claim@paytm" |} in
  In e (fst (extract (Config.default "key") offline "my upi is claim@paytm" "victim" []))
  /\ confidence e = LOW.
Proof.
  intros e.
  assert (H : In e (fst (extract (Config.default "key") offline
                                 "my upi is claim@paytm" "victim" [])))
    by (vm_compute; left; reflexivity).
  split; [exact H |].
  exact (proj2 victim_entities_are_low (Config.default "key") offline
               "my upi is claim@paytm" [] e H).
Defined.

(** The ten digits 9876543210 are no instance of C10: of the two phone
    patterns only the second matches that message, and no pair is
    returned twice for it. *)
Lemma ten_digit_number_is_returned_once :
  let returned :=
    fst (extract (Config.default "key") offline "9876543210" "scammer" []) in
  Re.search true (nth 0 phone_patterns Re.Eps) "9876543210" = false
  /\ Re.search true (nth 1 phone_patterns Re.Eps) "9876543210" = true
  /\ count_key PHONE_NUMBER "9876543210" returned = 1%nat
  /\ ~ (exists t v, (2 <= count_key t v returned)%nat).
Proof.
  intros returned.
  split; [vm_compute; reflexivity |].
  split; [vm_compute; reflexivity |].
  split; [vm_compute; reflexivity |].
  intros [t [v H]]. revert H. unfold count_key.
  replace returned with
    [ {| entity_type := BANK_ACCOUNT; value := "9876543210";
         normalized_value := "9876543210"; confidence := MEDIUM;
         context := "9876543210"; source_message := "9876543210" |};
      {| entity_type := PHONE_NUMBER; value := "9876543210";
         normalized_value := "9876543210"; confidence := MEDIUM;
         context := "9876543210"; source_message := "9876543210" |} ]
    by (vm_compute; reflexivity).
  unfold has_key. cbn [filter entity_type normalized_value].
  destruct t; cbn [type_eqb andb];
    destruct (String.eqb "9876543210" v); cbn; lia.
Qed.

(** C10: [extract] returns its matches as they come and never removes a
    duplicate from them: for the message 919876543210, one number that
    both phone patterns match, the list returned by the one call holds
    the same pair of type and normalized value twice, while any call
    adds a pair to the running list at most once. *)
Theorem per_call_list_keeps_duplicates :
  (forall (cfg : Config.t) (http_head : string -> option string)
          (message role : string) (st : store),
      fst (extract cfg http_head message role st) = matches cfg http_head message role)
  /\ (forall (cfg : Config.t) (http_head : string -> option string)
             (message role : string) (st : store) (t : EntityType) (v : string),
         (count_key t v (snd (extract cfg http_head message role st))
          <= count_key t v st + 1)%nat)
  /\ (forall (key : string) (http_head : string -> option string) (st : store),
         let message := "919876543210" in
         let outcome := extract (Config.default key) http_head message "scammer" st in
         Re.findall true (nth 0 phone_patterns Re.Eps) message = [message]
         /\ Re.findall true (nth 1 phone_patterns Re.Eps) message = [message]
         /\ count_key PHONE_NUMBER "919876543210" (fst outcome) = 2%nat
         /\ (count_key PHONE_NUMBER "919876543210" (snd outcome)
             <= count_key PHONE_NUMBER "919876543210" st + 1)%nat).
Proof.
  assert (Hgain : forall cfg http_head message role st t v,
             (count_key t v (snd (extract cfg http_head message role st))
              <= count_key t v st + 1)%nat).
  { intros. rewrite count_key_extract. destruct (1 <=? _)%nat; lia. }
  split; [reflexivity | split; [exact Hgain |]].
  intros key http_head st message outcome.
  split; [vm_compute; reflexivity |].
  split; [vm_compute; reflexivity |].
  split; [vm_compute; reflexivity | apply Hgain].
Qed.

End ExtractionFacts.

(* ===================================================================== *)
(** * Properties of the classifier                                        *)
(* ===================================================================== *)

Section ClassifierFacts.
Import Text ScamDetector Scenario.

(** C6: for a sender that is not whitelisted, two urgency keywords together
    with two money keywords or two threat keywords in the lower-cased
    message give the lexical layer the score 0.8, whatever the density
    of keywords would have given. *)
Theorem urgency_override_score :
  forall (cfg : Config.t) (message : string) (sender : option string),
    KeywordDetector.whitelisted cfg sender = false ->
    (2 <= count_in KeywordDetector.URGENCY_KEYWORDS (lower message))%Z ->
    (2 <= count_in KeywordDetector.MONEY_KEYWORDS (lower message))%Z
    \/ (2 <= count_in KeywordDetector.THREAT_KEYWORDS (lower message))%Z ->
    score (KeywordDetector.detect cfg message sender) = 0.8
    /\ In "urgency_with_money_or_threat"
          (indicators (KeywordDetector.detect cfg message sender)).
Proof.
  intros cfg message sender Hw Hu Hmt.
  unfold KeywordDetector.detect. rewrite Hw.
  assert (Hcond :
            (2 <=? count_in KeywordDetector.URGENCY_KEYWORDS (lower message))%Z
            && ((2 <=? count_in KeywordDetector.MONEY_KEYWORDS (lower message))%Z
                || (2 <=? count_in KeywordDetector.THREAT_KEYWORDS (lower message))%Z)
            = true).
  { apply andb_true_iff; split; [apply Z.leb_le; exact Hu |].
    apply orb_true_iff. destruct Hmt as [H | H]; [left | right]; apply Z.leb_le; exact H. }
  destruct (if (2 <=? count_in KeywordDetector.PRIZE_KEYWORDS (lower message))%Z
            then _ else _) as [ty ind].
  rewrite Hcond. cbn [score indicators]. split; [reflexivity |].
  apply in_or_app. right. left. reflexivity.
Qed.

(** What a result of [fuse] is made of. *)
Lemma fuse_ok_inv :
  forall cfg py_repr kw pat lr r,
    fuse cfg py_repr kw pat lr = Ok r ->
    exists fields sl,
      lr = Llm.JObj fields
      /\ as_number (if Llm.truthy (field_or fields "is_scam" (Llm.JBool false))
                    then field_or fields "confidence" (Llm.JNum 0.0)
                    else Llm.JNum 0.0) = Ok sl
      /\ layer_scores r = [("keyword", score kw); ("pattern", score pat); ("llm", sl)]
      /\ confidence r = Utils.calculate_weighted_score (layer_scores r) (weights cfg)
      /\ is_scam r = Qle_bool (Config.confidence_threshold (Config.scam_detection cfg))
                              (confidence r)
      /\ scam_type r = choose_type (layer_type kw) (field_or fields "scam_type" Llm.JNull)
                                   (is_scam r)
      /\ reasoning r = build_reasoning py_repr kw pat (field_or fields "reasoning" Llm.JNull).
Proof.
  intros cfg py_repr kw pat lr r H.
  destruct lr as [| b | q | s | items | fields]; try discriminate H.
  exists fields. unfold fuse, llm_score_of in H. cbn [dict_get bind] in H.
  destruct (Llm.truthy (field_or fields "is_scam" (Llm.JBool false))).
  - cbn [bind] in H.
    destruct (as_number (field_or fields "confidence" (Llm.JNum 0.0))) as [sl | e] eqn:Hn;
      [| discriminate H].
    cbn [bind] in H. injection H as <-. exists sl. cbn. repeat split.
  - cbn [bind as_number] in H. injection H as <-. exists 0.0. cbn. repeat split.
Qed.

(** [fuse] returns exactly on the usable replies. *)
Lemma fuse_returns_iff :
  forall cfg py_repr kw pat lr,
    (exists r, fuse cfg py_repr kw pat lr = Ok r) <-> usable lr = true.
Proof.
  intros cfg py_repr kw pat lr. split.
  - intros [r H]. apply fuse_ok_inv in H.
    destruct H as [fields [sl [-> [Hn _]]]]. unfold usable.
    destruct (Llm.truthy _); [rewrite Hn |]; reflexivity.
  - destruct lr as [| b | q | s | items | fields]; try discriminate.
    unfold usable, fuse, llm_score_of. cbn [dict_get bind].
    destruct (Llm.truthy (field_or fields "is_scam" (Llm.JBool false)));
      cbn [dict_get bind].
    + destruct (as_number (field_or fields "confidence" (Llm.JNum 0.0))) as [sl | e];
        [| discriminate].
      intros _. cbn [bind]. eexists. reflexivity.
    + intros _. cbn [bind as_number]. eexists. reflexivity.
Qed.

(** None of the canned replies is JSON or mentions a scam. *)
Lemma fallback_is_plain_text :
  forall n : nat,
    Llm.begins_json (nth n Llm.fallback_responses "") = false
    /\ contains "scam" (lower (nth n Llm.fallback_responses "")) = false.
Proof.
  intros n. do 5 (destruct n as [| n]; [split; reflexivity |]).
  destruct n; split; reflexivity.
Qed.

(** What [detect_scam] answers when the provider call failed: with the
    fallback enabled [generate] has replaced the failure by a canned
    reply, and the branch for a failed response is not taken. *)
Lemma detect_scam_failed :
  forall cfg json_doc err st,
    fst (Llm.detect_scam cfg json_doc (Llm.Failed err) st)
    = if Config.enable_fallback (Config.llm cfg)
      then Llm.JObj [("is_scam", Llm.JBool false); ("confidence", Llm.JNum 0.5);
                     ("scam_type", Llm.JStr "unknown");
                     ("reasoning",
                      Llm.JStr (nth (Llm.fallback_index st) Llm.fallback_responses ""))]
      else Llm.JObj [("is_scam", Llm.JBool false); ("confidence", Llm.JNum 0.0);
                     ("scam_type", Llm.JStr "unknown");
                     ("reasoning", Llm.JStr "LLM analysis failed")].
Proof.
  intros cfg json_doc err [n].
  unfold Llm.detect_scam, Llm.generate.
  destruct (Llm.known_provider (Config.provider (Config.llm cfg)));
    destruct (Config.enable_fallback (Config.llm cfg));
    try reflexivity;
    do 5 (destruct n as [| n]; [reflexivity |]);
    destruct n; reflexivity.
Qed.

Lemma detect_scam_failed_usable :
  forall cfg json_doc err st,
    usable (fst (Llm.detect_scam cfg json_doc (Llm.Failed err) st)) = true.
Proof.
  intros. rewrite detect_scam_failed.
  destruct (Config.enable_fallback (Config.llm cfg)); reflexivity.
Qed.

(** A sender in which a whitelist pattern is found passes the whitelist
    test; the empty sender matches none of the patterns. *)
Lemma whitelisted_intro :
  forall cfg s pattern,
    Config.enable_whitelist (Config.scam_detection cfg) = true ->
    In pattern KeywordDetector.LEGITIMATE_PATTERNS ->
    Re.search true pattern s = true ->
    KeywordDetector.whitelisted cfg (Some s) = true.
Proof.
  intros cfg s pattern Hen Hin Hs. unfold KeywordDetector.whitelisted.
  rewrite Hen. cbn [andb].
  apply andb_true_iff; split.
  - rewrite andb_true_r. destruct s as [| c s]; [| reflexivity].
    exfalso. cbn in Hin.
    repeat (destruct Hin as [<- | Hin]; [vm_compute in Hs; discriminate Hs |]).
    exact Hin.
  - apply existsb_exists. exists pattern. split; assumption.
Qed.

(** C1, amended: for a sender matching a whitelist pattern, with the
    whitelist enabled, the lexical layer answers score 0.0 and type
    [NOT_SCAM] whatever the message; [detect] returns unless the oracle's
    JSON is unusable, in particular it returns when the oracle call
    failed, and its result has type [NOT_SCAM] and keyword score 0.0,
    while the confidence stays the weighted score of the three layers. *)
Theorem whitelisted_sender_keeps_type_not_scam :
  forall (cfg : Config.t) (json_doc : string -> option Llm.jval)
         (py_repr : Llm.jval -> string) (outcome : Llm.provider_outcome)
         (st : Llm.state) (message s : string) (pattern : Re.regex),
    Config.enable_whitelist (Config.scam_detection cfg) = true ->
    In pattern KeywordDetector.LEGITIMATE_PATTERNS ->
    Re.search true pattern s = true ->
    let lexical := KeywordDetector.detect cfg message (Some s) in
    let verdict := fst (detect cfg json_doc py_repr outcome st message (Some s)) in
    score lexical = 0.0
    /\ layer_type lexical = NOT_SCAM
    /\ ((exists r, verdict = Ok r)
        <-> usable (fst (Llm.detect_scam cfg json_doc outcome st)) = true)
    /\ (forall err, outcome = Llm.Failed err -> exists r, verdict = Ok r)
    /\ (forall r, verdict = Ok r ->
                  scam_type r = NOT_SCAM
                  /\ Utils.get (layer_scores r) "keyword" 1 = 0.0
                  /\ Utils.get (layer_scores r) "pattern" 0
                     = score (PatternDetector.detect message)
                  /\ confidence r
                     = Utils.calculate_weighted_score (layer_scores r) (weights cfg)).
Proof.
  intros cfg json_doc py_repr outcome st message s pattern Hen Hin Hs lexical verdict.
  pose proof (whitelisted_intro cfg s pattern Hen Hin Hs) as Hw.
  assert (Hlex : lexical = {| score := 0.0; layer_type := NOT_SCAM;
                              indicators := ["whitelisted_sender"] |}).
  { unfold lexical, KeywordDetector.detect. rewrite Hw. reflexivity. }
  split; [rewrite Hlex; reflexivity |].
  split; [rewrite Hlex; reflexivity |].
  split; [apply fuse_returns_iff |].
  split.
  - intros err ->. apply fuse_returns_iff, detect_scam_failed_usable.
  - intros r Hr. unfold verdict, detect in Hr. cbn [fst] in Hr.
    apply fuse_ok_inv in Hr.
    destruct Hr as [fields [sl [_ [_ [Hsc [Hconf [_ [Hty _]]]]]]]].
    fold lexical in Hsc, Hty. rewrite Hlex in Hsc, Hty. cbn [score layer_type] in Hsc, Hty.
    split; [exact Hty |]. split; [rewrite Hsc; reflexivity |].
    split; [rewrite Hsc; reflexivity | exact Hconf].
Qed.

Lemma whitelisted_sender_keeps_type_not_scam_witness :
  let verdict :=
    fst (detect (Config.default "key") never_json unprinted (Llm.Failed "timeout")
                Llm.initial "Pay via upi or paytm to 919876543210"
                (Some "orders@amazon.com")) in
  exists r, verdict = Ok r /\ scam_type r = NOT_SCAM.
Proof.
  intros verdict.
  destruct (whitelisted_sender_keeps_type_not_scam
              (Config.default "key") never_json unprinted (Llm.Failed "timeout")
              Llm.initial "Pay via upi or paytm to 919876543210" "orders@amazon.com"
              (nth 0 KeywordDetector.LEGITIMATE_PATTERNS Re.Eps))
    as [_ [_ [_ [Hret Hshape]]]].
  - reflexivity.
  - left. reflexivity.
  - vm_compute. reflexivity.
  - destruct (Hret "timeout" eq_refl) as [r Hr].
    exists r. split; [exact Hr | exact (proj1 (Hshape r Hr))].
Defined.

(** C1, as stated, fails: for the whitelisted sender orders@amazon.com
    and a message with a phone number, an account number and two payment
    methods, the confidence is 0.21. *)
Lemma whitelisted_sender_confidence_is_not_zero :
  ~ (forall (cfg : Config.t) (json_doc : string -> option Llm.jval)
            (py_repr : Llm.jval -> string) (outcome : Llm.provider_outcome)
            (st : Llm.state) (message s : string) (pattern : Re.regex)
            (r : ScamDetectionResult),
        Config.enable_whitelist (Config.scam_detection cfg) = true ->
        In pattern KeywordDetector.LEGITIMATE_PATTERNS ->
        Re.search true pattern s = true ->
        fst (detect cfg json_doc py_repr outcome st message (Some s)) = Ok r ->
        confidence r == 0 /\ scam_type r = NOT_SCAM).
Proof.
  intros H.
  destruct (fuse_returns_iff (Config.default "key") unprinted
              (KeywordDetector.detect (Config.default "key")
                 "Pay via upi or paytm to 919876543210" (Some "orders@amazon.com"))
              (PatternDetector.detect "Pay via upi or paytm to 919876543210")
              (fst (Llm.detect_scam (Config.default "key") never_json
                      (Llm.Failed "timeout") Llm.initial)))
    as [_ Hex].
  destruct (Hex eq_refl) as [r Hr].
  specialize (H (Config.default "key") never_json unprinted (Llm.Failed "timeout")
                Llm.initial "Pay via upi or paytm to 919876543210" "orders@amazon.com"
                (nth 0 KeywordDetector.LEGITIMATE_PATTERNS Re.Eps) r
                eq_refl (or_introl eq_refl) eq_refl Hr).
  destruct H as [H _].
  vm_compute in Hr. injection Hr as <-.
  vm_compute in H. discriminate H.
Qed.


(** [detect] returns on every usable reply. *)
Lemma detect_returns :
  forall cfg json_doc py_repr outcome st message sender,
    usable (fst (Llm.detect_scam cfg json_doc outcome st)) = true ->
    exists r, fst (detect cfg json_doc py_repr outcome st message sender) = Ok r.
Proof.
  intros. unfold detect. cbn [fst]. apply fuse_returns_iff. assumption.
Qed.

(** When the reply is a dict that does not say scam, [detect] returns and
    the semantic layer scores 0.0. *)
Lemma semantic_layer_silent_when_not_scam :
  forall cfg json_doc py_repr outcome st message sender fields,
    fst (Llm.detect_scam cfg json_doc outcome st) = Llm.JObj fields ->
    Llm.truthy (field_or fields "is_scam" (Llm.JBool false)) = false ->
    exists r,
      fst (detect cfg json_doc py_repr outcome st message sender) = Ok r
      /\ Utils.get (layer_scores r) "llm" 1 = 0.0.
Proof.
  intros cfg json_doc py_repr outcome st message sender fields Hlr Hno.
  assert (Hu : usable (fst (Llm.detect_scam cfg json_doc outcome st)) = true)
    by (rewrite Hlr; unfold usable; rewrite Hno; reflexivity).
  destruct (detect_returns cfg json_doc py_repr outcome st message sender Hu) as [r Hr].
  exists r. split; [exact Hr |].
  unfold detect in Hr. cbn [fst] in Hr. apply fuse_ok_inv in Hr.
  destruct Hr as [fields' [sl [Hlr' [Hn [Hsc _]]]]].
  rewrite Hlr in Hlr'. injection Hlr' as <-.
  rewrite Hno in Hn. injection Hn as <-. rewrite Hsc. reflexivity.
Qed.

(** C7, the code at the failing input: when the oracle call fails,
    [detect] still returns and the semantic layer scores 0.0, for every
    configuration; but under the default configuration the dict that
    [detect_scam] hands over carries a canned victim reply as its
    reasoning, so that for the message hello the reasoning of the result
    is that reply and says nothing of a failure.  Only with the fallback
    switched off does the reasoning read LLM analysis failed. *)
Theorem oracle_failure_is_masked_by_fallback :
  (forall (cfg : Config.t) (json_doc : string -> option Llm.jval)
          (py_repr : Llm.jval -> string) (err : string) (st : Llm.state)
          (message : string) (sender : option string),
      exists r,
        fst (detect cfg json_doc py_repr (Llm.Failed err) st message sender) = Ok r
        /\ Utils.get (layer_scores r) "llm" 1 = 0.0)
  /\ (forall (key : string) (json_doc : string -> option Llm.jval)
             (err : string) (st : Llm.state),
         fst (Llm.detect_scam (Config.default key) json_doc (Llm.Failed err) st)
         = Llm.JObj [("is_scam", Llm.JBool false); ("confidence", Llm.JNum 0.5);
                     ("scam_type", Llm.JStr "unknown");
                     ("reasoning",
                      Llm.JStr (nth (Llm.fallback_index st) Llm.fallback_responses ""))])
  /\ (forall (key : string) (json_doc : string -> option Llm.jval)
             (py_repr : Llm.jval -> string) (err : string),
         exists r,
           fst (detect (Config.default key) json_doc py_repr (Llm.Failed err)
                       Llm.initial "hello" None) = Ok r
           /\ reasoning r = "LLM: I'm not sure I understand. Can you explain more?"
           /\ contains "fail" (lower (reasoning r)) = false)
  /\ (forall (json_doc : string -> option Llm.jval)
             (py_repr : Llm.jval -> string) (err : string),
         exists r,
           fst (detect without_fallback json_doc py_repr (Llm.Failed err)
                       Llm.initial "hello" None) = Ok r
           /\ reasoning r = "LLM: LLM analysis failed").
Proof.
  split; [| split; [| split]].
  - intros cfg json_doc py_repr err st message sender.
    destruct (detect_returns cfg json_doc py_repr (Llm.Failed err) st message sender
                (detect_scam_failed_usable cfg json_doc err st)) as [r Hr].
    exists r. split; [exact Hr |].
    unfold detect in Hr. cbn [fst] in Hr. apply fuse_ok_inv in Hr.
    destruct Hr as [fields [sl [Hlr [Hn [Hsc _]]]]].
    rewrite detect_scam_failed in Hlr.
    destruct (Config.enable_fallback (Config.llm cfg));
      injection Hlr as <-; cbn in Hn; injection Hn as <-; rewrite Hsc; reflexivity.
  - intros key json_doc err st. rewrite detect_scam_failed. reflexivity.
  - intros key json_doc py_repr err.
    destruct (detect_returns (Config.default key) json_doc py_repr (Llm.Failed err)
                Llm.initial "hello" None
                (detect_scam_failed_usable _ json_doc err Llm.initial)) as [r Hr].
    exists r. split; [exact Hr |].
    vm_compute in Hr. injection Hr as <-. split; reflexivity.
  - intros json_doc py_repr err.
    destruct (detect_returns without_fallback json_doc py_repr (Llm.Failed err)
                Llm.initial "hello" None
                (detect_scam_failed_usable _ json_doc err Llm.initial)) as [r Hr].
    exists r. split; [exact Hr |].
    vm_compute in Hr. injection Hr as <-. reflexivity.
Qed.

Lemma urgency_override_score_witness :
  score (KeywordDetector.detect (Config.default "key")
           "URGENT: send money immediately to my bank account" None) = 0.8.
Proof.
  refine (proj1 (urgency_override_score (Config.default "key")
                   "URGENT: send money immediately to my bank account" None _ _ _)).
  - reflexivity.
  - vm_compute. discriminate.
  - left. vm_compute. discriminate.
Defined.
End ClassifierFacts.

(* ===================================================================== *)
(** * Properties of the rounding                                         *)
(* ===================================================================== *)

Section RoundingFacts.
Import Binary64.
Open Scope Z_scope.

Lemma rne_bounds : forall n d, 0 < d -> n / d <= rne n d <= n / d + 1.
Proof.
  intros n d H. unfold rne.
  destruct (2 * (n mod d) ?= d); [destruct (Z.even (n / d)) | |]; lia.
Qed.

Lemma div_cross_mono :
  forall n1 d1 n2 d2,
    0 < d1 -> 0 < d2 -> n1 * d2 <= n2 * d1 -> n1 / d1 <= n2 / d2.
Proof.
  intros n1 d1 n2 d2 H1 H2 H.
  apply Z.div_le_lower_bound; [exact H2 |].
  pose proof (Z.mul_div_le n1 d1 H1) as Hq.
  assert (Hm : d1 * (d2 * (n1 / d1)) <= d1 * n2) by nia.
  apply Z.mul_le_mono_pos_l in Hm; assumption.
Qed.

Lemma rne_mono :
  forall n1 d1 n2 d2,
    0 < d1 -> 0 < d2 -> n1 * d2 <= n2 * d1 -> rne n1 d1 <= rne n2 d2.
Proof.
  intros n1 d1 n2 d2 H1 H2 H.
  pose proof (div_cross_mono n1 d1 n2 d2 H1 H2 H) as Hf.
  destruct (Z.eq_dec (n1 / d1) (n2 / d2)) as [E | E].
  - pose proof (Z.div_mod n1 d1 ltac:(lia)) as E1.
    pose proof (Z.div_mod n2 d2 ltac:(lia)) as E2.
    pose proof (Z.mod_pos_bound n1 d1 H1) as B1.
    pose proof (Z.mod_pos_bound n2 d2 H2) as B2.
    unfold rne. rewrite <- E in *.
    set (f := n1 / d1) in *. set (r1 := n1 mod d1) in *. set (r2 := n2 mod d2) in *.
    assert (Hr : r1 * d2 <= r2 * d1) by nia.
    destruct (Z.compare_spec (2 * r1) d1) as [C1 | C1 | C1];
      destruct (Z.compare_spec (2 * r2) d2) as [C2 | C2 | C2];
      try destruct (Z.even f); try lia; exfalso; nia.
  - pose proof (rne_bounds n1 d1 H1). pose proof (rne_bounds n2 d2 H2). lia.
Qed.

Lemma rne_exact : forall k d, 0 < d -> rne (k * d) d = k.
Proof.
  intros k d H. unfold rne.
  rewrite Z.div_mul, Z.mod_mul by lia.
  destruct (Z.compare_spec (2 * 0) d); lia.
Qed.

Lemma shift_nonneg : forall n d, 0 <= shift n d.
Proof. intros. unfold shift. lia. Qed.

Lemma round_pos_nonneg : forall n d, 0 <= n -> 0 < d -> 0 <= round_pos n d.
Proof.
  intros n d Hn Hd. unfold round_pos.
  pose proof (shift_nonneg n d) as Hs.
  assert (Hp : 0 < 2 ^ shift n d) by (apply Z.pow_pos_nonneg; lia).
  pose proof (rne_bounds n (d * 2 ^ shift n d) ltac:(nia)) as [Hb _].
  assert (0 <= n / (d * 2 ^ shift n d)) by (apply Z.div_pos; nia).
  nia.
Qed.

(** Rounding keeps the order: the one fact about doubles everything
    below rests on. *)
Lemma round_pos_mono :
  forall n1 d1 n2 d2,
    0 <= n1 -> 0 < d1 -> 0 < d2 -> n1 * d2 <= n2 * d1 ->
    round_pos n1 d1 <= round_pos n2 d2.
Proof.
  intros n1 d1 n2 d2 Hn1 H1 H2 H.
  assert (Hn2 : 0 <= n2) by nia.
  pose proof (div_cross_mono n1 d1 n2 d2 H1 H2 H) as Hq.
  assert (Hq1 : 0 <= n1 / d1) by (apply Z.div_pos; lia).
  pose proof (Z.log2_le_mono _ _ Hq) as Hl.
  unfold round_pos.
  set (s1 := shift n1 d1). set (s2 := shift n2 d2).
  assert (Hs : s1 <= s2) by (unfold s1, s2, shift; lia).
  assert (Hs1 : 0 <= s1) by apply shift_nonneg.
  assert (Hp1 : 0 < 2 ^ s1) by (apply Z.pow_pos_nonneg; lia).
  assert (Hp2 : 0 < 2 ^ s2) by (apply Z.pow_pos_nonneg; lia).
  destruct (Z.eq_dec s1 s2) as [E | E].
  - rewrite <- E.
    apply Z.mul_le_mono_nonneg_r; [lia |].
    apply rne_mono; nia.
  - assert (Hlt : s1 + 1 <= s2) by lia.
    (* the smaller number stays below 2^(53+s1) *)
    assert (HA : rne n1 (d1 * 2 ^ s1) <= 2 ^ 53).
    { apply Z.le_trans with (rne (2 ^ 53 * (d1 * 2 ^ s1)) (d1 * 2 ^ s1));
        [| rewrite rne_exact by nia; lia].
      assert (Hb : n1 / d1 < 2 ^ (53 + s1)).
      { destruct (Z.eq_dec (n1 / d1) 0) as [Z0 | Z0].
        - rewrite Z0. apply Z.pow_pos_nonneg; lia.
        - pose proof (Z.log2_spec (n1 / d1) ltac:(lia)) as [_ Hu].
          eapply Z.lt_le_trans; [exact Hu |].
          apply Z.pow_le_mono_r; [lia |]. unfold s1, shift. lia. }
      rewrite Z.pow_add_r in Hb by lia.
      assert (Hn : n1 <= 2 ^ 53 * (d1 * 2 ^ s1)).
      { pose proof (Z.div_mod n1 d1 ltac:(lia)) as Em.
        pose proof (Z.mod_pos_bound n1 d1 H1) as Bm.
        assert (n1 / d1 + 1 <= 2 ^ 53 * 2 ^ s1) by lia.
        assert (d1 * (n1 / d1 + 1) <= d1 * (2 ^ 53 * 2 ^ s1))
          by (apply Z.mul_le_mono_nonneg_l; lia).
        lia. }
      apply rne_mono; nia. }
    (* the larger one is at least 2^(52+s2) *)
    assert (HB : 2 ^ 52 <= rne n2 (d2 * 2 ^ s2)).
    { apply Z.le_trans with (rne (2 ^ 52 * (d2 * 2 ^ s2)) (d2 * 2 ^ s2));
        [rewrite rne_exact by nia; lia |].
      assert (Hs2 : s2 = Z.log2 (n2 / d2) - 52) by (unfold s2, shift in *; lia).
      assert (Hpos : 0 < n2 / d2).
      { destruct (Z.eq_dec (n2 / d2) 0) as [Z0 | Z0]; [| lia].
        rewrite Z0 in Hs2. cbn in Hs2. lia. }
      pose proof (Z.log2_spec (n2 / d2) Hpos) as [Hlow _].
      replace (Z.log2 (n2 / d2)) with (52 + s2) in Hlow by lia.
      rewrite Z.pow_add_r in Hlow by lia.
      assert (Hn : 2 ^ 52 * (d2 * 2 ^ s2) <= n2).
      { pose proof (Z.mul_div_le n2 d2 H2).
        assert (d2 * (2 ^ 52 * 2 ^ s2) <= d2 * (n2 / d2))
          by (apply Z.mul_le_mono_nonneg_l; lia).
        lia. }
      apply rne_mono; nia. }
    assert (HC : 2 ^ 53 * 2 ^ s1 <= 2 ^ 52 * 2 ^ s2).
    { rewrite <- !Z.pow_add_r by lia. apply Z.pow_le_mono_r; lia. }
    nia.
Qed.

Lemma round_pos_zero : forall d, 0 < d -> round_pos 0 d = 0.
Proof.
  intros d H. unfold round_pos, shift. rewrite Z.div_0_l by lia.
  change (Z.max 0 (Z.log2 0 - 52)) with 0. rewrite Z.pow_0_r, !Z.mul_1_r.
  unfold rne. rewrite Z.div_0_l, Z.mod_0_l by lia.
  destruct (Z.compare_spec (2 * 0) d); lia.
Qed.

Lemma round_zero : forall d, 0 < d -> round 0 d = Fin 0.
Proof.
  intros d H. unfold round. cbn [Z.abs Z.sgn Z.ltb Z.compare].
  rewrite round_pos_zero by exact H. reflexivity.
Qed.

Lemma round_mono :
  forall n1 d1 n2 d2,
    0 < d1 -> 0 < d2 -> n1 * d2 <= n2 * d1 ->
    leb (round n1 d1) (round n2 d2) = true.
Proof.
  intros n1 d1 n2 d2 H1 H2 H. unfold round.
  pose proof (round_pos_nonneg (Z.abs n1) d1 (Z.abs_nonneg _) H1) as P1.
  pose proof (round_pos_nonneg (Z.abs n2) d2 (Z.abs_nonneg _) H2) as P2.
  assert (S1 : Z.sgn n1 = -1 \/ Z.sgn n1 = 0 /\ n1 = 0 \/ Z.sgn n1 = 1 /\ 0 < n1)
    by (destruct n1; cbn; lia).
  assert (S2 : Z.sgn n2 = -1 \/ Z.sgn n2 = 0 /\ n2 = 0 \/ Z.sgn n2 = 1 /\ 0 < n2)
    by (destruct n2; cbn; lia).
  destruct (Z.ltb_spec n1 0) as [N1 | N1]; destruct (Z.ltb_spec n2 0) as [N2 | N2].
  - assert (M : round_pos (Z.abs n2) d2 <= round_pos (Z.abs n1) d1)
      by (apply round_pos_mono; try lia; rewrite !Z.abs_neq by lia; nia).
    destruct (Z.leb_spec limit (round_pos (Z.abs n1) d1));
      destruct (Z.leb_spec limit (round_pos (Z.abs n2) d2));
      cbn [leb]; first [reflexivity | lia | apply Z.leb_le; nia].
  - destruct (Z.leb_spec limit (round_pos (Z.abs n1) d1));
      destruct (Z.leb_spec limit (round_pos (Z.abs n2) d2));
      cbn [leb]; first [reflexivity | lia | apply Z.leb_le; nia].
  - exfalso. nia.
  - assert (M : round_pos (Z.abs n1) d1 <= round_pos (Z.abs n2) d2)
      by (apply round_pos_mono; try lia; rewrite !Z.abs_eq by lia; lia).
    destruct (Z.leb_spec limit (round_pos (Z.abs n1) d1));
      destruct (Z.leb_spec limit (round_pos (Z.abs n2) d2));
      cbn [leb]; first [reflexivity | lia | apply Z.leb_le; nia].
Qed.

Lemma leb_antisym : forall x y, leb x y = true -> leb y x = true -> x = y.
Proof.
  intros [a | | |] [b | | |] H1 H2; cbn in *; try discriminate; try reflexivity.
  apply Z.leb_le in H1, H2. f_equal. lia.
Qed.

Lemma leb_trans : forall x y z, leb x y = true -> leb y z = true -> leb x z = true.
Proof.
  intros [a | | |] [b | | |] [c | | |] H1 H2; cbn in *; try discriminate; try reflexivity.
  apply Z.leb_le in H1, H2. apply Z.leb_le. lia.
Qed.

(** Only the ratio is rounded. *)
Lemma round_ratio :
  forall n1 d1 n2 d2,
    0 < d1 -> 0 < d2 -> n1 * d2 = n2 * d1 -> round n1 d1 = round n2 d2.
Proof.
  intros n1 d1 n2 d2 H1 H2 H.
  apply leb_antisym; apply round_mono; lia.
Qed.

(** A double is left as it is. *)
Lemma round_double : forall n, is_double (Fin n) = true -> round n 1 = Fin n.
Proof.
  intros n H. cbn [is_double] in H.
  destruct (round n 1) as [m | | |]; cbn [eqb] in H; try discriminate H.
  apply Z.eqb_eq in H. rewrite H. reflexivity.
Qed.

Lemma scale_pos : 0 < scale.
Proof. reflexivity. Qed.

Lemma one_is_double : round scale 1 = Fin scale.
Proof. vm_compute. reflexivity. Qed.

(** What [round] can give for a number that is not negative. *)
Lemma round_nonneg :
  forall n d, 0 <= n -> 0 < d -> round n d = PInf \/ exists m, round n d = Fin m /\ 0 <= m.
Proof.
  intros n d Hn Hd. unfold round.
  pose proof (round_pos_nonneg (Z.abs n) d (Z.abs_nonneg _) Hd) as P.
  destruct (Z.ltb_spec n 0); [lia |].
  destruct (Z.leb_spec limit (round_pos (Z.abs n) d)); [left; reflexivity |].
  right. eexists. split; [reflexivity |].
  assert (0 <= Z.sgn n) by (destruct n; cbn; lia). nia.
Qed.

(** The product of a score within [0,1] and a weight that is not
    negative lies between zero and the weight. *)
Lemma mul_unit_le :
  forall a c,
    0 <= a <= scale -> 0 <= c -> is_double (Fin c) = true ->
    exists m, mul (Fin a) (Fin c) = Fin m /\ 0 <= m <= c.
Proof.
  intros a c Ha Hc Hd. cbn [mul].
  pose proof scale_pos as Hs.
  assert (Hle : leb (round (a * c) scale) (Fin c) = true).
  { rewrite <- (round_double c Hd).
    apply round_mono; try lia. nia. }
  destruct (round_nonneg (a * c) scale ltac:(nia) Hs) as [E | [m [E Hm]]];
    rewrite E in Hle |- *; [discriminate Hle |].
  exists m. split; [reflexivity |]. cbn [leb] in Hle. apply Z.leb_le in Hle. lia.
Qed.

End RoundingFacts.

(* ===================================================================== *)
(** * Properties of the fused confidence in doubles                      *)
(* ===================================================================== *)

Section DoublesFacts.
Import Binary64 Doubles.
Open Scope Z_scope.

Lemma unit_interval_inv :
  forall x, in_unit_interval x = true -> exists a, x = Fin a /\ 0 <= a <= scale.
Proof.
  intros [a | | |] H; unfold in_unit_interval in H; cbn [leb zero one andb] in H;
    try discriminate H.
  apply andb_true_iff in H. destruct H as [H0 H1].
  apply Z.leb_le in H0, H1. exists a. split; [reflexivity | lia].
Qed.

Lemma unit_interval_intro :
  forall x, leb zero x = true -> leb x one = true -> in_unit_interval x = true.
Proof.
  intros x H0 H1. unfold in_unit_interval. rewrite H0, H1. reflexivity.
Qed.

Lemma get_in_unit_interval :
  forall (scores : fdict) (key : string),
    (forall p, In p scores -> in_unit_interval (snd p) = true) ->
    in_unit_interval (get scores key zero) = true.
Proof.
  induction scores as [| [k v] scores IH]; intros key H; cbn [get].
  - reflexivity.
  - destruct (String.eqb k key).
    + exact (H (k, v) (or_introl eq_refl)).
    + apply IH. intros p Hp. apply H. right. exact Hp.
Qed.

(** One more term on both sums: the weighted scores stay below the
    weights as long as the weights have not overflowed. *)
Lemma add_term_bounded :
  forall (ts tw s w : float),
    (tw = PInf \/ exists t u, ts = Fin t /\ tw = Fin u /\ 0 <= t <= u) ->
    in_unit_interval s = true ->
    is_double w = true -> leb zero w = true ->
    add tw w = PInf
    \/ exists t u, add ts (mul s w) = Fin t /\ add tw w = Fin u /\ 0 <= t <= u.
Proof.
  intros ts tw s w Hb Hs Hd Hw.
  destruct (unit_interval_inv s Hs) as [a [-> Ha]].
  destruct w as [c | | |]; cbn [leb zero] in Hw; try discriminate Hw.
  - apply Z.leb_le in Hw.
    destruct Hb as [-> | [t [u [-> [-> Htu]]]]]; [left; reflexivity |].
    destruct (mul_unit_le a c Ha Hw Hd) as [m [-> Hm]].
    cbn [add].
    destruct (round_nonneg (u + c) 1 ltac:(lia) ltac:(lia)) as [E | [u' [E Hu']]];
      [left; exact E | right].
    assert (Hle : leb (round (t + m) 1) (round (u + c) 1) = true)
      by (apply round_mono; lia).
    rewrite E in Hle |- *.
    destruct (round_nonneg (t + m) 1 ltac:(lia) ltac:(lia)) as [E' | [t' [E' Ht']]];
      rewrite E' in Hle |- *; [discriminate Hle |].
    cbn [leb] in Hle. apply Z.leb_le in Hle.
    exists t', u'. split; [reflexivity | split; [reflexivity | lia]].
  - left. destruct Hb as [-> | [t [u [_ [-> _]]]]]; reflexivity.
Qed.

Lemma sums_bounded :
  forall (scores weights : fdict) (ts tw : float),
    (forall p, In p scores -> in_unit_interval (snd p) = true) ->
    (forall p, In p weights -> is_double (snd p) = true /\ leb zero (snd p) = true) ->
    (tw = PInf \/ exists t u, ts = Fin t /\ tw = Fin u /\ 0 <= t <= u) ->
    fold_left add (map snd weights) tw = PInf
    \/ exists t u,
        fold_left add (map (fun kw => mul (get scores (fst kw) zero) (snd kw)) weights) ts
        = Fin t
        /\ fold_left add (map snd weights) tw = Fin u
        /\ 0 <= t <= u.
Proof.
  intros scores weights. induction weights as [| [k w] weights IH];
    intros ts tw Hs Hw Hb; cbn [map fold_left fst snd].
  - exact Hb.
  - apply IH; [exact Hs | intros p Hp; apply Hw; right; exact Hp |].
    destruct (Hw (k, w) (or_introl eq_refl)) as [Hd H0]. cbn [snd] in Hd, H0.
    apply add_term_bounded; try assumption.
    apply get_in_unit_interval. exact Hs.
Qed.

(** A quotient of two doubles that are not negative, the upper not
    above the lower, lies within [0,1]. *)
Lemma div_in_unit_interval :
  forall t u,
    0 <= t <= u -> 0 < u ->
    exists q, div (Fin t) (Fin u) = Some q /\ in_unit_interval q = true.
Proof.
  intros t u Htu Hu. destruct u as [| p | p]; try lia.
  cbn [div Z.sgn Z.abs]. eexists. split; [reflexivity |].
  pose proof scale_pos as Hs.
  apply unit_interval_intro.
  - unfold zero. rewrite <- (round_zero (Z.pos p)) by lia.
    apply round_mono; nia.
  - unfold one. rewrite <- one_is_double.
    apply round_mono; nia.
Qed.

(** The weighted score stays within [0,1]. *)
Lemma weighted_score_in_unit_interval :
  forall (scores weights : fdict),
    (forall p, In p scores -> in_unit_interval (snd p) = true) ->
    (forall p, In p weights -> is_double (snd p) = true /\ leb zero (snd p) = true) ->
    ltb (sum (map snd weights)) PInf = true ->
    in_unit_interval (calculate_weighted_score scores weights) = true.
Proof.
  intros scores weights Hs Hw Hfin. unfold calculate_weighted_score.
  destruct (Utils.is_empty scores || Utils.is_empty weights); [reflexivity |].
  destruct (sums_bounded scores weights zero zero Hs Hw) as [E | [t [u [Et [Eu Htu]]]]].
  - right. exists 0, 0. repeat split; lia.
  - unfold sum in Hfin. rewrite E in Hfin. discriminate Hfin.
  - unfold sum. rewrite Et, Eu.
    destruct (ltb zero (Fin u)) eqn:Hpos; [| reflexivity].
    cbn [ltb zero] in Hpos. apply Z.ltb_lt in Hpos.
    destruct (div_in_unit_interval t u Htu Hpos) as [q [-> Hq]]. exact Hq.
Qed.

(** X1. In doubles, as Python computes it: for scores within [0,1] and
    weights that are doubles and not negative, whatever the keys and
    however many, [calculate_weighted_score] lies within [0,1] unless the
    sum of the weights overflows; it is 0.0 when a dictionary is empty
    and when the weights sum to zero. *)
Theorem weighted_score_stays_in_range :
  forall (scores weights : fdict),
    (forall p, In p scores -> in_unit_interval (snd p) = true) ->
    (forall p, In p weights -> is_double (snd p) = true /\ leb zero (snd p) = true) ->
    ltb (sum (map snd weights)) PInf = true ->
    in_unit_interval (calculate_weighted_score scores weights) = true
    /\ (Utils.is_empty scores || Utils.is_empty weights = true ->
        calculate_weighted_score scores weights = zero)
    /\ (sum (map snd weights) = zero -> calculate_weighted_score scores weights = zero).
Proof.
  intros scores weights Hs Hw Hfin.
  split; [apply weighted_score_in_unit_interval; assumption |].
  unfold calculate_weighted_score. split.
  - intros ->. reflexivity.
  - intros ->. destruct (_ || _); reflexivity.
Qed.

Lemma weighted_score_stays_in_range_witness :
  in_unit_interval
    (calculate_weighted_score
       [("keyword", of_Q 0.8); ("pattern", one); ("llm", of_Q 0.5)]
       [("keyword", of_Q 3); ("pattern", of_Q 3); ("llm", of_Q 4)]) = true.
Proof.
  refine (proj1 (weighted_score_stays_in_range
                   [("keyword", of_Q 0.8); ("pattern", one); ("llm", of_Q 0.5)]
                   [("keyword", of_Q 3); ("pattern", of_Q 3); ("llm", of_Q 4)] _ _ _)).
  - intros p [<- | [<- | [<- | []]]]; vm_compute; reflexivity.
  - intros p [<- | [<- | [<- | []]]]; split; vm_compute; reflexivity.
  - vm_compute. reflexivity.
Defined.

(** C4, as stated, fails: the default weights sum to one, as doubles and
    as the real numbers they are, and none is negative; with the scores
    0.8, 1.0 and 0.7749999999999999 the fused confidence is the double
    0.8500000000000001, which is not the weighted mean of the scores, and
    the message counts as a scam although the weighted mean is below the
    threshold. *)
Lemma fused_confidence_is_not_the_exact_mean :
  ~ (forall (sd : ScamDetectionConfig) (sk sp sl : float),
        (to_Q (keyword_weight sd) + to_Q (pattern_weight sd) + to_Q (llm_weight sd)
         == 1)%Q ->
        sum (map snd (weights sd)) = one ->
        leb zero (keyword_weight sd) = true ->
        leb zero (pattern_weight sd) = true ->
        leb zero (llm_weight sd) = true ->
        in_unit_interval sk = true ->
        in_unit_interval sp = true ->
        in_unit_interval sl = true ->
        (to_Q (fst (fuse sd sk sp sl)) == exact_mean sd sk sp sl)%Q)
  /\ fst (fuse default (of_Q 0.8) one (of_Q 0.7749999999999999))
     = of_Q 0.8500000000000001
  /\ snd (fuse default (of_Q 0.8) one (of_Q 0.7749999999999999)) = true
  /\ (exact_mean default (of_Q 0.8) one (of_Q 0.7749999999999999)
      < to_Q (confidence_threshold default))%Q.
Proof.
  split; [| split; [| split]]; [| vm_compute; reflexivity ..].
  intros H.
  specialize (H default (of_Q 0.8) one (of_Q 0.7749999999999999)
                ltac:(vm_compute; reflexivity) ltac:(vm_compute; reflexivity)
                ltac:(vm_compute; reflexivity) ltac:(vm_compute; reflexivity)
                ltac:(vm_compute; reflexivity) ltac:(vm_compute; reflexivity)
                ltac:(vm_compute; reflexivity) ltac:(vm_compute; reflexivity)).
  assert (E : Qeq_bool
                (to_Q (fst (fuse default (of_Q 0.8) one (of_Q 0.7749999999999999))))
                (exact_mean default (of_Q 0.8) one (of_Q 0.7749999999999999))
              = false) by (vm_compute; reflexivity).
  apply Qeq_bool_iff in H. rewrite E in H. discriminate H.
Qed.

(** Why the weights must not be negative: the weights 2.0, -1.0 and 0.0
    pass [Config.validate], and with the scores 1.0, 0.0 and 0.0 the
    fused confidence is 2.0. *)
Lemma negative_weight_breaks_the_range :
  validate skewed (Config.default "key") = true
  /\ fst (fuse skewed one zero zero) = of_Q 2
  /\ in_unit_interval (fst (fuse skewed one zero zero)) = false.
Proof. split; [| split]; vm_compute; reflexivity. Qed.

(** [Config.validate] adds the weights in doubles: 0.3, 0.3 and 0.41
    give a sum more than 0.01 away from 1.0 and are refused, while the
    default weights pass. *)
Lemma validate_adds_in_doubles :
  validate {| confidence_threshold := of_Q 0.85; keyword_weight := of_Q 0.3;
              pattern_weight := of_Q 0.3; llm_weight := of_Q 0.41 |}
           (Config.default "key") = false
  /\ validate default (Config.default "key") = true.
Proof. split; vm_compute; reflexivity. Qed.

(** C4, amended: computed in doubles, for weights that are not negative
    and whose sum does not overflow, as when they sum to 1.0, and for
    layer scores within [0,1], the fused confidence lies within [0,1];
    it is the weighted score of the three layer scores under the
    configured weights, every product, sum and quotient rounded, and
    [is_scam] holds exactly when it reaches the configured threshold. *)
Theorem fused_confidence_stays_in_range :
  forall (sd : ScamDetectionConfig) (sk sp sl : float),
    is_double (keyword_weight sd) = true ->
    is_double (pattern_weight sd) = true ->
    is_double (llm_weight sd) = true ->
    leb zero (keyword_weight sd) = true ->
    leb zero (pattern_weight sd) = true ->
    leb zero (llm_weight sd) = true ->
    ltb (sum (map snd (weights sd))) PInf = true ->
    in_unit_interval sk = true ->
    in_unit_interval sp = true ->
    in_unit_interval sl = true ->
    let fused := fst (fuse sd sk sp sl) in
    in_unit_interval fused = true
    /\ fused
       = calculate_weighted_score
           [("keyword", sk); ("pattern", sp); ("llm", sl)] (weights sd)
    /\ snd (fuse sd sk sp sl) = leb (confidence_threshold sd) fused.
Proof.
  intros sd sk sp sl Dk Dp Dl Nk Np Nl Hfin Hk Hp Hl fused.
  split; [| split; reflexivity].
  unfold fused, fuse. cbn [fst].
  apply weighted_score_in_unit_interval.
  - intros p [<- | [<- | [<- | []]]]; assumption.
  - intros p [<- | [<- | [<- | []]]]; split; assumption.
  - exact Hfin.
Qed.

Lemma fused_confidence_stays_in_range_witness :
  in_unit_interval (fst (fuse default (of_Q 0.8) one (of_Q 0.5))) = true
  /\ snd (fuse default (of_Q 0.8) one (of_Q 0.5)) = false.
Proof.
  destruct (fused_confidence_stays_in_range default (of_Q 0.8) one (of_Q 0.5))
    as [H [_ _]]; try (vm_compute; reflexivity).
  split; [exact H | vm_compute; reflexivity].
Defined.

End DoublesFacts.



(* ===================================================================== *)
(** * Properties of the normalizers and of [truncate_text]               *)
(* ===================================================================== *)

Section TextFacts.
Import Text Utils UtilsText.

Lemma append_empty_r : forall s : string, s ++ "" = s.
Proof. induction s as [| c s IH]; cbn; [reflexivity | rewrite IH; reflexivity]. Qed.

Lemma append_assoc_s : forall a b c : string, (a ++ b) ++ c = a ++ (b ++ c).
Proof. induction a as [| x a IH]; intros; cbn; [reflexivity | rewrite IH; reflexivity]. Qed.

Lemma length_append_s :
  forall a b : string, String.length (a ++ b) = (String.length a + String.length b)%nat.
Proof. induction a as [| x a IH]; intros; cbn; [reflexivity | rewrite IH; reflexivity]. Qed.

Lemma rev_acc_twice :
  forall s a b : string, rev_acc (rev_acc s a) b = rev_acc a (s ++ b).
Proof.
  induction s as [| c s IH]; intros a b; cbn; [reflexivity |].
  rewrite IH. reflexivity.
Qed.

Lemma rev_involutive_s : forall s : string, rev (rev s) = s.
Proof. intros s. unfold rev. rewrite rev_acc_twice. cbn. apply append_empty_r. Qed.

Lemma rev_acc_append : forall s acc : string, rev_acc s acc = rev s ++ acc.
Proof.
  unfold rev. induction s as [| c s IH]; intros acc; cbn; [reflexivity |].
  rewrite (IH (String c acc)), (IH (String c "")), append_assoc_s. reflexivity.
Qed.

Lemma rev_append_s : forall a b : string, rev (a ++ b) = rev b ++ rev a.
Proof.
  induction a as [| c a IH]; intros b.
  - cbn. rewrite append_empty_r. reflexivity.
  - cbn [append]. unfold rev at 1 3. cbn [rev_acc].
    rewrite !rev_acc_append, IH, append_assoc_s. reflexivity.
Qed.

Lemma lstrip_idem : forall s : string, lstrip (lstrip s) = lstrip s.
Proof.
  induction s as [| c s IH]; cbn; [reflexivity |].
  destruct (is_space c) eqn:E; [exact IH | cbn; rewrite E; reflexivity].
Qed.

Lemma lstrip_append_kept :
  forall t x : string, lstrip t = t -> t <> "" -> lstrip (t ++ x) = t ++ x.
Proof.
  intros [| c t] x H Hne; [congruence |].
  cbn in *. destruct (is_space c) eqn:E; [| reflexivity].
  exfalso. assert (Hl : forall s, (String.length (lstrip s) <= String.length s)%nat).
  { induction s as [| d s IH]; cbn; [lia |]. destruct (is_space d); cbn; lia. }
  specialize (Hl t). rewrite H in Hl. cbn in Hl. lia.
Qed.

(** A stripped text has no blank at its end either. *)
Lemma strip_tail_clean : forall s : string, lstrip (rev (strip s)) = rev (strip s).
Proof.
  intros s. unfold strip. rewrite rev_involutive_s. apply lstrip_idem.
Qed.

Lemma strip_fixed :
  forall u : string, lstrip u = u -> lstrip (rev u) = rev u -> strip u = u.
Proof.
  intros u H1 H2. unfold strip. rewrite H1, H2. apply rev_involutive_s.
Qed.

Lemma startswith_append : forall p x : string, startswith p (p ++ x) = true.
Proof.
  induction p as [| c p IH]; intros x; cbn; [reflexivity |].
  rewrite Ascii.eqb_refl, IH. reflexivity.
Qed.

Lemma endswith_append : forall p x : string, endswith p (x ++ p) = true.
Proof.
  intros p x. unfold endswith. rewrite rev_append_s. apply startswith_append.
Qed.

Lemma startswith_head :
  forall (c : ascii) (p u : string), startswith (String c p) u = true ->
                                     exists u', u = String c u'.
Proof.
  intros c p [| d u] H; cbn in H; [discriminate |].
  apply andb_true_iff in H. destruct H as [H _].
  apply Ascii.eqb_eq in H. subst d. exists u. reflexivity.
Qed.

(** X3. [normalize_url] always yields a URL with a scheme, and applying it
    again changes nothing. *)
Theorem normalize_url_has_scheme :
  forall url : string,
    (startswith "http://" (normalize_url url)
     || startswith "https://" (normalize_url url)) = true
    /\ normalize_url (normalize_url url) = normalize_url url.
Proof.
  intros url.
  destruct (startswith "http://" (strip url) || startswith "https://" (strip url))
    eqn:E.
  - assert (Hr : normalize_url url = strip url)
      by (unfold normalize_url; rewrite E; reflexivity).
    rewrite Hr. split; [exact E |].
    assert (Hs : strip (strip url) = strip url).
    { apply strip_fixed; [| apply strip_tail_clean].
      apply orb_true_iff in E.
      destruct E as [E | E]; apply startswith_head in E; destruct E as [u' ->];
        reflexivity. }
    unfold normalize_url. rewrite Hs, E. reflexivity.
  - assert (Hr : normalize_url url = "https://" ++ strip url)
      by (unfold normalize_url; rewrite E; reflexivity).
    rewrite Hr.
    assert (Hp : startswith "https://" ("https://" ++ strip url) = true)
      by apply startswith_append.
    split; [rewrite Hp; apply orb_true_r |].
    assert (Hs : strip ("https://" ++ strip url) = "https://" ++ strip url).
    { apply strip_fixed; [reflexivity |].
      rewrite rev_append_s.
      destruct (rev (strip url)) as [| c t] eqn:Er; [reflexivity |].
      rewrite <- Er. apply lstrip_append_kept.
      - apply strip_tail_clean.
      - rewrite Er. discriminate. }
    unfold normalize_url. rewrite Hs, Hp, orb_true_r. reflexivity.
Qed.

Lemma keep_idem : forall (p : ascii -> bool) (s : string), keep p (keep p s) = keep p s.
Proof.
  intros p. induction s as [| c s IH]; cbn; [reflexivity |].
  destruct (p c) eqn:E; [cbn; rewrite E, IH; reflexivity | exact IH].
Qed.

Lemma keep_forall :
  forall (p : ascii -> bool) (s : string) (c : ascii),
    In c (list_ascii_of_string (keep p s)) -> p c = true.
Proof.
  intros p. induction s as [| d s IH]; intros c H; cbn in H; [contradiction |].
  destruct (p d) eqn:E; [| exact (IH c H)].
  cbn in H. destruct H as [<- | H]; [exact E | exact (IH c H)].
Qed.

Lemma keep_ext_in :
  forall (p q : ascii -> bool) (s : string),
    (forall c, In c (list_ascii_of_string s) -> p c = q c) -> keep p s = keep q s.
Proof.
  intros p q. induction s as [| d s IH]; intros H; cbn; [reflexivity |].
  rewrite (H d (or_introl eq_refl)), IH; [reflexivity |].
  intros c Hc. apply H. right. exact Hc.
Qed.

(** X4. The normal forms of phone and account numbers are fixed points, with
    only digits (and [+] for phones) left. *)
Theorem number_normalizers_are_canonical :
  forall s : string,
    normalize_phone (normalize_phone s) = normalize_phone s
    /\ normalize_bank_account (normalize_bank_account s) = normalize_bank_account s
    /\ (forall c, In c (list_ascii_of_string (normalize_phone s)) ->
                  is_digit c = true \/ c = "+"%char)
    /\ (forall c, In c (list_ascii_of_string (normalize_bank_account s)) ->
                  is_space c = false /\ c <> "-"%char).
Proof.
  intros s. unfold normalize_phone, normalize_bank_account.
  split; [apply keep_idem | split; [apply keep_idem | split]].
  - intros c H. apply keep_forall in H. apply orb_true_iff in H.
    destruct H as [H | H]; [left; exact H | right].
    apply Ascii.eqb_eq in H. exact H.
  - intros c H. apply keep_forall in H. apply negb_true_iff, orb_false_iff in H.
    destruct H as [H1 H2]. split; [exact H1 |].
    apply Ascii.eqb_neq in H2. exact H2.
Qed.

(** X5. On a run of digits, blanks and dashes, which is what the shared
    pattern of account and phone numbers matches, both normal forms are
    the digits of the run. *)
Theorem digit_runs_normalize_alike :
  forall raw : string,
    (forall c, In c (list_ascii_of_string raw) ->
               is_digit c || is_space c || Ascii.eqb c "-" = true) ->
    normalize_bank_account raw = keep is_digit raw
    /\ normalize_phone raw = keep is_digit raw.
Proof.
  intros raw H. unfold normalize_bank_account, normalize_phone.
  split; apply keep_ext_in; intros c Hc; specialize (H c Hc).
  - destruct (is_digit c) eqn:Ed.
    + assert (is_space c = false /\ Ascii.eqb c "-" = false) as [-> ->]; [| reflexivity].
      unfold is_digit, is_space, in_range, code in *.
      destruct c as [[] [] [] [] [] [] [] []]; cbn in *;
        try discriminate; split; reflexivity.
    + cbn in H. rewrite H. reflexivity.
  - destruct (is_digit c) eqn:Ed; [reflexivity |]. cbn in H |- *.
    apply orb_true_iff in H. destruct H as [H | H].
    + unfold is_space, in_range, code in H.
      destruct c as [[] [] [] [] [] [] [] []]; cbn in *; try discriminate; reflexivity.
    + apply Ascii.eqb_eq in H. subst c. reflexivity.
Qed.

Lemma digit_runs_normalize_alike_witness :
  normalize_bank_account "1234 5678-9012" = keep is_digit "1234 5678-9012"
  /\ normalize_phone "1234 5678-9012" = keep is_digit "1234 5678-9012".
Proof.
  apply digit_runs_normalize_alike.
  intros c H. cbn in H.
  repeat (destruct H as [<- | H]; [reflexivity |]). contradiction.
Defined.

(** The digit heuristics of [is_likely_fake] are reached for account
    numbers only: the value of no other entity type is one of the two
    names it tests, so that phone numbers are judged by the test words
    alone. *)
Lemma digit_heuristics_only_for_accounts :
  forall (value : string) (t : EntityExtractor.EntityType),
    t <> EntityExtractor.BANK_ACCOUNT ->
    is_likely_fake value (EntityExtractor.type_value t)
    = existsb (fun keyword => contains keyword (lower value)) test_keywords.
Proof.
  intros value t Ht. unfold is_likely_fake.
  destruct t; try reflexivity. contradiction Ht. reflexivity.
Qed.

Lemma length_substring_0 :
  forall (m : nat) (s : string),
    String.length (substring 0 m s) = Nat.min m (String.length s).
Proof.
  induction m as [| m IH]; intros [| c s]; cbn; try reflexivity.
  rewrite IH. reflexivity.
Qed.

(** X6. With a limit of three or more, [truncate_text] keeps a short text as
    it is and cuts a longer one to exactly the limit, dots included. *)
Theorem truncate_text_respects_limit :
  forall (text : string) (max_length : Z),
    (3 <= max_length)%Z ->
    (Z.of_nat (String.length (truncate_text text max_length)) <= max_length)%Z
    /\ ((Z.of_nat (String.length text) <= max_length)%Z ->
        truncate_text text max_length = text)
    /\ ((max_length < Z.of_nat (String.length text))%Z ->
        Z.of_nat (String.length (truncate_text text max_length)) = max_length
        /\ endswith "..." (truncate_text text max_length) = true).
Proof.
  intros text max_length H3. unfold truncate_text.
  destruct (Z.of_nat (String.length text) <=? max_length)%Z eqn:E.
  - apply Z.leb_le in E. split; [exact E | split; [reflexivity | lia]].
  - apply Z.leb_gt in E. unfold upto.
    rewrite (proj2 (Z.leb_le 0 (max_length - 3)) ltac:(lia)).
    assert (Hlen : Z.of_nat (String.length
                               (substring 0 (Z.to_nat (max_length - 3)) text ++ "..."))
                   = max_length).
    { rewrite length_append_s, length_substring_0. cbn [String.length]. lia. }
    split; [lia | split; [lia |]].
    intros _. split; [exact Hlen | apply endswith_append].
Qed.

Lemma truncate_text_respects_limit_witness :
  (Z.of_nat (String.length (truncate_text "Analyze this message" 10)) <= 10)%Z.
Proof.
  apply (truncate_text_respects_limit "Analyze this message" 10). lia.
Defined.

End TextFacts.

(* ===================================================================== *)
(** * Further properties of the extractor                                *)
(* ===================================================================== *)

Section ExtractionMoreFacts.
Import Text EntityExtractor ExtractorReport Scenario.

Lemma count_key_le_app :
  forall t v (a b : list ExtractedEntity), (count_key t v a <= count_key t v (a ++ b))%nat.
Proof. intros. rewrite count_key_app. lia. Qed.

Lemma filter_none :
  forall (A : Type) (p : A -> bool) (l : list A),
    (forall x, In x l -> p x = false) -> filter p l = [].
Proof.
  intros A p. induction l as [| x l IH]; intros H; cbn; [reflexivity |].
  rewrite (H x (or_introl eq_refl)). apply IH. intros y Hy. apply H. right. exact Hy.
Qed.

(** The loop that adds to the running list only appends, and appends only
    matches whose pair the list did not hold. *)
Lemma fold_remember_appends :
  forall (es : list ExtractedEntity) (st : store),
    exists added,
      fold_left remember es st = (st ++ added)%list
      /\ (forall e, In e added ->
                    In e es
                    /\ count_key (entity_type e) (normalized_value e) st = 0%nat)
      /\ (List.length added <= List.length es)%nat.
Proof.
  induction es as [| e0 es IH]; intros st; cbn [fold_left].
  - exists []. split; [rewrite app_nil_r; reflexivity |].
    split; [intros e [] | cbn; lia].
  - destruct (IH (remember st e0)) as [added [Heq [Hadd Hlen]]].
    unfold remember in *.
    destruct (negb (_is_duplicate st e0)) eqn:Hd.
    + exists (e0 :: added). split; [rewrite Heq, <- app_assoc; reflexivity |].
      split; [| cbn; lia].
      intros e [<- | He].
      * split; [left; reflexivity |].
        rewrite is_duplicate_existsb, existsb_count_key in Hd.
        apply negb_true_iff, negb_false_iff, Nat.eqb_eq in Hd. exact Hd.
      * destruct (Hadd e He) as [Hin Hc]. split; [right; exact Hin |].
        pose proof (count_key_le_app (entity_type e) (normalized_value e) st [e0]).
        lia.
    + exists added. split; [exact Heq |]. split; [| cbn; lia].
      intros e He. destruct (Hadd e He) as [Hin Hc]. split; [right; exact Hin | exact Hc].
Qed.

(** [extract] appends to the running list, and only matches of the call
    whose pair the list did not hold. *)
Lemma extract_appends :
  forall (cfg : Config.t) (http_head : string -> option string)
         (message role : string) (st : store),
    exists added,
      snd (extract cfg http_head message role st) = (st ++ added)%list
      /\ (forall e, In e added ->
                    In e (fst (extract cfg http_head message role st))
                    /\ count_key (entity_type e) (normalized_value e) st = 0%nat)
      /\ (List.length added
          <= List.length (fst (extract cfg http_head message role st)))%nat.
Proof.
  intros cfg http_head message role st.
  exact (fold_remember_appends (matches cfg http_head message role) st).
Qed.

(** X7. [extract] never removes or rewrites an entry of the running list: the
    old list is a prefix of the new one; what is added comes from the
    matches of this call, was not held before, and holds no pair twice. *)
Theorem extract_only_appends :
  forall (cfg : Config.t) (http_head : string -> option string)
         (message role : string) (st : store),
    exists added,
      snd (extract cfg http_head message role st) = (st ++ added)%list
      /\ (forall e, In e added ->
                    In e (fst (extract cfg http_head message role st))
                    /\ count_key (entity_type e) (normalized_value e) st = 0%nat)
      /\ (forall t v, (count_key t v added <= 1)%nat)
      /\ (List.length added
          <= List.length (fst (extract cfg http_head message role st)))%nat.
Proof.
  intros cfg http_head message role st.
  destruct (extract_appends cfg http_head message role st)
    as [added [Heq [Hadd Hlen]]].
  exists added. split; [exact Heq | split; [exact Hadd | split; [| exact Hlen]]].
  intros t v.
  pose proof (count_key_extract cfg http_head message role st t v) as Hc.
  rewrite Heq, count_key_app in Hc.
  destruct (1 <=? _)%nat; lia.
Qed.

(** X8. The first extraction of a pair settles its entry: whatever is matched
    later, the entries of the running list for a pair it already holds
    stay as they are, confidence level included. *)
Theorem first_extraction_wins :
  forall (cfg : Config.t) (http_head : string -> option string)
         (message role : string) (st : store) (t : EntityType) (v : string),
    (1 <= count_key t v st)%nat ->
    filter (has_key t v) (snd (extract cfg http_head message role st))
    = filter (has_key t v) st.
Proof.
  intros cfg http_head message role st t v H.
  destruct (extract_appends cfg http_head message role st)
    as [added [Heq [Hadd _]]].
  rewrite Heq, filter_app, (filter_none _ (has_key t v) added);
    [apply app_nil_r |].
  intros e He. destruct (Hadd e He) as [_ Hc].
  destruct (has_key t v e) eqn:Hk; [| reflexivity].
  apply has_key_eq in Hk. destruct Hk as [<- <-]. lia.
Qed.

Lemma first_extraction_wins_witness :
  let st := snd (extract (Config.default "key") offline
                         "my upi is claim@paytm" "victim" []) in
  filter (has_key UPI_ID "claim@paytm")
         (snd (extract (Config.default "key") offline
                       "send to claim@paytm" "scammer" st))
  = filter (has_key UPI_ID "claim@paytm") st.
Proof.
  intros st. apply first_extraction_wins. vm_compute. lia.
Defined.

(** X9. What the victim says never counts: an extraction in the victim's role
    leaves the number of high-value entities as it was. *)
Theorem victim_extraction_adds_no_intelligence :
  forall (cfg : Config.t) (http_head : string -> option string)
         (message : string) (st : store),
    get_entity_count (snd (extract cfg http_head message "victim" st))
    = get_entity_count st.
Proof.
  intros cfg http_head message st.
  destruct (extract_appends cfg http_head message "victim" st)
    as [added [Heq [Hadd _]]].
  unfold get_entity_count, get_high_value_entities.
  rewrite Heq, filter_app.
  rewrite (filter_none _ is_high_value added); [rewrite app_nil_r; reflexivity |].
  intros e He. destruct (Hadd e He) as [Hin _].
  rewrite extract_returns_matches in Hin.
  apply in_matches in Hin. destruct Hin as [span Hm].
  unfold entity_of_match in Hm.
  destruct (type_eqb (entity_type e) UPI_ID && _); [discriminate Hm |].
  injection Hm as Hm. rewrite <- Hm. reflexivity.
Qed.

(** X10. The running list and the count of high-value entities never shrink;
    the count never exceeds the list, and one call adds at most as many
    entries as it returns. *)
Theorem extraction_counts_are_monotone :
  forall (cfg : Config.t) (http_head : string -> option string)
         (message role : string) (st : store),
    let after := snd (extract cfg http_head message role st) in
    (List.length st <= List.length after)%nat
    /\ (get_entity_count st <= get_entity_count after)%Z
    /\ (get_entity_count after <= Z.of_nat (List.length after))%Z
    /\ (List.length after
        <= List.length st + List.length (fst (extract cfg http_head message role st)))%nat.
Proof.
  intros cfg http_head message role st after.
  destruct (extract_appends cfg http_head message role st)
    as [added [Heq [_ Hlen]]].
  unfold after. rewrite Heq. unfold get_entity_count, get_high_value_entities.
  rewrite filter_app, !length_app.
  pose proof (filter_length_le is_high_value st).
  pose proof (filter_length_le is_high_value added).
  repeat split; lia.
Qed.

(** X11. Every entity [extract] returns was read in the message of the call; none
    has the type [NAME], for which there is no pattern, and no UPI entity
    has a value that ends like an email address. *)
Theorem extracted_entities_are_well_formed :
  forall (cfg : Config.t) (http_head : string -> option string)
         (message role : string) (st : store) (e : ExtractedEntity),
    In e (fst (extract cfg http_head message role st)) ->
    source_message e = message
    /\ entity_type e <> NAME
    /\ (entity_type e = UPI_ID -> _is_likely_email (value e) = false)
    /\ confidence e
       = _assess_confidence (normalized_value e) (entity_type e) message role.
Proof.
  intros cfg http_head message role st e H.
  rewrite extract_returns_matches in H. unfold matches in H.
  apply in_flat_map in H. destruct H as [[t patterns] [Htp H]].
  apply in_flat_map in H. destruct H as [pattern [_ H]].
  apply in_somes, in_map_iff in H. destruct H as [span [H _]].
  cbn [fst] in H. unfold entity_of_match in H.
  destruct (type_eqb t UPI_ID && _is_likely_email _) eqn:Hskip; [discriminate H |].
  injection H as <-. cbn [source_message entity_type value confidence normalized_value].
  split; [reflexivity | split; [| split; [| reflexivity]]].
  - intros ->. cbn in Htp.
    repeat (destruct Htp as [Htp | Htp]; [discriminate Htp |]). exact Htp.
  - intros ->. cbn [type_eqb andb] in Hskip. exact Hskip.
Qed.

Lemma extracted_entities_are_well_formed_witness :
  let e := {| entity_type := UPI_ID; value := "claim@paytm";
              normalized_value := "claim@paytm"; confidence := LOW;
              context := "my upi is claim@paytm";
              source_message := "my upi is claim@paytm" |} in
  source_message e = "my upi is claim@paytm" /\ entity_type e <> NAME.
Proof.
  intros e.
  destruct (extracted_entities_are_well_formed
              (Config.default "key") offline "my upi is claim@paytm" "victim" [] e)
    as [H1 [H2 _]].
  - vm_compute. left. reflexivity.
  - split; [exact H1 | exact H2].
Defined.

Lemma contains_head :
  forall (c : ascii) (kw s : string),
    contains (String c kw) s = true -> In c (list_ascii_of_string s).
Proof.
  intros c kw. induction s as [| d s IH]; intros H.
  - cbn in H. discriminate H.
  - cbn [contains] in H. apply orb_true_iff in H. destruct H as [H | H].
    + cbn in H. apply andb_true_iff in H. destruct H as [H _].
      apply Ascii.eqb_eq in H. subst d. left. reflexivity.
    + right. exact (IH H).
Qed.

Lemma lower_fixed :
  forall s : string,
    (forall c, In c (list_ascii_of_string s) -> is_upper c = false) -> lower s = s.
Proof.
  induction s as [| d s IH]; intros H; cbn; [reflexivity |].
  unfold lower_char. rewrite (H d (or_introl eq_refl)), IH; [reflexivity |].
  intros c Hc. apply H. right. exact Hc.
Qed.

(** X12. With normalization on, a phone number is marked [NEEDS_VERIFICATION]
    only when its digits hold six zeros or six nines in a row: ascending
    or repeated digits, which mark an account number, do not mark it. *)
Theorem phone_numbers_are_flagged_by_zeros_and_nines_only :
  forall (cfg : Config.t) (http_head : string -> option string)
         (message role : string) (st : store) (e : ExtractedEntity),
    Config.enable_normalization (Config.entity_extraction cfg) = true ->
    In e (fst (extract cfg http_head message role st)) ->
    entity_type e = PHONE_NUMBER ->
    confidence e = NEEDS_VERIFICATION ->
    contains "000000" (normalized_value e) || contains "999999" (normalized_value e)
    = true.
Proof.
  intros cfg http_head message role st e Hn Hin Ht Hc.
  rewrite extract_returns_matches in Hin.
  apply in_matches in Hin. destruct Hin as [span Hm].
  rewrite Ht in Hm. unfold entity_of_match in Hm. cbn [type_eqb andb] in Hm.
  injection Hm as Hm. rewrite <- Hm in Hc |- *.
  cbn [confidence normalized_value] in *.
  unfold _normalize in *. rewrite Hn in *. cbn [negb] in *.
  set (v := Utils.normalize_phone (slice (fst span) (snd span) message)) in *.
  assert (Hchars : forall c, In c (list_ascii_of_string v) ->
                             is_digit c = true \/ c = "+"%char).
  { intros c Hcin. unfold v, Utils.normalize_phone in Hcin.
    apply keep_forall in Hcin. apply orb_true_iff in Hcin.
    destruct Hcin as [H | H]; [left; exact H | right; apply Ascii.eqb_eq in H; exact H]. }
  assert (Hlow : lower v = v).
  { apply lower_fixed. intros c Hcin. destruct (Hchars c Hcin) as [H | ->]; [| reflexivity].
    unfold is_digit, is_upper, in_range, code in *.
    destruct c as [[] [] [] [] [] [] [] []]; cbn in *; try discriminate; reflexivity. }
  unfold _assess_confidence in Hc.
  destruct (String.eqb role "victim"); [discriminate Hc |].
  destruct (Utils.is_likely_fake v (type_value PHONE_NUMBER)) eqn:Hf.
  - rewrite digit_heuristics_only_for_accounts in Hf by discriminate.
    rewrite Hlow in Hf. unfold Utils.test_keywords in Hf. cbn [existsb] in Hf.
    assert (Hno : forall (c : ascii) (kw : string),
               is_digit c = false -> c <> "+"%char ->
               contains (String c kw) v = false).
    { intros c kw Hd Hp. destruct (contains (String c kw) v) eqn:Hk; [| reflexivity].
      apply contains_head in Hk. destruct (Hchars c Hk); congruence. }
    rewrite !Hno in Hf by (reflexivity || discriminate).
    cbn [orb] in Hf. rewrite orb_false_r in Hf. exact Hf.
  - destruct (existsb _ high_confidence_patterns); discriminate Hc.
Qed.

Lemma phone_numbers_are_flagged_by_zeros_and_nines_only_witness :
  contains "000000" "+919000000123" || contains "999999" "+919000000123" = true.
Proof.
  exact (phone_numbers_are_flagged_by_zeros_and_nines_only
           (Config.default "key") Scenario.offline "Call +919000000123" "scammer" []
           {| entity_type := PHONE_NUMBER; value := "+919000000123";
              normalized_value := "+919000000123";
              confidence := NEEDS_VERIFICATION;
              context := "Call +919000000123";
              source_message := "Call +919000000123" |}
           eq_refl
           ltac:(vm_compute; right; left; reflexivity)
           eq_refl eq_refl).
Defined.

End ExtractionMoreFacts.

(* ===================================================================== *)
(** * Properties of the extractor's report                               *)
(* ===================================================================== *)

Section ReportFacts.
Import EntityExtractor ExtractorReport Scenario.

Lemma count_of_count_up :
  forall (counts : list (string * Z)) (key k : string),
    count_of (count_up key counts) k
    = (count_of counts k + (if String.eqb key k then 1 else 0))%Z.
Proof.
  induction counts as [| [k0 n] counts IH]; intros key k; cbn [count_up count_of].
  - destruct (String.eqb key k); lia.
  - destruct (String.eqb k0 key) eqn:E0; cbn [count_of].
    + apply String.eqb_eq in E0. subst k0.
      destruct (String.eqb key k); lia.
    + destruct (String.eqb k0 k) eqn:E1.
      * apply String.eqb_eq in E1. subst k0.
        rewrite String.eqb_sym, E0. lia.
      * apply IH.
Qed.

Lemma total_count_up :
  forall (counts : list (string * Z)) (key : string),
    fold_right Z.add 0%Z (map snd (count_up key counts))
    = (fold_right Z.add 0%Z (map snd counts) + 1)%Z.
Proof.
  induction counts as [| [k0 n] counts IH]; intros key; cbn [count_up map snd fold_right].
  - lia.
  - destruct (String.eqb k0 key); cbn [map snd fold_right]; [lia | rewrite IH; lia].
Qed.

Lemma keys_count_up :
  forall (counts : list (string * Z)) (key : string),
    NoDup (map fst counts) -> NoDup (map fst (count_up key counts))
    /\ forall k, In k (map fst (count_up key counts)) <-> k = key \/ In k (map fst counts).
Proof.
  induction counts as [| [k0 n] counts IH]; intros key Hnd; cbn [count_up map fst].
  - split; [constructor; [intros [] | constructor] |].
    intros k. cbn. intuition congruence.
  - inversion Hnd as [| ? ? Hnotin Hnd']; subst.
    destruct (String.eqb k0 key) eqn:E; cbn [map fst].
    + apply String.eqb_eq in E. subst k0. split; [exact Hnd |].
      intros k. cbn. intuition congruence.
    + destruct (IH key Hnd') as [IH1 IH2]. split.
      * constructor; [| exact IH1]. intros Hin. apply IH2 in Hin.
        destruct Hin as [-> | Hin]; [rewrite String.eqb_refl in E; discriminate | tauto].
      * intros k. cbn. rewrite IH2. tauto.
Qed.

(** X13. The report of the extractor adds up: each type is listed once, with
    the number of entries of that type, the numbers sum to the total, and
    the high-value entities are among the total. *)
Theorem to_dict_counts_add_up :
  forall st : store,
    let report := to_dict st in
    total_entities report = Z.of_nat (List.length (all_entities report))
    /\ fold_right Z.add 0%Z (map snd (entities_by_type report)) = total_entities report
    /\ (forall t : EntityType,
           count_of (entities_by_type report) (type_value t)
           = Z.of_nat (List.length (filter (fun e => type_eqb (entity_type e) t) st)))
    /\ NoDup (map fst (entities_by_type report))
    /\ (0 <= high_value_entities report <= total_entities report)%Z.
Proof.
  intros st report. unfold report, to_dict.
  cbn [total_entities all_entities entities_by_type high_value_entities].
  assert (Hgen : forall (l : store) (acc : list (string * Z)),
             NoDup (map fst acc) ->
             let counts :=
               fold_left (fun counts entity =>
                            count_up (type_value (entity_type entity)) counts) l acc in
             fold_right Z.add 0%Z (map snd counts)
             = (fold_right Z.add 0%Z (map snd acc) + Z.of_nat (List.length l))%Z
             /\ (forall t : EntityType,
                    count_of counts (type_value t)
                    = (count_of acc (type_value t)
                       + Z.of_nat (List.length
                                     (filter (fun e => type_eqb (entity_type e) t) l)))%Z)
             /\ NoDup (map fst counts)).
  { induction l as [| e l IH]; intros acc Hnd; cbn [fold_left].
    - cbn. repeat split; try lia. exact Hnd.
    - destruct (keys_count_up acc (type_value (entity_type e)) Hnd) as [Hnd' _].
      destruct (IH _ Hnd') as [H1 [H2 H3]].
      split; [rewrite H1, total_count_up; cbn [List.length]; lia |].
      split; [| exact H3].
      intros t. rewrite H2, count_of_count_up. cbn [filter].
      assert (Heq : String.eqb (type_value (entity_type e)) (type_value t)
                    = type_eqb (entity_type e) t)
        by (destruct (entity_type e), t; reflexivity).
      rewrite Heq. destruct (type_eqb (entity_type e) t); cbn [List.length]; lia. }
  destruct (Hgen st [] (NoDup_nil _)) as [H1 [H2 H3]].
  split; [rewrite length_map; reflexivity |].
  split; [exact H1 |]. split; [intros t; rewrite H2; cbn; lia |].
  split; [exact H3 |].
  unfold get_high_value_entities.
  pose proof (filter_length_le is_high_value st). lia.
Qed.

End ReportFacts.

(* ===================================================================== *)
(** * Properties of the LLM interface                                    *)
(* ===================================================================== *)

Section LlmFacts.
Import Text Llm Scenario.

Lemma fallback_replies_are_valid :
  forall n : nat, validate_victim_response (nth n fallback_responses "") = (true, None).
Proof.
  intros n. do 5 (destruct n as [| n]; [reflexivity |]). destruct n; reflexivity.
Qed.

Lemma fallback_step_in_range :
  forall st : state, (fallback_index (snd (_get_fallback_response st)) < 5)%nat.
Proof.
  intros st. unfold _get_fallback_response. cbn [snd fallback_index].
  change (List.length fallback_responses) with 5%nat.
  apply Nat.mod_upper_bound. discriminate.
Qed.

(** X14. The canned replies are served in turn: from an index within the
    list, which is where the index starts and stays, five calls hand out
    the list rotated to that index and come back to the index they
    started from. *)
Theorem fallback_replies_rotate :
  forall st : state,
    (fallback_index st < 5)%nat ->
    let next := fun s => snd (_get_fallback_response s) in
    (fallback_index (next st) < 5)%nat
    /\ map (fun k => fst (_get_fallback_response (Nat.iter k next st))) [0; 1; 2; 3; 4]%nat
       = (skipn (fallback_index st) fallback_responses
          ++ firstn (fallback_index st) fallback_responses)%list
    /\ Nat.iter 5 next st = st.
Proof.
  intros st H next. split; [apply fallback_step_in_range |].
  destruct st as [n]. cbn [fallback_index] in H |- *.
  do 5 (destruct n as [| n]; [split; reflexivity |]). lia.
Qed.

Lemma fallback_replies_rotate_witness :
  map (fun k => fst (_get_fallback_response
                       (Nat.iter k (fun s => snd (_get_fallback_response s))
                                 {| fallback_index := 3 |})))
      [0; 1; 2; 3; 4]%nat
  = (skipn 3 fallback_responses ++ firstn 3 fallback_responses)%list.
Proof.
  refine (proj1 (proj2 (fallback_replies_rotate {| fallback_index := 3 |} _))).
  cbn. lia.
Defined.

(** [generate] leaves the index of the rotation within the list. *)
Lemma generate_keeps_index :
  forall (cfg : Config.t) (outcome : provider_outcome) (validate_response : bool)
         (st : state),
    (fallback_index st < 5)%nat ->
    (fallback_index (snd (generate cfg outcome validate_response st)) < 5)%nat.
Proof.
  intros cfg outcome validate_response st H.
  pose proof (fallback_step_in_range st) as H1.
  pose proof (fallback_step_in_range (snd (_get_fallback_response st))) as H2.
  unfold _get_fallback_response in H1, H2. cbn [snd fallback_index] in H1, H2.
  unfold generate, _get_fallback_response.
  destruct (known_provider (Config.provider (Config.llm cfg)));
    destruct outcome as [text | err];
    destruct (Config.enable_fallback (Config.llm cfg));
    destruct validate_response;
    cbn -[validate_victim_response nth Nat.modulo fallback_responses List.length];
    try exact H; try exact H1;
    repeat match goal with
           | |- context [validate_victim_response ?t] =>
               destruct (validate_victim_response t) as [[|] ?]
           end;
    cbn -[validate_victim_response nth Nat.modulo fallback_responses List.length];
    first [exact H | exact H1 | exact H2].
Qed.

(** What the fallback guarantees, whatever the index. *)
Lemma generate_with_fallback_succeeds :
  forall (cfg : Config.t) (outcome : provider_outcome) (validate_response : bool)
         (st : state),
    Config.enable_fallback (Config.llm cfg) = true ->
    let response := fst (generate cfg outcome validate_response st) in
    success response = true
    /\ (validate_response = true ->
        fst (validate_victim_response (content response)) = true)
    /\ (used_fallback response = false ->
        outcome = Answered (content response)
        /\ snd (generate cfg outcome validate_response st) = st).
Proof.
  intros cfg outcome validate_response st Hfb response.
  unfold response, generate, _get_fallback_response. rewrite !Hfb.
  pose proof (fallback_replies_are_valid (fallback_index st)) as Hv0.
  pose proof (fallback_replies_are_valid
                ((fallback_index st + 1) mod List.length fallback_responses)) as Hv1.
  destruct (known_provider (Config.provider (Config.llm cfg)));
    destruct outcome as [text | err];
    destruct validate_response;
    cbn -[validate_victim_response nth Nat.modulo fallback_responses List.length];
    try rewrite Hv0; try rewrite Hv1;
    try (destruct (validate_victim_response text) as [[|] e] eqn:Ev);
    cbn -[validate_victim_response nth Nat.modulo fallback_responses List.length];
    try rewrite Hv0; try rewrite Hv1; try rewrite Ev;
    repeat split; try reflexivity; try discriminate; try congruence.
Qed.

(** X15. With the fallback enabled [generate] always comes back with a
    successful response, and when validation is asked for, with one that
    passes it: a provider failure or a reply out of character is replaced
    by a canned reply, and a response that is not canned is the
    provider's own, the rotation left alone. *)
Theorem generate_with_fallback_always_answers :
  forall (cfg : Config.t) (outcome : provider_outcome) (validate_response : bool)
         (st : state),
    Config.enable_fallback (Config.llm cfg) = true ->
    (fallback_index st < 5)%nat ->
    let response := fst (generate cfg outcome validate_response st) in
    success response = true
    /\ (validate_response = true ->
        fst (validate_victim_response (content response)) = true)
    /\ (used_fallback response = false ->
        outcome = Answered (content response)
        /\ snd (generate cfg outcome validate_response st) = st)
    /\ (used_fallback response = true -> In (content response) fallback_responses)
    /\ (fallback_index (snd (generate cfg outcome validate_response st)) < 5)%nat.
Proof.
  intros cfg outcome validate_response st Hfb Hin response.
  destruct (generate_with_fallback_succeeds cfg outcome validate_response st Hfb)
    as [H1 [H2 H3]].
  split; [exact H1 |]. split; [exact H2 |]. split; [exact H3 |].
  split; [| apply generate_keeps_index; exact Hin].
  assert (Hn0 : In (nth (fallback_index st) fallback_responses "") fallback_responses)
    by (apply nth_In; exact Hin).
  assert (Hn1 : In (nth ((fallback_index st + 1) mod List.length fallback_responses)
                        fallback_responses "") fallback_responses)
    by (apply nth_In; change (List.length fallback_responses) with 5%nat;
        apply Nat.mod_upper_bound; discriminate).
  unfold response, generate, _get_fallback_response. rewrite !Hfb.
  destruct (known_provider (Config.provider (Config.llm cfg)));
    destruct outcome as [text | err];
    destruct validate_response;
    cbn -[validate_victim_response nth Nat.modulo fallback_responses List.length In];
    repeat match goal with
           | |- context [validate_victim_response ?t] =>
               destruct (validate_victim_response t) as [[|] ?]
           end;
    cbn -[validate_victim_response nth Nat.modulo fallback_responses List.length In];
    intros Hu; first [discriminate Hu | exact Hn0 | exact Hn1].
Qed.

Lemma generate_with_fallback_always_answers_witness :
  success (fst (generate (Config.default "key") (Failed "timeout") true initial)) = true.
Proof.
  refine (proj1 (generate_with_fallback_always_answers
                   (Config.default "key") (Failed "timeout") true initial _ _)).
  - reflexivity.
  - cbn. lia.
Defined.

(** X16. Without the fallback [generate] reports exactly the failures: the
    response fails when the provider call failed, when the provider is
    unknown, or when validation was asked for and the reply does not pass
    it; its text is then never replaced and the rotation is not touched. *)
Theorem generate_without_fallback_reports_failure :
  forall (cfg : Config.t) (outcome : provider_outcome) (validate_response : bool)
         (st : state),
    Config.enable_fallback (Config.llm cfg) = false ->
    let response := fst (generate cfg outcome validate_response st) in
    snd (generate cfg outcome validate_response st) = st
    /\ used_fallback response = false
    /\ (success response = true <->
        exists text,
          outcome = Answered text
          /\ known_provider (Config.provider (Config.llm cfg)) = true
          /\ content response = text
          /\ (validate_response = true ->
              fst (validate_victim_response text) = true)).
Proof.
  intros cfg outcome validate_response st Hfb response.
  unfold response, generate. rewrite !Hfb.
  destruct (known_provider (Config.provider (Config.llm cfg)));
    destruct outcome as [text | err];
    destruct validate_response;
    cbn -[validate_victim_response];
    try (destruct (validate_victim_response text) as [[|] e] eqn:Ev);
    cbn -[validate_victim_response];
    (split; [reflexivity | split; [reflexivity |]]);
    (split;
     [ intros H; try discriminate H;
       eexists; repeat split; try reflexivity; try (intros; rewrite Ev; reflexivity);
       try (intros Hd; discriminate Hd)
     | intros [t [Ho [Hk [Hc Hval]]]];
       try discriminate Hk; try discriminate Ho;
       try reflexivity;
       try (injection Ho as <-; specialize (Hval eq_refl); rewrite Ev in Hval;
            discriminate Hval) ]).
Qed.

Lemma generate_without_fallback_reports_failure_witness :
  snd (generate without_fallback (Failed "timeout") true initial) = initial.
Proof.
  refine (proj1 (generate_without_fallback_reports_failure
                   without_fallback (Failed "timeout") true initial _)).
  reflexivity.
Defined.

End LlmFacts.

(* ===================================================================== *)
(** * Further properties of the classifier                               *)
(* ===================================================================== *)

Section ClassifierMoreFacts.
Import Text ScamDetector Scenario.



(** X17. The lexical layer knows five scores; without a whitelisted sender the
    score is zero exactly when the lower-cased message holds no keyword of
    any family. *)
Theorem keyword_score_values :
  forall (cfg : Config.t) (message : string) (sender : option string),
    let r := KeywordDetector.detect cfg message sender in
    let total :=
      (count_in KeywordDetector.URGENCY_KEYWORDS (lower message)
       + count_in KeywordDetector.MONEY_KEYWORDS (lower message)
       + count_in KeywordDetector.THREAT_KEYWORDS (lower message)
       + count_in KeywordDetector.REQUEST_KEYWORDS (lower message)
       + count_in KeywordDetector.PRIZE_KEYWORDS (lower message)
       + count_in KeywordDetector.JOB_KEYWORDS (lower message))%Z in
    In (score r) [0.0; 0.3; 0.5; 0.7; 0.8]
    /\ 0 <= score r <= 0.8
    /\ (KeywordDetector.whitelisted cfg sender = false ->
        (score r = 0.0 <-> total = 0%Z)).
Proof.
  intros cfg message sender r total.
  assert (Hu : (0 <= count_in KeywordDetector.URGENCY_KEYWORDS (lower message))%Z)
    by (unfold count_in; lia).
  assert (Hm : (0 <= count_in KeywordDetector.MONEY_KEYWORDS (lower message))%Z)
    by (unfold count_in; lia).
  assert (Ht : (0 <= count_in KeywordDetector.THREAT_KEYWORDS (lower message))%Z)
    by (unfold count_in; lia).
  assert (Hr : (0 <= count_in KeywordDetector.REQUEST_KEYWORDS (lower message))%Z)
    by (unfold count_in; lia).
  assert (Hp : (0 <= count_in KeywordDetector.PRIZE_KEYWORDS (lower message))%Z)
    by (unfold count_in; lia).
  assert (Hj : (0 <= count_in KeywordDetector.JOB_KEYWORDS (lower message))%Z)
    by (unfold count_in; lia).
  unfold r, KeywordDetector.detect.
  destruct (KeywordDetector.whitelisted cfg sender).
  - cbn [score]. split; [left; reflexivity |]. split; [split; lra | discriminate].
  - destruct (if (2 <=? count_in KeywordDetector.PRIZE_KEYWORDS (lower message))%Z
              then _ else _) as [ty ind].
    fold total.
    destruct (_ && _) eqn:E1.
    + cbn [score]. change (Qmin 0.8 1.0) with 0.8.
      split; [do 4 right; left; reflexivity |]. split; [split; lra |].
      intros _. split; [discriminate |]. intros H0.
      apply andb_true_iff in E1. destruct E1 as [E1 _]. apply Z.leb_le in E1. lia.
    + destruct (5 <=? total)%Z eqn:E5; [| destruct (3 <=? total)%Z eqn:E3;
                                           [| destruct (1 <=? total)%Z eqn:E0]];
        cbn [score];
        [ change (Qmin 0.7 1.0) with 0.7 | change (Qmin 0.5 1.0) with 0.5
        | change (Qmin 0.3 1.0) with 0.3 | change (Qmin 0.0 1.0) with 0.0 ];
        (split; [cbn; auto 10 |]); (split; [split; lra |]); intros _;
        try apply Z.leb_le in E5; try apply Z.leb_le in E3; try apply Z.leb_le in E0;
        try apply Z.leb_gt in E0;
        (split; [try discriminate; intros _; unfold total in *; lia
                | intros H0; try reflexivity; lia]).
Qed.

Lemma keyword_score_values_witness :
  score (KeywordDetector.detect (Config.default "key") "see you at noon" None) = 0.0.
Proof.
  refine (proj2 (proj2 (proj2 (keyword_score_values (Config.default "key")
                                 "see you at noon" None)) _) _);
    reflexivity.
Defined.

Lemma bump_keeps :
  forall (hit : bool) (indicator : string) (amount : Q) (acc : list string * Q),
    0 < amount ->
    0 <= snd acc /\ (fst acc = [] <-> snd acc == 0) ->
    0 <= snd (PatternDetector.bump hit indicator amount acc)
    /\ (fst (PatternDetector.bump hit indicator amount acc) = []
        <-> snd (PatternDetector.bump hit indicator amount acc) == 0).
Proof.
  intros hit indicator amount [l q] Ha [H0 Hiff]. cbn [fst snd] in *.
  unfold PatternDetector.bump. destruct hit; cbn [fst snd]; [| tauto].
  split; [lra |]. split.
  - intros H. destruct l; discriminate H.
  - intros H. lra.
Qed.

(** X18. The structural layer scores within [0,1], and scores zero exactly
    when it reports no indicator. *)
Theorem pattern_score_range :
  forall message : string,
    let r := PatternDetector.detect message in
    0 <= score r <= 1
    /\ (indicators r = [] <-> score r == 0).
Proof.
  intros message r. unfold r, PatternDetector.detect. cbv zeta. cbn [score indicators].
  match goal with
  | |- context [Qmin (snd ?a) 1.0] =>
      assert (H : 0 <= snd a /\ (fst a = [] <-> snd a == 0));
      [ repeat (apply bump_keeps; [reflexivity |]); cbn; split; [lra | split; intros; reflexivity]
      | set (acc := a) in * ]
  end.
  destruct H as [H0 Hiff].
  destruct (Q.min_spec (snd acc) 1.0) as [[Hlt Hmin] | [Hle Hmin]]; rewrite Hmin.
  - split; [split; lra | exact Hiff].
  - split; [split; lra |]. rewrite Hiff. split; intros H; lra.
Qed.







Lemma detect_scam_answered :
  forall cfg json_doc text st,
    Llm.known_provider (Config.provider (Config.llm cfg)) = true ->
    fst (Llm.detect_scam cfg json_doc (Llm.Answered text) st)
    = match Llm.json_loads json_doc text with
      | Some v => v
      | None =>
          Llm.JObj [("is_scam", Llm.JBool (contains "scam" (lower text)));
                    ("confidence", Llm.JNum 0.5);
                    ("scam_type", Llm.JStr "unknown");
                    ("reasoning", Llm.JStr text)]
      end.
Proof.
  intros cfg json_doc text st Hk. unfold Llm.detect_scam, Llm.generate.
  rewrite Hk. cbn -[Llm.json_loads contains lower].
  destruct (Llm.json_loads json_doc text); reflexivity.
Qed.

(** X21. An answer that is JSON but not a usable dict makes [detect] raise: an
    [AttributeError] when it is not a dict at all and, when the dict says
    scam, a [TypeError] for a confidence that is not a number and an
    [OverflowError] for one that is an integer beyond the doubles. *)
Theorem detect_raises_on_unusable_json :
  forall (cfg : Config.t) (json_doc : string -> option Llm.jval)
         (py_repr : Llm.jval -> string) (text : string) (st : Llm.state)
         (message : string) (sender : option string) (v : Llm.jval),
    Llm.known_provider (Config.provider (Config.llm cfg)) = true ->
    Llm.json_loads json_doc text = Some v ->
    usable v = false ->
    fst (detect cfg json_doc py_repr (Llm.Answered text) st message sender)
    = Raise (match v with
             | Llm.JObj fields =>
                 match field_or fields "confidence" (Llm.JNum 0.0) with
                 | Llm.JNum _ => OverflowError
                 | _ => TypeError
                 end
             | _ => AttributeError
             end).
Proof.
  intros cfg json_doc py_repr text st message sender v Hk Hj Hu.
  unfold detect. cbn [fst]. rewrite detect_scam_answered by exact Hk. rewrite Hj.
  destruct v as [| b | q | s | items | fields]; try reflexivity.
  unfold usable in Hu. unfold fuse, llm_score_of. cbn [dict_get bind].
  destruct (Llm.truthy (field_or fields "is_scam" (Llm.JBool false)));
    [| discriminate Hu].
  cbn [dict_get bind].
  destruct (field_or fields "confidence" (Llm.JNum 0.0)) as [| b | q | s | items | inner];
    try discriminate Hu; try reflexivity.
  unfold as_number in Hu |- *.
  destruct (Qle_bool int_overflow (Qabs q)); [reflexivity | discriminate Hu].
Qed.

Lemma detect_raises_on_unusable_json_witness :
  fst (detect (Config.default "key") Samples.reads_array Scenario.unprinted
         (Llm.Answered Samples.array_answer) Llm.initial
         "Your account is blocked" None)
  = Raise AttributeError.
Proof.
  exact (detect_raises_on_unusable_json
           (Config.default "key") Samples.reads_array Scenario.unprinted
           Samples.array_answer Llm.initial "Your account is blocked" None
           (Llm.JArr [Llm.JNum 1; Llm.JNum 2])
           eq_refl eq_refl eq_refl).
Defined.

(** X22. An answer that is not JSON is read by the fallback parser: [detect]
    returns, and the semantic layer scores 0.5 when the text holds the
    word scam, in any case and any sentence, and 0.0 otherwise. *)
Theorem prose_answer_counts_by_the_word_scam :
  forall (cfg : Config.t) (json_doc : string -> option Llm.jval)
         (py_repr : Llm.jval -> string) (text : string) (st : Llm.state)
         (message : string) (sender : option string),
    Llm.known_provider (Config.provider (Config.llm cfg)) = true ->
    Llm.json_loads json_doc text = None ->
    exists r,
      fst (detect cfg json_doc py_repr (Llm.Answered text) st message sender) = Ok r
      /\ Utils.get (layer_scores r) "llm" 1
         = (if contains "scam" (lower text) then 0.5 else 0.0).
Proof.
  intros cfg json_doc py_repr text st message sender Hk Hj.
  assert (Hlr := detect_scam_answered cfg json_doc text st Hk). rewrite Hj in Hlr.
  assert (Hu : usable (fst (Llm.detect_scam cfg json_doc (Llm.Answered text) st)) = true)
    by (rewrite Hlr; unfold usable; cbn; destruct (contains "scam" (lower text));
        reflexivity).
  destruct (detect_returns cfg json_doc py_repr (Llm.Answered text) st message sender Hu)
    as [r Hr].
  exists r. split; [exact Hr |].
  unfold detect in Hr. cbn [fst] in Hr. apply fuse_ok_inv in Hr.
  destruct Hr as [fields [sl [Hf [Hn [Hsc _]]]]].
  rewrite Hlr in Hf. injection Hf as <-. rewrite Hsc.
  cbn in Hn |- *. destruct (contains "scam" (lower text)); cbn in Hn;
    injection Hn as <-; reflexivity.
Qed.

Lemma prose_answer_counts_by_the_word_scam_witness :
  exists r,
    fst (detect (Config.default "key") never_json unprinted
                (Llm.Answered "This is not a scam") Llm.initial "hello" None) = Ok r
    /\ Utils.get (layer_scores r) "llm" 1 = 0.5.
Proof.
  exact (prose_answer_counts_by_the_word_scam
           (Config.default "key") never_json unprinted "This is not a scam"
           Llm.initial "hello" None eq_refl eq_refl).
Defined.

End ClassifierMoreFacts.

(* ===================================================================== *)
(** * Further properties of the strategy engine                          *)
(* ===================================================================== *)

Section StrategyMoreFacts.
Import Text EntityExtractor StrategyEngine Scenario.

(** No method of the engine moves the start of the session or forgets a
    suspicion indicator. *)
Lemma step_keeps_history :
  forall (cfg : Config.t) (c : call) (state : ConversationState),
    start_time (step cfg c state) = start_time state
    /\ exists found,
        suspicion_indicators (step cfg c state)
        = (suspicion_indicators state ++ found)%list.
Proof.
  intros cfg c state. destruct c; cbn [step];
    try (split; [reflexivity | exists []; rewrite app_nil_r; reflexivity]).
  - cbn. split; [reflexivity | eexists; reflexivity].
  - unfold get_adaptive_prompt_addition.
    destruct (analyze_scammer_message message state) as [a s] eqn:E.
    cbn [snd]. unfold analyze_scammer_message in E. injection E as _ <-.
    cbn. split; [reflexivity | eexists; reflexivity].
Qed.

Lemma run_keeps_history :
  forall (cfg : Config.t) (calls : list call) (state : ConversationState),
    start_time (run cfg calls state) = start_time state
    /\ exists found,
        suspicion_indicators (run cfg calls state)
        = (suspicion_indicators state ++ found)%list.
Proof.
  intros cfg calls. unfold run.
  induction calls as [| c calls IH]; intros state; cbn [fold_left].
  - split; [reflexivity | exists []; rewrite app_nil_r; reflexivity].
  - destruct (IH (step cfg c state)) as [Ht [f1 Hs]].
    destruct (step_keeps_history cfg c state) as [Ht0 [f0 Hs0]].
    split; [rewrite Ht; exact Ht0 |].
    exists (f0 ++ f1)%list. rewrite Hs, Hs0, app_assoc. reflexivity.
Qed.

(** X23. Once the engine says stop for a reason other than repetition, it says
    stop for good: whatever methods are called afterwards, at any later
    time and with a running list that has not lost high-value entities. *)
Theorem stop_is_permanent :
  forall (cfg : Config.t) (now later : Q) (entities entities' : store)
         (calls : list call) (state : ConversationState) (reason : StopReason),
    now <= later ->
    (get_entity_count entities <= get_entity_count entities')%Z ->
    should_stop cfg now entities state = (true, Some reason) ->
    reason <> UNPRODUCTIVE ->
    fst (should_stop cfg later entities' (run cfg calls state)) = true.
Proof.
  intros cfg now later entities entities' calls state reason Ht He Hstop Hr.
  pose proof (run_message_count cfg calls state) as Hmc.
  destruct (run_keeps_history cfg calls state) as [Hst [found Hsus]].
  unfold should_stop in *. rewrite Hst, Hsus, length_app.
  set (limits := Config.engagement cfg) in *.
  destruct (Config.max_messages limits <=? message_count state)%Z eqn:E1.
  - apply Z.leb_le in E1.
    rewrite (proj2 (Z.leb_le _ _)) by lia. reflexivity.
  - destruct (Config.max_messages limits <=? message_count (run cfg calls state))%Z;
      [reflexivity |].
    destruct (Qle_bool (inject_Z (Config.max_duration_minutes limits))
                       ((now - start_time state) / 60)) eqn:E2.
    + apply Qle_bool_iff in E2.
      assert (E2' : Qle_bool (inject_Z (Config.max_duration_minutes limits))
                             ((later - start_time state) / 60) = true).
      { apply Qle_bool_iff. eapply Qle_trans; [exact E2 |].
        unfold Qdiv. apply Qmult_le_compat_r; [lra | discriminate]. }
      rewrite E2'. reflexivity.
    + destruct (Qle_bool _ ((later - start_time state) / 60)); [reflexivity |].
      destruct (Config.min_entities_for_stop limits <=? get_entity_count entities)%Z
        eqn:E3.
      * apply Z.leb_le in E3. rewrite (proj2 (Z.leb_le _ _)) by lia. reflexivity.
      * destruct (Config.min_entities_for_stop limits <=? get_entity_count entities')%Z;
          [reflexivity |].
        destruct (2 <=? Z.of_nat (List.length (suspicion_indicators state)))%Z eqn:E4.
        -- apply Z.leb_le in E4. rewrite (proj2 (Z.leb_le _ _)) by lia. reflexivity.
        -- destruct (Config.max_repetitions limits <=? scammer_repetitions state)%Z;
             [injection Hstop as <-; contradiction Hr; reflexivity | discriminate Hstop].
Qed.

Lemma stop_is_permanent_witness :
  fst (should_stop (Config.default "key") 120 three_entities
         (run (Config.default "key")
              [AnalyzeScammerMessage "ok"; IncrementMessageCount] (after_turns 4)))
  = true.
Proof.
  apply (stop_is_permanent (Config.default "key") 60 120 three_entities three_entities
           [AnalyzeScammerMessage "ok"; IncrementMessageCount] (after_turns 4)
           ENTITIES_EXTRACTED).
  - lra.
  - lia.
  - vm_compute. reflexivity.
  - discriminate.
Defined.

(** X24. A message that differs from the one before it only by case and by
    blanks around it counts as its repetition; in particular a message
    analysed twice counts as a repetition of itself, and each suspicion
    pattern it matches is recorded twice. *)
Theorem analysis_repeats :
  forall (first second : string) (state : ConversationState),
    lower (strip second) = lower (strip first) ->
    let once := analyze_scammer_message first state in
    let twice := analyze_scammer_message second (snd once) in
    is_repetition (fst twice) = true
    /\ scammer_repetitions (snd twice) = (scammer_repetitions (snd once) + 1)%Z
    /\ suspicion_indicators (snd twice)
       = (suspicion_indicators state
          ++ found_in first SUSPICION_INDICATORS
          ++ found_in second SUSPICION_INDICATORS)%list
    /\ message_count (snd twice) = message_count state.
Proof.
  intros first second state Heq once twice.
  assert (Hlast : lower (strip (last_scammer_message (snd once))) = lower (strip first)).
  { unfold once, analyze_scammer_message. cbn [snd last_scammer_message].
    destruct (String.eqb (lower (strip first))
                         (lower (strip (last_scammer_message state)))) eqn:E;
      [apply String.eqb_eq in E; symmetry; exact E | reflexivity]. }
  assert (Hrep : String.eqb (lower (strip second))
                            (lower (strip (last_scammer_message (snd once)))) = true)
    by (rewrite Hlast, Heq; apply String.eqb_refl).
  unfold twice, analyze_scammer_message at 1 2 3 4.
  cbn [fst snd is_repetition scammer_repetitions suspicion_indicators message_count].
  rewrite Hrep. repeat split.
  unfold once, analyze_scammer_message. cbn [snd suspicion_indicators].
  rewrite app_assoc. reflexivity.
Qed.

Lemma analysis_repeats_witness :
  is_repetition
    (fst (analyze_scammer_message "  PAY NOW "
            (snd (analyze_scammer_message "Pay now" (after_turns 1))))) = true.
Proof.
  refine (proj1 (analysis_repeats "Pay now" "  PAY NOW " (after_turns 1) _)).
  reflexivity.
Defined.

(** X25. While no high-value entity has been extracted the phase follows the
    message count alone: trust building below three messages, extraction
    below eight, exit from eight on.  [DELAY_PROBE] always needs such an
    entity and a message count at least three short of the limit. *)
Theorem phases_follow_the_counts :
  forall (cfg : Config.t) (entities : store) (state : ConversationState),
    (determine_phase cfg entities state = BUILD_TRUST <-> (message_count state < 3)%Z)
    /\ (determine_phase cfg entities state = DELAY_PROBE ->
        (1 <= get_entity_count entities)%Z
        /\ (3 <= message_count state
            < Config.max_messages (Config.engagement cfg) - 3)%Z)
    /\ (get_entity_count entities = 0%Z ->
        determine_phase cfg entities state
        = if (message_count state <? 3)%Z then BUILD_TRUST
          else if (message_count state <? 8)%Z then EXTRACT_INTEL
               else EXIT).
Proof.
  intros cfg entities state. unfold determine_phase.
  destruct (message_count state <? 3)%Z eqn:E3.
  - apply Z.ltb_lt in E3. repeat split; try discriminate; try lia; reflexivity.
  - apply Z.ltb_ge in E3.
    destruct (message_count state <? 8)%Z eqn:E8;
      destruct (get_entity_count entities <? 2)%Z eqn:Ee; cbn [andb];
      destruct (1 <=? get_entity_count entities)%Z eqn:E1;
      destruct (message_count state <?
                Config.max_messages (Config.engagement cfg) - 3)%Z eqn:Em;
      cbn [andb];
      try apply Z.ltb_lt in E8; try apply Z.ltb_ge in E8;
      try apply Z.ltb_lt in Ee; try apply Z.ltb_ge in Ee;
      try apply Z.leb_le in E1; try apply Z.leb_gt in E1;
      try apply Z.ltb_lt in Em; try apply Z.ltb_ge in Em;
      repeat split; try discriminate; try lia; try reflexivity;
      intros; try lia; try discriminate.
Qed.

Lemma phases_follow_the_counts_witness :
  determine_phase (Config.default "key") [] (after_turns 9) = EXIT.
Proof.
  refine (proj2 (proj2 (phases_follow_the_counts (Config.default "key") []
                          (after_turns 9))) _).
  reflexivity.
Defined.

End StrategyMoreFacts.

(* ===================================================================== *)
(** * Properties of the persona manager and of the agent                 *)
(* ===================================================================== *)

Section PersonaFacts.
Import PersonaManager Samples.

(** X26. [select_persona] always finds its persona, the one mapped to the scam
    type and never the student, and starts a fresh memory. *)
Theorem select_persona_always_succeeds :
  forall (scam_type : ScamDetector.ScamType) (st : state),
    exists p,
      select_persona scam_type st
      = Some (p, {| current_persona := Some p; memory := Some [] |})
      /\ persona_type p = persona_mapping scam_type
      /\ persona_type p <> STUDENT.
Proof.
  intros scam_type st.
  destruct scam_type; cbn; eexists; (split; [reflexivity |]); cbn;
    split; (reflexivity || discriminate).
Qed.

Lemma skipn_suffix :
  forall (A : Type) (n : nat) (l : list A), exists prefix, l = (prefix ++ skipn n l)%list.
Proof.
  intros A n l. exists (firstn n l). symmetry. apply firstn_skipn.
Qed.

(** X27. The recent messages are always the end of the history: the last
    [count] of them for a positive [count], and the whole history when
    [count] is zero or exceeds its length. *)
Theorem recent_messages_are_a_suffix :
  forall (A : Type) (count : Z) (messages : list A),
    (exists older, messages = (older ++ get_recent_messages count messages)%list)
    /\ ((0 < count)%Z ->
        List.length (get_recent_messages count messages)
        = Nat.min (Z.to_nat count) (List.length messages))
    /\ (count = 0%Z \/ (Z.of_nat (List.length messages) <= count)%Z ->
        get_recent_messages count messages = messages).
Proof.
  intros A count messages. unfold get_recent_messages.
  destruct (0 <? count)%Z eqn:E.
  - apply Z.ltb_lt in E. split; [apply skipn_suffix |].
    split; [intros _; rewrite length_skipn; lia |].
    intros [-> | H]; [lia |].
    replace (List.length messages - Z.to_nat count)%nat with 0%nat by lia.
    reflexivity.
  - apply Z.ltb_ge in E. split; [apply skipn_suffix |].
    split; [lia |].
    intros [-> | H]; [reflexivity |].
    assert (count = 0%Z) by lia. subst count. reflexivity.
Qed.

Lemma recent_messages_are_a_suffix_witness :
  List.length (get_recent_messages 2 [("scammer", "a"); ("victim", "b"); ("scammer", "c")])
  = Nat.min (Z.to_nat 2) 3.
Proof.
  refine (proj1 (proj2 (recent_messages_are_a_suffix _ 2
                          [("scammer", "a"); ("victim", "b"); ("scammer", "c")])) _).
  lia.
Defined.

End PersonaFacts.

Section AgentFacts.
Import Text EntityExtractor StrategyEngine ConversationAgent Main Scenario Samples.

Lemma exit_message_is_listed :
  forall choice : nat, In (_generate_exit_message choice) exit_messages.
Proof.
  intros choice. unfold _generate_exit_message. apply nth_In.
  apply Nat.mod_upper_bound. discriminate.
Qed.

Lemma add_message_keeps_persona :
  forall role content st,
    PersonaManager.current_persona (PersonaManager.add_message role content st)
    = PersonaManager.current_persona st.
Proof.
  intros role content st. unfold PersonaManager.add_message.
  destruct (PersonaManager.memory st); reflexivity.
Qed.

(** What a call of [generate_response] does to the engine, whichever way
    it ends: the first analysis always runs; when the engine does not say
    stop the second analysis runs too. *)
Lemma generate_response_engine :
  forall cfg env message w,
    let store1 := snd (extract cfg (net env) message "scammer" (store w)) in
    let engine1 := snd (analyze_scammer_message message (engine w)) in
    let after := snd (generate_response cfg env message w) in
    store after = store1
    /\ PersonaManager.current_persona (persona after)
       = PersonaManager.current_persona (persona w)
    /\ (fst (should_stop cfg (now env) store1 engine1) = true ->
        fst (generate_response cfg env message w)
        = Value (Some (_generate_exit_message (exit_choice env)))
        /\ engine after = engine1 /\ llm after = llm w /\ persona after = persona w)
    /\ (fst (should_stop cfg (now env) store1 engine1) = false ->
        suspicion_indicators (engine after)
        = (suspicion_indicators (engine w)
           ++ found_in message SUSPICION_INDICATORS
           ++ found_in message SUSPICION_INDICATORS)%list
        /\ start_time (engine after) = start_time (engine w)
        /\ (message_count (engine after)
            = match fst (generate_response cfg env message w) with
              | Value (Some _) => message_count (engine w) + 1
              | _ => message_count (engine w)
              end)%Z).
Proof.
  intros cfg env message w store1 engine1 after.
  unfold after, generate_response. fold store1 engine1.
  destruct (fst (should_stop cfg (now env) store1 engine1)) eqn:Estop.
  - cbn [fst snd store persona]. repeat split; try reflexivity; discriminate.
  - assert (Hsus : suspicion_indicators
                     (snd (get_adaptive_prompt_addition message
                             (snd (get_strategy_guidance cfg store1 engine1))))
                   = (suspicion_indicators (engine w)
                      ++ found_in message SUSPICION_INDICATORS
                      ++ found_in message SUSPICION_INDICATORS)%list).
    { unfold get_adaptive_prompt_addition, get_strategy_guidance, engine1,
        analyze_scammer_message.
      cbn [fst snd suspicion_indicators]. rewrite app_assoc. reflexivity. }
    assert (Hmc : message_count
                    (snd (get_adaptive_prompt_addition message
                            (snd (get_strategy_guidance cfg store1 engine1))))
                  = message_count (engine w)) by reflexivity.
    assert (Hst : start_time
                    (snd (get_adaptive_prompt_addition message
                            (snd (get_strategy_guidance cfg store1 engine1))))
                  = start_time (engine w)) by reflexivity.
    destruct (PersonaManager.current_persona (persona w)) eqn:Ep.
    + destruct (negb (Llm.success
                        (fst (generate_victim_response cfg (first_outcome env) (llm w)))));
        cbn [fst snd store persona engine];
        rewrite ?add_message_keeps_persona;
        (split; [reflexivity | split; [exact Ep | split; [discriminate |]]]);
        intros _; cbn [suspicion_indicators increment_message_count start_time
                       message_count];
        rewrite ?Hmc; repeat split; assumption || reflexivity.
    + cbn [fst snd store persona engine].
      split; [reflexivity | split; [exact Ep | split; [discriminate |]]].
      intros _. repeat split; assumption.
Qed.

(** X28. One suspicious message ends the engagement: when a message that
    matches a suspicion pattern gets through a turn that was not stopped,
    it is analysed twice, and every call that follows finds the two hits
    and answers with an exit message, leaving the message count and the
    oracle alone. *)
Theorem suspicious_message_ends_engagement :
  forall (cfg : Config.t) (env1 env2 : turn_env) (message1 message2 : string)
         (w : world),
    found_in message1 SUSPICION_INDICATORS <> [] ->
    fst (should_stop cfg (now env1)
           (snd (extract cfg (net env1) message1 "scammer" (store w)))
           (snd (analyze_scammer_message message1 (engine w)))) = false ->
    let w1 := snd (generate_response cfg env1 message1 w) in
    let second := generate_response cfg env2 message2 w1 in
    fst second = Value (Some (_generate_exit_message (exit_choice env2)))
    /\ In (_generate_exit_message (exit_choice env2)) exit_messages
    /\ message_count (engine (snd second)) = message_count (engine w1)
    /\ llm (snd second) = llm w1.
Proof.
  intros cfg env1 env2 message1 message2 w Hfound Hgo w1 second.
  destruct (generate_response_engine cfg env1 message1 w) as [_ [_ [_ H1]]].
  destruct (H1 Hgo) as [Hsus _]. fold w1 in Hsus.
  assert (Hstop : fst (should_stop cfg (now env2)
                         (snd (extract cfg (net env2) message2 "scammer" (store w1)))
                         (snd (analyze_scammer_message message2 (engine w1)))) = true).
  { unfold should_stop, analyze_scammer_message.
    cbn [snd message_count start_time suspicion_indicators scammer_repetitions].
    rewrite Hsus, !length_app.
    destruct (found_in message1 SUSPICION_INDICATORS) as [| x l]; [contradiction |].
    cbn [List.length].
    repeat match goal with
           | |- fst (if ?b then _ else _) = true => destruct b eqn:?; [reflexivity |]
           end.
    all: try reflexivity.
    exfalso.
    match goal with
    | H : (2 <=? _)%Z = false |- _ => apply Z.leb_gt in H; lia
    end. }
  destruct (generate_response_engine cfg env2 message2 w1) as [_ [_ [H2 _]]].
  destruct (H2 Hstop) as [Hres [Heng [Hllm _]]].
  split; [exact Hres |]. split; [apply exit_message_is_listed |].
  split; [unfold second; rewrite Heng; reflexivity | exact Hllm].
Qed.

Lemma suspicious_message_ends_engagement_witness :
  fst (generate_response (Config.default "key") calm "So are you interested or not?"
         (snd (generate_response (Config.default "key") calm
                 "Please call me now." ready)))
  = Value (Some (_generate_exit_message 0)).
Proof.
  refine (proj1 (suspicious_message_ends_engagement
                   (Config.default "key") calm calm
                   "Please call me now."
                   "So are you interested or not?" ready _ _)).
  - vm_compute. discriminate.
  - vm_compute. reflexivity.
Defined.

End AgentFacts.

(* ===================================================================== *)
(** * Properties of the conversation loop                                *)
(* ===================================================================== *)

Section LoopFacts.
Import Text EntityExtractor StrategyEngine ConversationAgent Main Scenario Samples.

Lemma generate_response_count :
  forall cfg env message w,
    (message_count (engine w)
     <= message_count (engine (snd (generate_response cfg env message w)))
     <= message_count (engine w) + 1)%Z.
Proof.
  intros cfg env message w.
  destruct (generate_response_engine cfg env message w) as [_ [_ [Hstop Hgo]]].
  destruct (fst (should_stop cfg (now env)
                   (snd (extract cfg (net env) message "scammer" (store w)))
                   (snd (analyze_scammer_message message (engine w))))) eqn:E.
  - destruct (Hstop eq_refl) as [_ [-> _]]. cbn. lia.
  - destruct (Hgo eq_refl) as [_ [_ ->]].
    destruct (fst (generate_response cfg env message w)) as [[t |] |]; lia.
Qed.

Lemma generate_response_needs_persona :
  forall cfg env message w,
    fst (generate_response cfg env message w) = NoPersonaSelected ->
    PersonaManager.current_persona (persona w) = None.
Proof.
  intros cfg env message w. unfold generate_response.
  destruct (fst (should_stop _ _ _ _)); [discriminate |].
  destruct (PersonaManager.current_persona (persona w)); [| reflexivity].
  destruct (negb _); discriminate.
Qed.

Lemma generate_response_answers :
  forall cfg env message w,
    Config.enable_fallback (Config.llm cfg) = true ->
    PersonaManager.current_persona (persona w) <> None ->
    exists text, fst (generate_response cfg env message w) = Value (Some text).
Proof.
  intros cfg env message w Hfb Hp. unfold generate_response.
  destruct (fst (should_stop _ _ _ _)); [eexists; reflexivity |].
  destruct (PersonaManager.current_persona (persona w)); [| contradiction].
  unfold generate_victim_response.
  rewrite (proj1 (generate_with_fallback_succeeds
                    cfg (first_outcome env) true (llm w) Hfb)).
  cbn [negb fst]. eexists. reflexivity.
Qed.

Lemma generate_response_keeps_index :
  forall cfg env message w,
    (Llm.fallback_index (llm w) < 5)%nat ->
    (Llm.fallback_index (llm (snd (generate_response cfg env message w))) < 5)%nat.
Proof.
  intros cfg env message w H. unfold generate_response.
  pose proof (generate_keeps_index cfg (first_outcome env) true (llm w) H) as H1.
  pose proof (generate_keeps_index cfg (second_outcome env) true _ H1) as H2.
  destruct (fst (should_stop _ _ _ _)); [exact H |].
  destruct (PersonaManager.current_persona (persona w)); [| exact H].
  unfold generate_victim_response.
  destruct (negb _); [exact H1 |].
  cbn [snd llm]. destruct (consistent env); [exact H1 | exact H2].
Qed.

Lemma rounds_keep_index :
  forall cfg env scammer_callback fuel turn exchanged victim_response w,
    (Llm.fallback_index (llm w) < 5)%nat ->
    (Llm.fallback_index
       (llm (snd (rounds cfg env scammer_callback fuel turn exchanged victim_response w)))
     < 5)%nat.
Proof.
  intros cfg env scammer_callback fuel.
  induction fuel as [| fuel IH]; intros turn exchanged victim_response w H;
    cbn [rounds];
    destruct (negb (exchanged <? Config.max_messages (Config.engagement cfg))%Z);
    try exact H.
  destruct (scammer_callback (turn - 1)%nat victim_response) as [message |];
    [| exact H].
  set (w1 := {| store := store w; engine := engine w; llm := llm w;
                persona := PersonaManager.add_message "scammer" message (persona w) |}).
  pose proof (generate_response_keeps_index cfg (env turn) message w1 H) as H1.
  destruct (generate_response cfg (env turn) message w1) as [[[text |] |] w2];
    cbn [snd] in H1 |- *; try exact H1.
  apply IH. exact H1.
Qed.

Lemma rounds_bounded :
  forall cfg env scammer_callback fuel turn exchanged victim_response w,
    (Z.to_nat (Config.max_messages (Config.engagement cfg) - exchanged) <= fuel)%nat ->
    match rounds cfg env scammer_callback fuel turn exchanged victim_response w with
    | (OutOfFuel, _) => False
    | (NoPersonaError, _) => PersonaManager.current_persona (persona w) = None
    | (Done r, w') =>
        (exchanged <= messages_exchanged r
         <= Z.max exchanged (Config.max_messages (Config.engagement cfg)))%Z
        /\ In (stop_reason r) [MAX_MESSAGES; SCAMMER_DISENGAGED; AGENT_DISENGAGED]
        /\ (message_count (engine w) <= message_count (engine w')
            <= message_count (engine w) + (messages_exchanged r - exchanged))%Z
    end.
Proof.
  intros cfg env scammer_callback fuel.
  induction fuel as [| fuel IH]; intros turn exchanged victim_response w Hfuel;
    cbn [rounds];
    destruct (exchanged <? Config.max_messages (Config.engagement cfg))%Z eqn:E;
    cbn [negb];
    try (apply Z.ltb_ge in E; cbn [messages_exchanged stop_reason];
         split; [lia | split; [left; reflexivity | lia]]).
  - apply Z.ltb_lt in E. lia.
  - apply Z.ltb_lt in E.
    destruct (scammer_callback (turn - 1)%nat victim_response) as [message |];
      [| cbn [messages_exchanged stop_reason];
         split; [lia | split; [right; left; reflexivity | lia]]].
    set (w1 := {| store := store w; engine := engine w; llm := llm w;
                  persona := PersonaManager.add_message "scammer" message (persona w) |}).
    pose proof (generate_response_count cfg (env turn) message w1) as Hc.
    pose proof (generate_response_needs_persona cfg (env turn) message w1) as Hn.
    pose proof (generate_response_engine cfg (env turn) message w1) as [_ [Hp _]].
    destruct (generate_response cfg (env turn) message w1) as [[[text |] |] w2];
      cbn [fst snd] in *.
    + specialize (IH (S turn) (exchanged + 1)%Z (Some text) w2 ltac:(lia)).
      destruct (rounds cfg env scammer_callback fuel (S turn) (exchanged + 1)
                       (Some text) w2) as [[r | |] w3].
      * destruct IH as [H1 [H2 H3]]. unfold w1 in Hc. cbn [engine] in Hc.
        split; [lia | split; [exact H2 | lia]].
      * rewrite IH in Hp. unfold w1 in Hp. cbn [persona] in Hp.
        rewrite add_message_keeps_persona in Hp. symmetry. exact Hp.
      * exact IH.
    + cbn [messages_exchanged stop_reason]. unfold w1 in Hc. cbn [engine] in Hc.
      split; [lia | split; [right; right; left; reflexivity | lia]].
    + specialize (Hn eq_refl). unfold w1 in Hn. cbn [persona] in Hn.
      rewrite add_message_keeps_persona in Hn. exact Hn.
Qed.

(** X29. The conversation loop ends within the message limit and never for a
    reason of the engine: it makes between one and [max_messages]
    exchanges, raises only when no persona was selected, and reports the
    message limit, the scammer's or the agent's disengagement, or the
    demo mode; the engine's count grows by at most the exchanges made and
    the rotation of the canned replies stays within its list. *)
Theorem conversation_loop_is_bounded :
  forall (cfg : Config.t) (env : nat -> turn_env)
         (scammer_callback : nat -> option string -> option string)
         (with_callback : bool) (initial_message : string) (w : world),
    (Llm.fallback_index (llm w) < 5)%nat ->
    match _conversation_loop cfg env scammer_callback with_callback initial_message w with
    | (OutOfFuel, _) => False
    | (NoPersonaError, _) => PersonaManager.current_persona (persona w) = None
    | (Done r, w') =>
        (1 <= messages_exchanged r
         <= Z.max 1 (Config.max_messages (Config.engagement cfg)))%Z
        /\ In (stop_reason r)
              [MAX_MESSAGES; SCAMMER_DISENGAGED; AGENT_DISENGAGED; DEMO_MODE]
        /\ (message_count (engine w) <= message_count (engine w')
            <= message_count (engine w) + messages_exchanged r)%Z
        /\ (Llm.fallback_index (llm w') < 5)%nat
    end.
Proof.
  intros cfg env scammer_callback with_callback initial_message w Hidx.
  unfold _conversation_loop.
  pose proof (generate_response_keeps_index cfg (env 0%nat) initial_message w Hidx)
    as Hidx1.
  pose proof (generate_response_count cfg (env 0%nat) initial_message w) as Hc.
  pose proof (generate_response_needs_persona cfg (env 0%nat) initial_message w) as Hn.
  pose proof (generate_response_engine cfg (env 0%nat) initial_message w) as [_ [Hp _]].
  destruct (generate_response cfg (env 0%nat) initial_message w) as [[response |] w1];
    cbn [fst snd] in *; [| exact (Hn eq_refl)].
  destruct with_callback; cbn [negb].
  - pose proof (rounds_bounded cfg env scammer_callback
                  (Z.to_nat (Config.max_messages (Config.engagement cfg) - 1))
                  1%nat 1%Z response w1 (Nat.le_refl _)) as H.
    pose proof (rounds_keep_index cfg env scammer_callback
                  (Z.to_nat (Config.max_messages (Config.engagement cfg) - 1))
                  1%nat 1%Z response w1 Hidx1) as Hidx2.
    destruct (rounds cfg env scammer_callback _ 1%nat 1%Z response w1) as [[r | |] w2].
    + destruct H as [H1 [H2 H3]]. cbn [snd] in Hidx2.
      split; [lia | split; [| split; [lia | exact Hidx2]]].
      cbn in H2 |- *. tauto.
    + rewrite H in Hp. symmetry. exact Hp.
    + exact H.
  - cbn [messages_exchanged stop_reason].
    split; [lia | split; [do 3 right; left; reflexivity | split; [lia | exact Hidx1]]].
Qed.

Lemma conversation_loop_is_bounded_witness :
  match _conversation_loop (Config.default "key") (fun _ => calm) insistent true
                           "You have won a prize! Send the fee to claim@paytm" ready with
  | (OutOfFuel, _) => False
  | (NoPersonaError, _) => PersonaManager.current_persona (persona ready) = None
  | (Done r, w') =>
      (1 <= messages_exchanged r <= 15)%Z
      /\ In (stop_reason r)
            [MAX_MESSAGES; SCAMMER_DISENGAGED; AGENT_DISENGAGED; DEMO_MODE]
      /\ (message_count (engine ready) <= message_count (engine w')
          <= message_count (engine ready) + messages_exchanged r)%Z
      /\ (Llm.fallback_index (llm w') < 5)%nat
  end.
Proof.
  apply (conversation_loop_is_bounded (Config.default "key") (fun _ => calm) insistent
           true "You have won a prize! Send the fee to claim@paytm" ready).
  cbn. lia.
Defined.

Lemma rounds_run_to_the_limit :
  forall cfg env scammer_callback fuel turn exchanged victim_response w,
    Config.enable_fallback (Config.llm cfg) = true ->
    (forall n response, scammer_callback n response <> None) ->
    PersonaManager.current_persona (persona w) <> None ->
    (Z.to_nat (Config.max_messages (Config.engagement cfg) - exchanged) <= fuel)%nat ->
    exists r w',
      rounds cfg env scammer_callback fuel turn exchanged victim_response w = (Done r, w')
      /\ messages_exchanged r
         = Z.max exchanged (Config.max_messages (Config.engagement cfg))
      /\ stop_reason r = MAX_MESSAGES.
Proof.
  intros cfg env scammer_callback fuel.
  induction fuel as [| fuel IH];
    intros turn exchanged victim_response w Hfb Hcb Hp Hfuel; cbn [rounds];
    destruct (exchanged <? Config.max_messages (Config.engagement cfg))%Z eqn:E;
    cbn [negb];
    try (apply Z.ltb_ge in E; eexists; eexists; split; [reflexivity |];
         cbn [messages_exchanged stop_reason]; split; [lia | reflexivity]).
  - apply Z.ltb_lt in E. lia.
  - apply Z.ltb_lt in E.
    destruct (scammer_callback (turn - 1)%nat victim_response) as [message |] eqn:Ecb;
      [| exfalso; exact (Hcb _ _ Ecb)].
    set (w1 := {| store := store w; engine := engine w; llm := llm w;
                  persona := PersonaManager.add_message "scammer" message (persona w) |}).
    assert (Hp1 : PersonaManager.current_persona (persona w1) <> None)
      by (unfold w1; cbn [persona]; rewrite add_message_keeps_persona; exact Hp).
    destruct (generate_response_answers cfg (env turn) message w1 Hfb Hp1) as [text Ht].
    pose proof (generate_response_engine cfg (env turn) message w1) as [_ [Hpers _]].
    destruct (generate_response cfg (env turn) message w1) as [res w2].
    cbn [fst snd] in *. subst res.
    destruct (IH (S turn) (exchanged + 1)%Z (Some text) w2 Hfb Hcb
                 ltac:(rewrite Hpers; exact Hp1) ltac:(lia)) as [r [w3 [Hr [Hm Hs]]]].
    exists r, w3. split; [exact Hr | split; [lia | exact Hs]].
Qed.

(** X30. With the fallback enabled, a persona selected and the rotation of the
    canned replies within its list, a scammer who keeps answering is
    answered up to the message limit: the loop always makes
    [max_messages] exchanges (one when the limit is lower) and reports
    the message limit, whether or not the engine has said stop on the
    way. *)
Theorem loop_runs_to_the_limit :
  forall (cfg : Config.t) (env : nat -> turn_env)
         (scammer_callback : nat -> option string -> option string)
         (initial_message : string) (w : world),
    Config.enable_fallback (Config.llm cfg) = true ->
    (forall n response, scammer_callback n response <> None) ->
    PersonaManager.current_persona (persona w) <> None ->
    (Llm.fallback_index (llm w) < 5)%nat ->
    exists r w',
      _conversation_loop cfg env scammer_callback true initial_message w = (Done r, w')
      /\ messages_exchanged r = Z.max 1 (Config.max_messages (Config.engagement cfg))
      /\ stop_reason r = MAX_MESSAGES.
Proof.
  intros cfg env scammer_callback initial_message w Hfb Hcb Hp _.
  unfold _conversation_loop.
  destruct (generate_response_answers cfg (env 0%nat) initial_message w Hfb Hp)
    as [text Ht].
  pose proof (generate_response_engine cfg (env 0%nat) initial_message w) as [_ [Hpers _]].
  destruct (generate_response cfg (env 0%nat) initial_message w) as [res w1].
  cbn [fst snd] in *. subst res. cbn [negb].
  apply rounds_run_to_the_limit; try assumption; [| lia].
  rewrite Hpers. exact Hp.
Qed.

Lemma loop_runs_to_the_limit_witness :
  exists r w',
    _conversation_loop (Config.default "key") (fun _ => calm) insistent true
                       "You have won a prize! Send the fee to claim@paytm" ready
    = (Done r, w')
    /\ messages_exchanged r = 15%Z
    /\ stop_reason r = MAX_MESSAGES.
Proof.
  apply (loop_runs_to_the_limit (Config.default "key") (fun _ => calm) insistent
           "You have won a prize! Send the fee to claim@paytm" ready).
  - reflexivity.
  - intros n response. discriminate.
  - discriminate.
  - cbn. lia.
Defined.

End LoopFacts.
